(** * The Altrii Recovery MDM server (mdm/server.js), embedded in Rocq

    The class [AltriiMDMServer] keeps three in-memory maps
    ([deviceSessions], [pendingCommands], [enrollmentCodes]) next to a
    durable relational store, and answers the check-in, command,
    enrollment and operator endpoints.  The embedding below follows the
    class method by method: the maps are [gmap]s keyed by strings, the
    store is a record of tables, and every method is a computation in a
    small state-and-exception monad, so that the [try]/[catch] blocks of
    the source keep their shape. *)

From Stdlib Require Import ZArith String Ascii Bool.
From stdpp Require Import gmap strings list fin_maps.

Local Open Scope string_scope.
Local Open Scope list_scope.
Local Open Scope Z_scope.

(** ** JavaScript values and objects *)

(** [s.includes(sub)] on strings. *)
Fixpoint includes (s sub : string) : bool :=
  if String.prefix sub s then true
  else match s with
       | EmptyString => false
       | String _ s' => includes s' sub
       end.

(** Membership test used for SQL [= ANY] and for [Set.has]. *)
Definition str_mem (x : string) (l : list string) : bool :=
  existsb (String.eqb x) l.

(** [[...new Set(l)]]: the elements of [l] without repetition, each at the
    place of its first occurrence. *)
Fixpoint set_spread_from (seen l : list string) : list string :=
  match l with
  | [] => []
  | x :: l' =>
      if str_mem x seen then set_spread_from seen l'
      else x :: set_spread_from (x :: seen) l'
  end.

Definition set_spread (l : list string) : list string := set_spread_from [] l.

(** Identifiers produced by [uuidv4()]: the generator is modelled as a
    supply of fresh names, the n-th draw being the name [n]. *)
Definition UUID := nat.

Inductive JValue :=
| JUndefined
| JBool (b : bool)
| JNum (n : Z)
| JStr (s : string)
| JUuid (u : UUID)
| JStrs (l : list string).

(** A plain object: its own keys in insertion order. *)
Definition Obj := list (string * JValue).

Fixpoint obj_get (k : string) (o : Obj) : option JValue :=
  match o with
  | [] => None
  | (k', v) :: o' => if String.eqb k k' then Some v else obj_get k o'
  end.

(** [o[k] = v], also one step of [Object.assign] and of a spread. *)
Fixpoint obj_set (k : string) (v : JValue) (o : Obj) : Obj :=
  match o with
  | [] => [(k, v)]
  | (k', v') :: o' =>
      if String.eqb k k' then (k', v) :: o' else (k', v') :: obj_set k v o'
  end.

(** [Object.assign(o, src)] and [{...o, ...src}]. *)
Definition obj_assign (o src : Obj) : Obj :=
  fold_left (fun acc kv => obj_set (fst kv) (snd kv) acc) src o.

(** [o.k], which is [undefined] for a missing key. *)
Definition obj_prop (k : string) (o : Obj) : JValue :=
  match obj_get k o with Some v => v | None => JUndefined end.

(** [x || []] for an optional array. *)
Definition or_empty (l : option (list string)) : list string :=
  match l with Some l => l | None => [] end.

(** ** Messages and records *)

(** The operator's blocking settings, as the profile builder reads them. *)
Record Settings := {
  block_adult_content : bool;
  block_gambling : bool;
  block_social_media : bool;
  block_gaming : bool;
  block_news : bool;
  block_entertainment : bool;
  block_shopping : bool;
  block_dating : bool;
  custom_blocked_domains : option (list string);
  customAllowedDomains : option (list string);
  additionalBlockedApps : option (list string);
  allowJavaScript : option bool
}.

(** The configuration profile handed to [plist.build]. *)
Record Profile := {
  PayloadType : string;
  PayloadVersion : Z;
  PayloadIdentifier : string;
  PayloadUUID : UUID;
  PayloadDisplayName : string;
  PayloadDescription : string;
  PayloadOrganization : string;
  PayloadRemovalDisallowed : bool;
  PayloadContent : list Obj
}.

(** A queued MDM command: [{ CommandUUID, Command: { RequestType, ... } }]. *)
Record Command := {
  CommandUUID : UUID;
  Command_ : Obj
}.

(** An entry of a device-reported profile list. *)
Record InstalledProfile := { ip_PayloadIdentifier : string }.

Record SecurityInfo := {
  si_IsSupervised : option bool;
  si_PasscodePresent : option bool;
  si_PasscodeCompliant : option bool;
  si_PasscodeCompliantWithProfiles : option bool
}.

Record App := {
  app_BundleIdentifier : string;
  app_Name : option string;
  app_Version : option string;
  app_IsSystemApp : option bool
}.

(** The decoded body of a request to the command endpoint. *)
Record CommandResponse := {
  r_CommandUUID : option UUID;
  r_Status : string;
  r_RequestType : option string;
  r_ProfileList : option (list InstalledProfile);
  r_SecurityInfo : option SecurityInfo;
  r_InstalledApplicationList : option (list App);
  r_Restrictions : option Obj
}.

(** The decoded body of a request to the check-in endpoint. *)
Record CheckInData := {
  MessageType : string;
  UDID : option string;
  SerialNumber : option string;
  Model : option string;
  OSVersion : option string;
  BuildVersion : option string;
  IsSupervised : option bool;
  Token : option string;
  PushMagic : option string;
  UnlockToken : option string;
  Reason : option string
}.

(** An entry of [deviceSessions]. *)
Record Session := {
  s_deviceId : Z;
  s_udid : option string;
  s_serialNumber : option string;
  s_model : option string;
  s_osVersion : option string;
  s_buildVersion : option string;
  s_lastCheckIn : Z;
  s_supervised : bool;
  s_pushToken : option string;
  s_pushMagic : option string;
  s_unlockToken : option string
}.

(** An entry of [enrollmentCodes]. *)
Record Enrollment := {
  e_profileData : string;
  e_deviceId : string;
  e_userId : string;
  e_profileUUID : UUID;
  e_expiresAt : Z
}.

(** The server configuration object. *)
Record Config := {
  serverUrl : string;
  mdmTopic : option string;
  production : bool;
  apiKey : string;
  apns : bool;
  signingCertificate : option string;
  signingKey : option string
}.

(** [x || d] for an optional string. *)
Definition str_or (x : option string) (d : string) : string :=
  match x with
  | Some s => if String.eqb s "" then d else s
  | None => d
  end.

(** ** The durable store

    The source reaches the store through [db.query] with SQL text.  Each
    table is a list of rows in insertion order; the columns kept are the
    ones the statements of this class read or write.  For [mdm_commands]
    the insertion order is the order of [created_at], which no statement
    sets and the store fills in on insertion. *)

Record DeviceProfileRow := {
  dp_id : Z;
  dp_profile_uuid : string;
  dp_mdm_enrolled : bool;
  dp_supervision_level : Z
}.

Record SessionRow := {
  ms_device_id : Z;
  ms_udid : option string;
  ms_serial_number : option string;
  ms_model : option string;
  ms_os_version : option string;
  ms_build_version : option string;
  ms_supervised : bool;
  ms_push_token : option string;
  ms_push_magic : option string;
  ms_unlock_token : option string;
  ms_last_check_in : option Z
}.

Record CommandRow := {
  mc_device_id : Z;
  mc_command_uuid : UUID;
  mc_command_type : string;
  mc_command_data : Command;
  mc_status : string;
  mc_acknowledged_at : option Z;
  mc_response_data : option CommandResponse
}.

Inductive EventData :=
| EvAuthenticated (supervised : option bool) (osVersion : option string)
| EvUnenrolled (reason : string)
| EvCommandResponse (commandUUID : option UUID) (status : string)
    (data : CommandResponse)
| EvProfileDownloaded (enrollmentCode : string)
| EvSecurityInfoUpdated (supervised passcodeSet : bool)
    (passcodeCompliant passcodeCompliantWithProfiles : option bool)
| EvProhibitedApps (apps : list (string * option string))
| EvRestrictionViolations (issues : list string).

(** The first argument of [logDeviceEvent]: the numeric id of the device
    record in every call but the one of [getEnrollmentProfile], which
    passes the device identifier kept in the enrollment entry. *)
Inductive DeviceRef :=
| RecordId (id : Z)
| DeviceIdentifier (deviceId : string).

Record EventRow := {
  ev_device_id : DeviceRef;
  ev_event_type : string;
  ev_event_data : EventData
}.

Record SupervisionProfileRow := {
  sp_device_id : Z;
  sp_profile_uuid : UUID;
  sp_profile_identifier : string;
  sp_display_name : string;
  sp_security_level : Z;
  sp_profile_data : string;
  sp_installed : bool;
  sp_install_date : option Z
}.

Record EnrollmentRow := {
  se_enrollment_code : string;
  se_device_id : Z;
  se_user_id : string;
  se_status : string;
  se_enrolled_at : option Z
}.

Record BlockedDomainRow := { bd_domain : string; bd_category : string }.

Record AppInventoryRow := {
  ai_device_id : Z;
  ai_bundle_identifier : string;
  ai_app_name : string;
  ai_version : option string;
  ai_is_system_app : bool;
  ai_is_blocked : bool;
  ai_last_seen_at : option Z
}.

Record RestrictionRow := {
  dr_device_id : Z;
  dr_restriction_set : option Obj;
  dr_verified_at : Z;
  dr_active : bool
}.

Record Db := {
  device_profiles : list DeviceProfileRow;
  mdm_device_sessions : list SessionRow;
  mdm_commands : list CommandRow;
  mdm_device_events : list EventRow;
  supervision_profiles : list SupervisionProfileRow;
  supervision_enrollments : list EnrollmentRow;
  blocked_domains : list BlockedDomainRow;
  blocked_apps : list string;
  device_app_inventory : list AppInventoryRow;
  device_restrictions : list RestrictionRow
}.

Definition set_device_profiles (t : list DeviceProfileRow) (d : Db) : Db :=
  {| device_profiles := t; mdm_device_sessions := mdm_device_sessions d;
     mdm_commands := mdm_commands d; mdm_device_events := mdm_device_events d;
     supervision_profiles := supervision_profiles d;
     supervision_enrollments := supervision_enrollments d;
     blocked_domains := blocked_domains d; blocked_apps := blocked_apps d;
     device_app_inventory := device_app_inventory d;
     device_restrictions := device_restrictions d |}.

Definition set_mdm_device_sessions (t : list SessionRow) (d : Db) : Db :=
  {| device_profiles := device_profiles d; mdm_device_sessions := t;
     mdm_commands := mdm_commands d; mdm_device_events := mdm_device_events d;
     supervision_profiles := supervision_profiles d;
     supervision_enrollments := supervision_enrollments d;
     blocked_domains := blocked_domains d; blocked_apps := blocked_apps d;
     device_app_inventory := device_app_inventory d;
     device_restrictions := device_restrictions d |}.

Definition set_mdm_commands (t : list CommandRow) (d : Db) : Db :=
  {| device_profiles := device_profiles d;
     mdm_device_sessions := mdm_device_sessions d;
     mdm_commands := t; mdm_device_events := mdm_device_events d;
     supervision_profiles := supervision_profiles d;
     supervision_enrollments := supervision_enrollments d;
     blocked_domains := blocked_domains d; blocked_apps := blocked_apps d;
     device_app_inventory := device_app_inventory d;
     device_restrictions := device_restrictions d |}.

Definition set_mdm_device_events (t : list EventRow) (d : Db) : Db :=
  {| device_profiles := device_profiles d;
     mdm_device_sessions := mdm_device_sessions d;
     mdm_commands := mdm_commands d; mdm_device_events := t;
     supervision_profiles := supervision_profiles d;
     supervision_enrollments := supervision_enrollments d;
     blocked_domains := blocked_domains d; blocked_apps := blocked_apps d;
     device_app_inventory := device_app_inventory d;
     device_restrictions := device_restrictions d |}.

Definition set_supervision_profiles (t : list SupervisionProfileRow) (d : Db) : Db :=
  {| device_profiles := device_profiles d;
     mdm_device_sessions := mdm_device_sessions d;
     mdm_commands := mdm_commands d; mdm_device_events := mdm_device_events d;
     supervision_profiles := t;
     supervision_enrollments := supervision_enrollments d;
     blocked_domains := blocked_domains d; blocked_apps := blocked_apps d;
     device_app_inventory := device_app_inventory d;
     device_restrictions := device_restrictions d |}.

Definition set_supervision_enrollments (t : list EnrollmentRow) (d : Db) : Db :=
  {| device_profiles := device_profiles d;
     mdm_device_sessions := mdm_device_sessions d;
     mdm_commands := mdm_commands d; mdm_device_events := mdm_device_events d;
     supervision_profiles := supervision_profiles d;
     supervision_enrollments := t;
     blocked_domains := blocked_domains d; blocked_apps := blocked_apps d;
     device_app_inventory := device_app_inventory d;
     device_restrictions := device_restrictions d |}.

Definition set_device_app_inventory (t : list AppInventoryRow) (d : Db) : Db :=
  {| device_profiles := device_profiles d;
     mdm_device_sessions := mdm_device_sessions d;
     mdm_commands := mdm_commands d; mdm_device_events := mdm_device_events d;
     supervision_profiles := supervision_profiles d;
     supervision_enrollments := supervision_enrollments d;
     blocked_domains := blocked_domains d; blocked_apps := blocked_apps d;
     device_app_inventory := t;
     device_restrictions := device_restrictions d |}.

Definition set_device_restrictions (t : list RestrictionRow) (d : Db) : Db :=
  {| device_profiles := device_profiles d;
     mdm_device_sessions := mdm_device_sessions d;
     mdm_commands := mdm_commands d; mdm_device_events := mdm_device_events d;
     supervision_profiles := supervision_profiles d;
     supervision_enrollments := supervision_enrollments d;
     blocked_domains := blocked_domains d; blocked_apps := blocked_apps d;
     device_app_inventory := device_app_inventory d;
     device_restrictions := t |}.

(** ** Statements sent to the store

    One definition per SQL statement of the class, named after the method
    that issues it.  [now] stands for the store's [NOW()]. *)

Definition first_row {A} (l : list A) : option A :=
  match l with [] => None | x :: _ => Some x end.

(** [SELECT ... FROM device_profiles WHERE profile_uuid = $1] *)
Definition select_device (deviceId : string) (d : Db) : list DeviceProfileRow :=
  filter (fun r => dp_profile_uuid r = deviceId) (device_profiles d).

(** [SELECT id FROM mdm_device_sessions WHERE device_id = $1] *)
Definition select_session (id : Z) (d : Db) : list SessionRow :=
  filter (fun r => ms_device_id r = id) (mdm_device_sessions d).

Definition update_where {A} (p : A -> bool) (f : A -> A) (l : list A) : list A :=
  map (fun r => if p r then f r else r) l.

(** [UPDATE mdm_device_sessions SET udid = ..., last_check_in = NOW()
     WHERE device_id = $7], issued by [handleAuthenticate]. *)
Definition update_session_auth (id : Z) (data : CheckInData) (now : Z) (d : Db) : Db :=
  set_mdm_device_sessions
    (update_where (fun r => ms_device_id r =? id)
       (fun r => {| ms_device_id := ms_device_id r; ms_udid := UDID data;
                    ms_serial_number := SerialNumber data; ms_model := Model data;
                    ms_os_version := OSVersion data;
                    ms_build_version := BuildVersion data;
                    ms_supervised := default false (IsSupervised data);
                    ms_push_token := ms_push_token r;
                    ms_push_magic := ms_push_magic r;
                    ms_unlock_token := ms_unlock_token r;
                    ms_last_check_in := Some now |})
       (mdm_device_sessions d)) d.

(** [INSERT INTO mdm_device_sessions (...)], issued by [handleAuthenticate]. *)
Definition insert_session (id : Z) (data : CheckInData) (d : Db) : Db :=
  set_mdm_device_sessions
    (mdm_device_sessions d ++
       [{| ms_device_id := id; ms_udid := UDID data;
           ms_serial_number := SerialNumber data; ms_model := Model data;
           ms_os_version := OSVersion data; ms_build_version := BuildVersion data;
           ms_supervised := default false (IsSupervised data);
           ms_push_token := None; ms_push_magic := None;
           ms_unlock_token := None; ms_last_check_in := None |}]) d.

(** [UPDATE mdm_device_sessions SET push_token = ..., last_check_in = NOW()
     WHERE device_id = $4], issued by [handleTokenUpdate]. *)
Definition update_session_token (id : Z) (token : string)
    (magic unlock : option string) (now : Z) (d : Db) : Db :=
  set_mdm_device_sessions
    (update_where (fun r => ms_device_id r =? id)
       (fun r => {| ms_device_id := ms_device_id r; ms_udid := ms_udid r;
                    ms_serial_number := ms_serial_number r;
                    ms_model := ms_model r; ms_os_version := ms_os_version r;
                    ms_build_version := ms_build_version r;
                    ms_supervised := ms_supervised r;
                    ms_push_token := Some token; ms_push_magic := magic;
                    ms_unlock_token := unlock;
                    ms_last_check_in := Some now |})
       (mdm_device_sessions d)) d.

(** [UPDATE device_profiles SET mdm_enrolled = false, supervision_level = 0
     WHERE id = $1], issued by [handleCheckOut]. *)
Definition update_device_unenrolled (id : Z) (d : Db) : Db :=
  set_device_profiles
    (update_where (fun r => dp_id r =? id)
       (fun r => {| dp_id := dp_id r; dp_profile_uuid := dp_profile_uuid r;
                    dp_mdm_enrolled := false; dp_supervision_level := 0 |})
       (device_profiles d)) d.

(** [UPDATE device_profiles SET mdm_enrolled = true WHERE id = $1] *)
Definition update_device_enrolled (id : Z) (d : Db) : Db :=
  set_device_profiles
    (update_where (fun r => dp_id r =? id)
       (fun r => {| dp_id := dp_id r; dp_profile_uuid := dp_profile_uuid r;
                    dp_mdm_enrolled := true;
                    dp_supervision_level := dp_supervision_level r |})
       (device_profiles d)) d.

(** [DELETE FROM mdm_device_sessions WHERE device_id = $1] *)
Definition delete_session (id : Z) (d : Db) : Db :=
  set_mdm_device_sessions
    (filter (fun r => ms_device_id r ≠ id) (mdm_device_sessions d)) d.

(** [INSERT INTO mdm_device_events (device_id, event_type, event_data)] *)
Definition insert_event (id : DeviceRef) (eventType : string) (data : EventData) (d : Db) : Db :=
  set_mdm_device_events
    (mdm_device_events d ++
       [{| ev_device_id := id; ev_event_type := eventType;
           ev_event_data := data |}]) d.

(** [UPDATE mdm_commands SET status = $1, acknowledged_at = NOW(),
     response_data = $2 WHERE command_uuid = $3].  A missing [CommandUUID]
    binds [$3] to [NULL], which equals no row's value. *)
Definition update_command_status (status : string) (response : CommandResponse)
    (commandUUID : option UUID) (now : Z) (d : Db) : Db :=
  set_mdm_commands
    (update_where
       (fun r => match commandUUID with
                 | Some u => Nat.eqb (mc_command_uuid r) u
                 | None => false
                 end)
       (fun r => {| mc_device_id := mc_device_id r;
                    mc_command_uuid := mc_command_uuid r;
                    mc_command_type := mc_command_type r;
                    mc_command_data := mc_command_data r;
                    mc_status := status; mc_acknowledged_at := Some now;
                    mc_response_data := Some response |})
       (mdm_commands d)) d.

(** [INSERT INTO mdm_commands (...) VALUES ($1, $2, $3, $4, 'pending')] *)
Definition insert_command (id : Z) (commandType : string) (command : Command) (d : Db) : Db :=
  set_mdm_commands
    (mdm_commands d ++
       [{| mc_device_id := id; mc_command_uuid := CommandUUID command;
           mc_command_type := commandType; mc_command_data := command;
           mc_status := "pending"; mc_acknowledged_at := None;
           mc_response_data := None |}]) d.

(** [SELECT command_data FROM mdm_commands WHERE device_id = $1
     AND status = 'pending' ORDER BY created_at ASC] *)
Definition select_pending_commands (id : Z) (d : Db) : list Command :=
  map mc_command_data
    (filter (fun r => mc_device_id r = id ∧ mc_status r = "pending")
       (mdm_commands d)).

(** [SELECT domain FROM blocked_domains WHERE category = ANY($1)] *)
Definition select_category_domains (categories : list string) (d : Db) : list string :=
  map bd_domain
    (List.filter (fun r => str_mem (bd_category r) categories) (blocked_domains d)).

(** [INSERT INTO supervision_profiles (...) ON CONFLICT (device_id,
     profile_identifier) DO UPDATE SET profile_uuid = $2,
     security_level = $5, profile_data = $6] *)
Definition upsert_supervision_profile (id : Z) (profileUUID : UUID)
    (identifier displayName : string) (securityLevel : Z) (data : string)
    (d : Db) : Db :=
  let same r :=
    (sp_device_id r =? id) && String.eqb (sp_profile_identifier r) identifier in
  set_supervision_profiles
    (if existsb same (supervision_profiles d)
     then update_where same
            (fun r => {| sp_device_id := sp_device_id r;
                         sp_profile_uuid := profileUUID;
                         sp_profile_identifier := sp_profile_identifier r;
                         sp_display_name := sp_display_name r;
                         sp_security_level := securityLevel;
                         sp_profile_data := data;
                         sp_installed := sp_installed r;
                         sp_install_date := sp_install_date r |})
            (supervision_profiles d)
     else supervision_profiles d ++
            [{| sp_device_id := id; sp_profile_uuid := profileUUID;
                sp_profile_identifier := identifier;
                sp_display_name := displayName;
                sp_security_level := securityLevel; sp_profile_data := data;
                sp_installed := false; sp_install_date := None |}]) d.

(** [UPDATE supervision_profiles SET installed = true, install_date = NOW()
     WHERE device_id = $1 AND profile_identifier = $2] *)
Definition update_profile_installed (id : Z) (identifier : string) (now : Z) (d : Db) : Db :=
  set_supervision_profiles
    (update_where
       (fun r => (sp_device_id r =? id)
                 && String.eqb (sp_profile_identifier r) identifier)
       (fun r => {| sp_device_id := sp_device_id r;
                    sp_profile_uuid := sp_profile_uuid r;
                    sp_profile_identifier := sp_profile_identifier r;
                    sp_display_name := sp_display_name r;
                    sp_security_level := sp_security_level r;
                    sp_profile_data := sp_profile_data r;
                    sp_installed := true; sp_install_date := Some now |})
       (supervision_profiles d)) d.

(** [UPDATE mdm_device_sessions SET supervised = $1, updated_at = NOW()
     WHERE device_id = $2] *)
Definition update_session_supervised (id : Z) (supervised : bool) (d : Db) : Db :=
  set_mdm_device_sessions
    (update_where (fun r => ms_device_id r =? id)
       (fun r => {| ms_device_id := ms_device_id r; ms_udid := ms_udid r;
                    ms_serial_number := ms_serial_number r;
                    ms_model := ms_model r; ms_os_version := ms_os_version r;
                    ms_build_version := ms_build_version r;
                    ms_supervised := supervised;
                    ms_push_token := ms_push_token r;
                    ms_push_magic := ms_push_magic r;
                    ms_unlock_token := ms_unlock_token r;
                    ms_last_check_in := ms_last_check_in r |})
       (mdm_device_sessions d)) d.

(** [DELETE FROM device_app_inventory WHERE device_id = $1] *)
Definition delete_app_inventory (id : Z) (d : Db) : Db :=
  set_device_app_inventory
    (List.filter (fun r => negb (ai_device_id r =? id)) (device_app_inventory d)) d.

(** [INSERT INTO device_app_inventory (...) ON CONFLICT (device_id,
     bundle_identifier) DO UPDATE SET app_name = $3, version = $4,
     last_seen_at = NOW()] *)
Definition upsert_app_inventory (id : Z) (app : App) (isBlocked : bool) (now : Z)
    (d : Db) : Db :=
  let same r :=
    (ai_device_id r =? id)
    && String.eqb (ai_bundle_identifier r) (app_BundleIdentifier app) in
  let name := str_or (app_Name app) (app_BundleIdentifier app) in
  set_device_app_inventory
    (if existsb same (device_app_inventory d)
     then update_where same
            (fun r => {| ai_device_id := ai_device_id r;
                         ai_bundle_identifier := ai_bundle_identifier r;
                         ai_app_name := name; ai_version := app_Version app;
                         ai_is_system_app := ai_is_system_app r;
                         ai_is_blocked := ai_is_blocked r;
                         ai_last_seen_at := Some now |})
            (device_app_inventory d)
     else device_app_inventory d ++
            [{| ai_device_id := id;
                ai_bundle_identifier := app_BundleIdentifier app;
                ai_app_name := name; ai_version := app_Version app;
                ai_is_system_app := default false (app_IsSystemApp app);
                ai_is_blocked := isBlocked; ai_last_seen_at := None |}]) d.

(** [INSERT INTO device_restrictions (...) ON CONFLICT (device_id)
     WHERE active = true DO UPDATE SET restriction_set = $2,
     verified_at = NOW()] *)
Definition upsert_restrictions (id : Z) (restrictions : option Obj) (now : Z) (d : Db) : Db :=
  let same r := (dr_device_id r =? id) && dr_active r in
  set_device_restrictions
    (if existsb same (device_restrictions d)
     then update_where same
            (fun r => {| dr_device_id := dr_device_id r;
                         dr_restriction_set := restrictions;
                         dr_verified_at := now; dr_active := dr_active r |})
            (device_restrictions d)
     else device_restrictions d ++
            [{| dr_device_id := id; dr_restriction_set := restrictions;
                dr_verified_at := now; dr_active := true |}]) d.

(** [SELECT supervision_level FROM device_profiles WHERE id = $1] *)
Definition select_supervision_level (id : Z) (d : Db) : list Z :=
  map dp_supervision_level
    (List.filter (fun r => dp_id r =? id) (device_profiles d)).

(** [UPDATE supervision_enrollments SET status = 'downloaded'
     WHERE enrollment_code = $1] *)
Definition update_enrollment_downloaded (code : string) (d : Db) : Db :=
  set_supervision_enrollments
    (update_where (fun r => String.eqb (se_enrollment_code r) code)
       (fun r => {| se_enrollment_code := se_enrollment_code r;
                    se_device_id := se_device_id r; se_user_id := se_user_id r;
                    se_status := "downloaded";
                    se_enrolled_at := se_enrolled_at r |})
       (supervision_enrollments d)) d.

(** [UPDATE supervision_enrollments SET status = 'enrolled',
     enrolled_at = NOW() WHERE device_id = $1 AND user_id = $2
     AND status = 'downloaded'] *)
Definition update_enrollment_enrolled (id : Z) (userId : string) (now : Z) (d : Db) : Db :=
  set_supervision_enrollments
    (update_where
       (fun r => (se_device_id r =? id) && String.eqb (se_user_id r) userId
                 && String.eqb (se_status r) "downloaded")
       (fun r => {| se_enrollment_code := se_enrollment_code r;
                    se_device_id := se_device_id r; se_user_id := se_user_id r;
                    se_status := "enrolled"; se_enrolled_at := Some now |})
       (supervision_enrollments d)) d.

(** The joined row [getDeviceStatus] reads: the device record with its
    session row and its installed supervision profile, when they exist. *)
Definition select_device_status (deviceId : string) (d : Db)
  : list (DeviceProfileRow * option SessionRow * option SupervisionProfileRow) :=
  map (fun dp =>
         (dp,
          first_row (List.filter (fun r => ms_device_id r =? dp_id dp)
                       (mdm_device_sessions d)),
          first_row (List.filter
                       (fun r => (sp_device_id r =? dp_id dp) && sp_installed r)
                       (supervision_profiles d))))
      (select_device deviceId d).

(** ** The server object and the method monad *)

(** One call of [apnProvider.send(notification, pushToken)]. *)
Record Push := {
  push_deviceId : string;
  push_topic : string;
  push_mdm : option string;
  push_token : option string
}.

(** The server object ([this]) together with what surrounds it: the store,
    the outcome of each coming store query ([true]: the query throws), the
    calls made so far to the push-delivery service, the next name of the
    identifier supply, and the exceptions that have left a route handler
    without being caught (the source registers no handler for them, so
    what the process does after one is Node's choice). *)
Record World := {
  deviceSessions : gmap string Session;
  pendingCommands : gmap string (list Command);
  enrollmentCodes : gmap string Enrollment;
  apnProvider : bool;
  db : Db;
  faults : list bool;
  pushes : list Push;
  next_uuid : UUID;
  uncaught : list string
}.

Definition with_deviceSessions (m : gmap string Session) (w : World) : World :=
  {| deviceSessions := m; pendingCommands := pendingCommands w;
     enrollmentCodes := enrollmentCodes w; apnProvider := apnProvider w;
     db := db w; faults := faults w; pushes := pushes w;
     next_uuid := next_uuid w;
     uncaught := uncaught w |}.

Definition with_pendingCommands (m : gmap string (list Command)) (w : World) : World :=
  {| deviceSessions := deviceSessions w; pendingCommands := m;
     enrollmentCodes := enrollmentCodes w; apnProvider := apnProvider w;
     db := db w; faults := faults w; pushes := pushes w;
     next_uuid := next_uuid w;
     uncaught := uncaught w |}.

Definition with_enrollmentCodes (m : gmap string Enrollment) (w : World) : World :=
  {| deviceSessions := deviceSessions w; pendingCommands := pendingCommands w;
     enrollmentCodes := m; apnProvider := apnProvider w;
     db := db w; faults := faults w; pushes := pushes w;
     next_uuid := next_uuid w;
     uncaught := uncaught w |}.

Definition with_db (d : Db) (w : World) : World :=
  {| deviceSessions := deviceSessions w; pendingCommands := pendingCommands w;
     enrollmentCodes := enrollmentCodes w; apnProvider := apnProvider w;
     db := d; faults := faults w; pushes := pushes w;
     next_uuid := next_uuid w;
     uncaught := uncaught w |}.

Definition with_faults (f : list bool) (w : World) : World :=
  {| deviceSessions := deviceSessions w; pendingCommands := pendingCommands w;
     enrollmentCodes := enrollmentCodes w; apnProvider := apnProvider w;
     db := db w; faults := f; pushes := pushes w;
     next_uuid := next_uuid w;
     uncaught := uncaught w |}.

Definition with_pushes (p : list Push) (w : World) : World :=
  {| deviceSessions := deviceSessions w; pendingCommands := pendingCommands w;
     enrollmentCodes := enrollmentCodes w; apnProvider := apnProvider w;
     db := db w; faults := faults w; pushes := p;
     next_uuid := next_uuid w;
     uncaught := uncaught w |}.

Definition with_uncaught (e : list string) (w : World) : World :=
  {| deviceSessions := deviceSessions w; pendingCommands := pendingCommands w;
     enrollmentCodes := enrollmentCodes w; apnProvider := apnProvider w;
     db := db w; faults := faults w; pushes := pushes w;
     next_uuid := next_uuid w; uncaught := e |}.

Definition with_next_uuid (n : UUID) (w : World) : World :=
  {| deviceSessions := deviceSessions w; pendingCommands := pendingCommands w;
     enrollmentCodes := enrollmentCodes w; apnProvider := apnProvider w;
     db := db w; faults := faults w; pushes := pushes w;
     next_uuid := n;
     uncaught := uncaught w |}.

(** The result of running a piece of a method: a value, or a thrown
    exception.  Mutations made before the exception stay. *)
Inductive Result (A : Type) :=
| Ok (a : A)
| Throw.
Arguments Ok {A} a.
Arguments Throw {A}.

Definition M (A : Type) : Type := World -> Result A * World.

Definition ret {A} (a : A) : M A := fun w => (Ok a, w).

Definition throw {A} : M A := fun w => (Throw, w).

Definition bind {A B} (m : M A) (k : A -> M B) : M B :=
  fun w =>
    match m w with
    | (Ok a, w') => k a w'
    | (Throw, w') => (Throw, w')
    end.

(** [try { m } catch (error) { h }] *)
Definition try_catch {A} (m h : M A) : M A :=
  fun w =>
    match m w with
    | (Ok a, w') => (Ok a, w')
    | (Throw, w') => h w'
    end.

Definition get_world : M World := fun w => (Ok w, w).

Definition modify (f : World -> World) : M unit := fun w => (Ok tt, f w).

Declare Scope method_scope.
Delimit Scope method_scope with method.
Notation "x <- c1 ;; c2" := (bind c1 (fun x => c2))
  (at level 20, c1 at level 99, c2 at level 200, only parsing) : method_scope.
Notation "c1 ;; c2" := (bind c1 (fun _ => c2))
  (at level 100, c2 at level 200, only parsing, right associativity) : method_scope.
Local Open Scope method_scope.

(** Each [await db.query(...)] consumes the head of the schedule of store
    outcomes; an exhausted schedule means that the store answers. *)
Definition next_query (w : World) : World := with_faults (tail (faults w)) w.

Definition query_fails (w : World) : bool := hd false (faults w).

(** [await db.query(...)] for a statement that returns rows. *)
Definition db_select {A} (q : Db -> A) : M A :=
  fun w =>
    if query_fails w then (Throw, next_query w)
    else (Ok (q (db w)), next_query w).

(** [await db.query(...)] for a statement that changes rows. *)
Definition db_exec (q : Db -> Db) : M unit :=
  fun w =>
    if query_fails w then (Throw, next_query w)
    else (Ok tt, with_db (q (db w)) (next_query w)).

(** [uuidv4()] *)
Definition uuidv4 : M UUID :=
  fun w => (Ok (next_uuid w), with_next_uuid (S (next_uuid w)) w).

(** A property that is read from a value that may be [undefined]. *)
Definition require {A} (x : option A) : M A :=
  match x with Some a => ret a | None => throw end.

(** What a handler writes to [res]. *)
Inductive Response :=
| RStatus (code : Z)
| RError (code : Z) (error : string)
| RJson (body : Obj)
| RPlist (command : Command)
| RProfile (profileData : string).

Section Server.

(** [this.config] *)
Variable config : Config.

(** [plist.build] on a profile. *)
Variable plist_build : Profile -> string.

(** The PKCS#7 signing done with node-forge on the serialized profile,
    given certificate, key and signing time; [None] when it throws. *)
Variable pkcs7_sign : string -> string -> Z -> string -> option string.

Definition topic : string := str_or (mdmTopic config) "com.altriirecovery.mdm".

Definition logDeviceEvent (deviceId : DeviceRef) (eventType : string)
    (data : EventData) : M unit :=
  try_catch (db_exec (insert_event deviceId eventType data)) (ret tt).

Definition sendPushNotification (deviceId : string)
    (pushToken pushMagic : option string) : M unit :=
  w <- get_world ;;
  if apnProvider w then
    modify (fun w =>
      with_pushes
        (pushes w ++ [{| push_deviceId := deviceId; push_topic := topic;
                         push_mdm := pushMagic; push_token := pushToken |}]) w)
  else ret tt.

Definition getPendingCommands (deviceId : string) : M (list Command) :=
  w <- get_world ;;
  let memoryCommands := default [] (pendingCommands w !! deviceId) in
  match memoryCommands with
  | _ :: _ => ret memoryCommands
  | [] =>
      device <- db_select (select_device deviceId) ;;
      match device with
      | [] => ret []
      | row :: _ => db_select (select_pending_commands (dp_id row))
      end
  end.

Definition getNextCommand (deviceId : string) : M (option Command) :=
  commands <- getPendingCommands deviceId ;;
  ret (first_row commands).

(** *** Check-in *)

Definition handleAuthenticate (deviceId : string) (data : CheckInData)
    (now : Z) : M Response :=
  try_catch
    (device <- db_select (select_device deviceId) ;;
     match device with
     | [] => ret (RStatus 401)
     | deviceRecord :: _ =>
         sessionExists <- db_select (select_session (dp_id deviceRecord)) ;;
         match sessionExists with
         | _ :: _ => db_exec (update_session_auth (dp_id deviceRecord) data now)
         | [] => db_exec (insert_session (dp_id deviceRecord) data)
         end ;;
         modify (fun w =>
           with_deviceSessions
             (<[deviceId :=
                  {| s_deviceId := dp_id deviceRecord; s_udid := UDID data;
                     s_serialNumber := SerialNumber data;
                     s_model := Model data; s_osVersion := OSVersion data;
                     s_buildVersion := BuildVersion data;
                     s_lastCheckIn := now;
                     s_supervised := default false (IsSupervised data);
                     s_pushToken := None; s_pushMagic := None;
                     s_unlockToken := None |}]> (deviceSessions w)) w) ;;
         logDeviceEvent (RecordId (dp_id deviceRecord)) "authenticated"
           (EvAuthenticated (IsSupervised data) (OSVersion data)) ;;
         ret (RStatus 200)
     end)
    (ret (RStatus 500)).

Definition handleTokenUpdate (deviceId : string) (data : CheckInData)
    (now : Z) : M Response :=
  w <- get_world ;;
  match deviceSessions w !! deviceId with
  | None => ret (RStatus 401)
  | Some session0 =>
      let session :=
        {| s_deviceId := s_deviceId session0; s_udid := s_udid session0;
           s_serialNumber := s_serialNumber session0;
           s_model := s_model session0; s_osVersion := s_osVersion session0;
           s_buildVersion := s_buildVersion session0;
           s_lastCheckIn := s_lastCheckIn session0;
           s_supervised := s_supervised session0;
           s_pushToken := Token data; s_pushMagic := PushMagic data;
           s_unlockToken := UnlockToken data |} in
      try_catch
        (modify (fun w =>
           with_deviceSessions (<[deviceId := session]> (deviceSessions w)) w) ;;
         token <- require (Token data) ;;
         db_exec (update_session_token (s_deviceId session) token
                    (PushMagic data) (UnlockToken data) now) ;;
         commands <- getPendingCommands deviceId ;;
         match commands with
         | _ :: _ =>
             sendPushNotification deviceId (s_pushToken session)
               (s_pushMagic session)
         | [] => ret tt
         end ;;
         ret (RStatus 200))
        (ret (RStatus 500))
  end.

Definition handleCheckOut (deviceId : string) (data : CheckInData) : M Response :=
  w <- get_world ;;
  match deviceSessions w !! deviceId with
  | None => ret (RStatus 200)
  | Some session =>
      try_catch
        (modify (fun w =>
           with_deviceSessions (delete deviceId (deviceSessions w)) w) ;;
         db_exec (update_device_unenrolled (s_deviceId session)) ;;
         db_exec (delete_session (s_deviceId session)) ;;
         logDeviceEvent (RecordId (s_deviceId session)) "unenrolled"
           (EvUnenrolled (str_or (Reason data) "User initiated")) ;;
         ret (RStatus 200))
        (ret (RStatus 500))
  end.

(** The request body is given decoded; [None] stands for a body on which
    [plist.parse] throws. *)
Definition handleCheckIn (deviceId : string) (body : option CheckInData)
    (now : Z) : M Response :=
  match body with
  | None => ret (RStatus 500)
  | Some checkInData =>
      if String.eqb (MessageType checkInData) "Authenticate" then
        handleAuthenticate deviceId checkInData now
      else if String.eqb (MessageType checkInData) "TokenUpdate" then
        handleTokenUpdate deviceId checkInData now
      else if String.eqb (MessageType checkInData) "CheckOut" then
        handleCheckOut deviceId checkInData
      else ret (RStatus 400)
  end.

(** *** Reconciliation of device reports *)

Definition processProfileList (deviceId : Z)
    (profiles : option (list InstalledProfile)) (now : Z) : M unit :=
  try_catch
    (profiles <- require profiles ;;
     let supervisionProfile :=
       List.find
         (fun p => String.prefix "com.altriirecovery.supervision"
                     (ip_PayloadIdentifier p)) profiles in
     match supervisionProfile with
     | Some p =>
         db_exec (update_profile_installed deviceId (ip_PayloadIdentifier p) now) ;;
         db_exec (update_device_enrolled deviceId)
     | None => ret tt
     end)
    (ret tt).

Definition processSecurityInfo (deviceId : Z)
    (securityInfo : option SecurityInfo) : M unit :=
  try_catch
    (securityInfo <- require securityInfo ;;
     let supervised := default false (si_IsSupervised securityInfo) in
     let passcodeSet := default false (si_PasscodePresent securityInfo) in
     db_exec (update_session_supervised deviceId supervised) ;;
     logDeviceEvent (RecordId deviceId) "security_info_updated"
       (EvSecurityInfoUpdated supervised passcodeSet
          (si_PasscodeCompliant securityInfo)
          (si_PasscodeCompliantWithProfiles securityInfo)))
    (ret tt).

(** The loop [for (const app of apps)] of [processAppList]. *)
Fixpoint insertAppInventory (deviceId : Z) (blockedBundleIds : list string)
    (now : Z) (apps : list App) : M unit :=
  match apps with
  | [] => ret tt
  | app :: rest =>
      let isBlocked := str_mem (app_BundleIdentifier app) blockedBundleIds in
      db_exec (upsert_app_inventory deviceId app isBlocked now) ;;
      insertAppInventory deviceId blockedBundleIds now rest
  end.

Definition processAppList (deviceId : Z) (apps : option (list App))
    (now : Z) : M unit :=
  try_catch
    (db_exec (delete_app_inventory deviceId) ;;
     blockedBundleIds <- db_select blocked_apps ;;
     apps <- require apps ;;
     insertAppInventory deviceId blockedBundleIds now apps ;;
     let prohibitedApps :=
       List.filter
         (fun app => str_mem (app_BundleIdentifier app) blockedBundleIds
                     && negb (default false (app_IsSystemApp app))) apps in
     match prohibitedApps with
     | _ :: _ =>
         logDeviceEvent (RecordId deviceId) "prohibited_apps_detected"
           (EvProhibitedApps
              (map (fun a => (app_BundleIdentifier a, app_Name a)) prohibitedApps))
     | [] => ret tt
     end)
    (ret tt).

(** [o.k !== false] *)
Definition not_false (k : string) (o : Obj) : bool :=
  match obj_get k o with
  | Some (JBool false) => false
  | _ => true
  end.

Definition processRestrictions (deviceId : Z) (restrictions : option Obj)
    (now : Z) : M unit :=
  try_catch
    (db_exec (upsert_restrictions deviceId restrictions now) ;;
     device <- db_select (select_supervision_level deviceId) ;;
     match device with
     | [] => ret tt
     | level :: _ =>
         issues2 <-
           (if 2 <=? level then
              r <- require restrictions ;;
              ret (if not_false "allowVPNCreation" r
                   then ["VPN creation not blocked"] else [])
            else ret []) ;;
         issues3 <-
           (if 3 <=? level then
              r <- require restrictions ;;
              ret ((if not_false "allowAppInstallation" r
                    then ["App installation not blocked"] else [])
                   ++ (if not_false "allowEraseContentAndSettings" r
                       then ["Factory reset not blocked"] else []))
            else ret []) ;;
         match issues2 ++ issues3 with
         | [] => ret tt
         | issues =>
             logDeviceEvent (RecordId deviceId) "restriction_violations"
               (EvRestrictionViolations issues)
         end
     end)
    (ret tt).

(** *** Command exchange *)

Definition processCommandResponse (deviceId : string)
    (response : CommandResponse) (now : Z) : M unit :=
  let commandUUID := r_CommandUUID response in
  w <- get_world ;;
  match deviceSessions w !! deviceId with
  | None => ret tt
  | Some session =>
      try_catch
        (db_exec
           (update_command_status
              (if String.eqb (r_Status response) "Acknowledged"
               then "completed" else "failed")
              response commandUUID now) ;;
         logDeviceEvent (RecordId (s_deviceId session)) "command_response"
           (EvCommandResponse commandUUID (r_Status response) response) ;;
         (if String.eqb (r_Status response) "Acknowledged" then
            match r_RequestType response with
            | Some requestType =>
                if String.eqb requestType "ProfileList" then
                  processProfileList (s_deviceId session)
                    (r_ProfileList response) now
                else if String.eqb requestType "SecurityInfo" then
                  processSecurityInfo (s_deviceId session)
                    (r_SecurityInfo response)
                else if String.eqb requestType "InstalledApplicationList" then
                  processAppList (s_deviceId session)
                    (r_InstalledApplicationList response) now
                else if String.eqb requestType "Restrictions" then
                  processRestrictions (s_deviceId session)
                    (r_Restrictions response) now
                else ret tt
            | None => ret tt
            end
          else ret tt) ;;
         modify (fun w =>
           let deviceCommands := default [] (pendingCommands w !! deviceId) in
           let updatedCommands :=
             filter (fun cmd => Some (CommandUUID cmd) ≠ commandUUID)
               deviceCommands in
           with_pendingCommands
             (<[deviceId := updatedCommands]> (pendingCommands w)) w))
        (ret tt)
  end.

(** The request body is given decoded; [None] stands for a body on which
    [plist.parse] throws. *)
Definition handleCommand (deviceId : string) (body : option CommandResponse)
    (now : Z) : M Response :=
  try_catch
    (commandResponse <- require body ;;
     processCommandResponse deviceId commandResponse now ;;
     nextCommand <- getNextCommand deviceId ;;
     match nextCommand with
     | Some command => ret (RPlist command)
     | None => ret (RStatus 200)
     end)
    (ret (RStatus 500)).

(** *** Profile builder *)

Definition compileBlockedDomains (settings : Settings) : M (list string) :=
  let categories :=
    (if block_adult_content settings then ["adult"] else [])
    ++ (if block_gambling settings then ["gambling"] else [])
    ++ (if block_social_media settings then ["social_media"] else [])
    ++ (if block_gaming settings then ["gaming"] else [])
    ++ (if block_news settings then ["news"] else [])
    ++ (if block_entertainment settings then ["entertainment"] else [])
    ++ (if block_shopping settings then ["shopping"] else [])
    ++ (if block_dating settings then ["dating"] else []) in
  categoryDomains <-
    match categories with
    | _ :: _ => db_select (select_category_domains categories)
    | [] => ret []
    end ;;
  let domains := categoryDomains ++ or_empty (custom_blocked_domains settings) in
  let uniqueDomains :=
    List.filter (fun domain => negb (includes domain "altriirecovery.com"))
      (set_spread domains) in
  ret uniqueDomains.

Definition getBaselinePermittedURLs : list string :=
  [ "apple.com"; "icloud.com"; "icloud-content.com"; "cdn-apple.com";
    "mzstatic.com"; "altriirecovery.com"; "www.altriirecovery.com";
    "app.altriirecovery.com"; "api.altriirecovery.com"; "emergency.gov";
    "911.gov"; "suicidepreventionlifeline.org"; "crisistextline.org" ].

Definition buildMDMPayload (deviceId : string) : M Obj :=
  uuid <- uuidv4 ;;
  ret [ ("PayloadType", JStr "com.apple.mdm");
        ("PayloadIdentifier", JStr ("com.altriirecovery.mdm." +:+ deviceId));
        ("PayloadUUID", JUuid uuid);
        ("PayloadVersion", JNum 1);
        ("PayloadDisplayName", JStr "Altrii Recovery MDM");
        ("ServerURL", JStr (serverUrl config +:+ "/mdm/server/" +:+ deviceId));
        ("CheckInURL", JStr (serverUrl config +:+ "/mdm/checkin/" +:+ deviceId));
        ("Topic", JStr topic);
        ("ServerCapabilities",
         JStrs [ "com.apple.mdm.per-app-vpn"; "com.apple.mdm.device-lock";
                 "com.apple.mdm.restriction-queries" ]);
        ("AccessRights", JNum 8191);
        ("CheckInFrequency", JNum 15);
        ("UseDevelopmentAPNS", JBool (negb (production config))) ].

Definition buildContentFilterPayload (deviceId : string) (settings : Settings)
    (isWebOnly : bool) : M Obj :=
  blockedDomains <- compileBlockedDomains settings ;;
  uuid <- uuidv4 ;;
  ret ([ ("PayloadType", JStr "com.apple.webcontent-filter");
         ("PayloadIdentifier",
          JStr ("com.altriirecovery.contentfilter." +:+ deviceId));
         ("PayloadUUID", JUuid uuid);
         ("PayloadVersion", JNum 1);
         ("PayloadDisplayName", JStr "Altrii Recovery Content Filter");
         ("FilterType", JStr "BuiltIn");
         ("AutoFilterEnabled", JBool true);
         ("FilterBrowsers", JBool true);
         ("FilterSockets", JBool true);
         ("BlacklistedURLs", JStrs blockedDomains);
         ("WhitelistedURLs",
          JStrs ([ "altriirecovery.com"; "www.altriirecovery.com";
                   "app.altriirecovery.com"; "api.altriirecovery.com" ]
                 ++ or_empty (customAllowedDomains settings))) ]
       ++ (if isWebOnly then
             [ ("FilterDataProviderBundleIdentifier", JStr "com.apple.Safari");
               ("FilterPackets", JBool true);
               ("FilterGrade", JStr "firewall") ]
           else [])
       ++ [ ("PermittedURLs", JStrs getBaselinePermittedURLs) ]).

Definition bypassApps : list string :=
  [ "com.opera.OperaMini"; "com.opera.Opera-Touch"; "org.torproject.ios";
    "com.tunnelbear.ios.TunnelBear"; "com.nordvpn.ios";
    "com.expressvpn.ExpressVPN"; "com.protonvpn.ios";
    "com.cloudflare.onedotonedotonedotone" ].

Definition thirdPartyBrowsers : list string :=
  [ "com.brave.ios.browser"; "com.mozilla.ios.Firefox";
    "com.mozilla.ios.Focus"; "com.google.chrome.ios"; "com.microsoft.msedge";
    "com.duckduckgo.mobile.ios"; "com.alohabrowser.alohabrowser" ].

Definition buildRestrictionsPayload (deviceId : string) (settings : Settings)
    (securityLevel : Z) : M Obj :=
  uuid <- uuidv4 ;;
  let baseRestrictions :=
    [ ("PayloadType", JStr "com.apple.applicationaccess");
      ("PayloadIdentifier",
       JStr ("com.altriirecovery.restrictions." +:+ deviceId));
      ("PayloadUUID", JUuid uuid);
      ("PayloadVersion", JNum 1);
      ("PayloadDisplayName", JStr "Altrii Recovery Restrictions") ] in
  if securityLevel =? 2 then
    ret (baseRestrictions
         ++ [ ("allowAppInstallation", JBool true);
              ("allowUIAppInstallation", JBool true);
              ("allowAppRemoval", JBool false);
              ("allowInAppPurchases", JBool false);
              ("allowVPNCreation", JBool false);
              ("blacklistedAppBundleIDs",
               JStrs (bypassApps ++ or_empty (additionalBlockedApps settings))) ])
  else if 3 <=? securityLevel then
    ret (baseRestrictions
         ++ [ ("allowAppInstallation", JBool false);
              ("allowUIAppInstallation", JBool false);
              ("allowAppClips", JBool false);
              ("allowAutomaticAppDownloads", JBool false);
              ("allowInAppPurchases", JBool false);
              ("allowAppRemoval", JBool false);
              ("allowEraseContentAndSettings", JBool false);
              ("allowUIConfigurationProfileInstallation", JBool false);
              ("allowVPNCreation", JBool false);
              ("allowPasscodeModification", JBool false);
              ("safariAllowJavaScript",
               JBool (match allowJavaScript settings with
                      | Some false => false
                      | _ => true
                      end));
              ("safariAllowPopups", JBool false);
              ("safariAllowAutoFill", JBool false);
              ("safariForceFraudWarning", JBool true);
              ("blacklistedAppBundleIDs",
               JStrs (bypassApps ++ thirdPartyBrowsers
                      ++ or_empty (additionalBlockedApps settings))) ])
  else ret baseRestrictions.

Definition buildSecurityPayload (deviceId : string) (securityLevel : Z) : M Obj :=
  uuid <- uuidv4 ;;
  let payload :=
    [ ("PayloadType", JStr "com.apple.security");
      ("PayloadIdentifier", JStr ("com.altriirecovery.security." +:+ deviceId));
      ("PayloadUUID", JUuid uuid);
      ("PayloadVersion", JNum 1);
      ("PayloadDisplayName", JStr "Altrii Recovery Security") ] in
  let payload :=
    if 2 <=? securityLevel then
      obj_assign payload
        [ ("requireAlphanumeric", JBool true); ("minLength", JNum 6);
          ("maxFailedAttempts", JNum 10); ("maxInactivity", JNum 300);
          ("maxPINAgeInDays", JNum 90); ("allowSimple", JBool false);
          ("forcePIN", JBool true) ]
    else payload in
  let payload :=
    if 3 <=? securityLevel then
      obj_assign payload
        [ ("requireComplexPasscode", JBool true); ("minComplexChars", JNum 2);
          ("maxFailedAttempts", JNum 5);
          ("allowPasscodeModification", JBool false);
          ("allowFingerprintForUnlock", JBool true);
          ("allowAutoUnlock", JBool false) ]
    else payload in
  ret payload.

Definition buildSupervisionProfile (deviceId : string) (profileUUID : UUID)
    (settings : Settings) (securityLevel : Z) (isWebOnly : bool) : M Profile :=
  mdm <- buildMDMPayload deviceId ;;
  contentFilter <- buildContentFilterPayload deviceId settings isWebOnly ;;
  restrictions <-
    (if 2 <=? securityLevel then
       payload <- buildRestrictionsPayload deviceId settings securityLevel ;;
       ret [payload]
     else ret []) ;;
  security <-
    (if 2 <=? securityLevel then
       payload <- buildSecurityPayload deviceId securityLevel ;;
       ret [payload]
     else ret []) ;;
  ret {| PayloadType := "Configuration";
         PayloadVersion := 1;
         PayloadIdentifier := "com.altriirecovery.supervision." +:+ deviceId;
         PayloadUUID := profileUUID;
         PayloadDisplayName := "Altrii Recovery - Maximum Protection";
         PayloadDescription :=
           "Device supervision for enhanced digital wellness protection";
         PayloadOrganization := "Altrii Recovery";
         PayloadRemovalDisallowed := 3 <=? securityLevel;
         PayloadContent := [mdm; contentFilter] ++ restrictions ++ security |}.

Definition signProfile (profile : Profile) (now : Z) : string :=
  let plistData := plist_build profile in
  match signingCertificate config, signingKey config with
  | Some certificate, Some key =>
      match pkcs7_sign certificate key now plistData with
      | Some der => der
      | None => plistData
      end
  | _, _ => plistData
  end.

(** [enrollmentCode] is the value [generateEnrollmentCode()] draws from
    [Math.random()].  The method reads the clock three times: [now] is the
    signing time [signProfile] takes, [storedAt] the [Date.now()] of the
    expiry kept with the code, and [answeredAt] the [Date.now()] of the
    expiry written to the response, after the profile row was stored. *)
Definition generateSupervisionProfile (deviceId userId : string)
    (settings : Settings) (securityLevel : Z) (isWebOnly : bool)
    (enrollmentCode : string) (now storedAt answeredAt : Z) : M Response :=
  try_catch
    (profileUUID <- uuidv4 ;;
     device <- db_select (select_device deviceId) ;;
     match device with
     | [] => ret (RError 404 "Device not found")
     | deviceRecord :: _ =>
         profile <- buildSupervisionProfile deviceId profileUUID settings
                      securityLevel (isWebOnly || true) ;;
         let signedProfile := signProfile profile now in
         modify (fun w =>
           with_enrollmentCodes
             (<[enrollmentCode :=
                  {| e_profileData := signedProfile; e_deviceId := deviceId;
                     e_userId := userId; e_profileUUID := profileUUID;
                     e_expiresAt := storedAt + 24 * 60 * 60 * 1000 |}]>
                (enrollmentCodes w)) w) ;;
         db_exec (upsert_supervision_profile (dp_id deviceRecord) profileUUID
                    ("com.altriirecovery.supervision." +:+ deviceId)
                    "Altrii Recovery - Maximum Protection" securityLevel
                    signedProfile) ;;
         ret (RJson [ ("enrollmentCode", JStr enrollmentCode);
                      ("profileUUID", JUuid profileUUID);
                      ("downloadUrl", JStr ("/mdm/enroll/" +:+ enrollmentCode));
                      ("expiresAt", JNum (answeredAt + 24 * 60 * 60 * 1000)) ])
     end)
    (ret (RError 500 "Failed to generate supervision profile")).

(** *** Enrollment download *)

(** [res.status(500).json(...)] on a response that has been sent:
    Express's [res.json] sets a header, which Node refuses with
    [ERR_HTTP_HEADERS_SENT].  The call stands in a [catch] block, so the
    exception leaves the handler; the client keeps the response it got. *)
Definition headers_sent : M unit :=
  modify (fun w => with_uncaught (uncaught w ++ ["ERR_HTTP_HEADERS_SENT"]) w).

(** The profile is written to [res] before the store is touched: the value
    returned for an unexpired code is what the client receives.  When the
    statement that follows fails, the [catch] block tries to answer 500 on
    the response that was sent. *)
Definition getEnrollmentProfile (code : string) (now : Z) : M Response :=
  w <- get_world ;;
  match enrollmentCodes w !! code with
  | None => ret (RError 404 "Invalid enrollment code")
  | Some enrollment =>
      if e_expiresAt enrollment <? now then
        modify (fun w =>
          with_enrollmentCodes (delete code (enrollmentCodes w)) w) ;;
        ret (RError 410 "Enrollment code expired")
      else
        try_catch
          (logDeviceEvent (DeviceIdentifier (e_deviceId enrollment))
             "profile_downloaded" (EvProfileDownloaded code) ;;
           db_exec (update_enrollment_downloaded code))
          headers_sent ;;
        ret (RProfile (e_profileData enrollment))
  end.

Definition handleEnrollment (deviceId : Z) (userId : string) (now : Z) : M Response :=
  try_catch
    (db_exec (update_enrollment_enrolled deviceId userId now) ;;
     db_exec (update_device_enrolled deviceId) ;;
     ret (RJson [ ("success", JBool true) ]))
    (ret (RError 500 "Failed to complete enrollment")).

(** *** Operator commands *)

Definition buildCommand (type : string) (parameters : Obj) : M Command :=
  uuid <- uuidv4 ;;
  let command := [ ("RequestType", JStr type) ] in
  let command :=
    if str_mem type [ "ProfileList"; "SecurityInfo"; "DeviceInformation";
                      "Restrictions" ] then command
    else if String.eqb type "InstallProfile" then
      obj_set "Payload" (obj_prop "profileData" parameters) command
    else if String.eqb type "RemoveProfile" then
      obj_set "Identifier" (obj_prop "profileIdentifier" parameters) command
    else if String.eqb type "Settings" then
      obj_set "Settings" (obj_prop "settings" parameters) command
    else if String.eqb type "DeviceLock" then
      obj_set "Message" (obj_prop "message" parameters)
        (obj_set "PIN" (obj_prop "pin" parameters) command)
    else obj_assign command parameters in
  ret {| CommandUUID := uuid; Command_ := command |}.

(** A string in a condition: [undefined] and the empty string are false. *)
Definition truthy (x : option string) : bool :=
  match x with
  | Some s => negb (String.eqb s "")
  | None => false
  end.

(** [if (session && session.pushToken) await this.sendPushNotification(...)] *)
Definition wakeDevice (deviceId : string) : M unit :=
  w <- get_world ;;
  match deviceSessions w !! deviceId with
  | Some session =>
      if truthy (s_pushToken session) then
        sendPushNotification deviceId (s_pushToken session)
          (s_pushMagic session)
      else ret tt
  | None => ret tt
  end.

Definition sendCommand (deviceId commandType : string) (parameters : Obj)
    : M Response :=
  try_catch
    (command <- buildCommand commandType parameters ;;
     device <- db_select (select_device deviceId) ;;
     match device with
     | [] => ret (RError 404 "Device not found")
     | row :: _ =>
         db_exec (insert_command (dp_id row) commandType command) ;;
         modify (fun w =>
           let deviceCommands := default [] (pendingCommands w !! deviceId) in
           with_pendingCommands
             (<[deviceId := deviceCommands ++ [command]]> (pendingCommands w)) w) ;;
         wakeDevice deviceId ;;
         ret (RJson [ ("commandUUID", JUuid (CommandUUID command));
                      ("status", JStr "pending") ])
     end)
    (ret (RError 500 "Failed to send command")).

(** The loop [for (const command of commands)] of [verifyDevice]. *)
Fixpoint insertCommands (id : Z) (commands : list Command) : M unit :=
  match commands with
  | [] => ret tt
  | command :: rest =>
      let requestType :=
        match obj_prop "RequestType" (Command_ command) with
        | JStr t => t
        | _ => ""
        end in
      db_exec (insert_command id requestType command) ;;
      insertCommands id rest
  end.

Definition verifyDevice (deviceId : string) : M Response :=
  try_catch
    (c1 <- buildCommand "ProfileList" [] ;;
     c2 <- buildCommand "SecurityInfo" [] ;;
     c3 <- buildCommand "Restrictions" [] ;;
     c4 <- buildCommand "InstalledApplicationList" [] ;;
     let commands := [c1; c2; c3; c4] in
     device <- db_select (select_device deviceId) ;;
     match device with
     | [] => ret (RError 404 "Device not found")
     | row :: _ =>
         insertCommands (dp_id row) commands ;;
         modify (fun w =>
           let existingCommands := default [] (pendingCommands w !! deviceId) in
           with_pendingCommands
             (<[deviceId := existingCommands ++ commands]> (pendingCommands w)) w) ;;
         wakeDevice deviceId ;;
         ret (RJson [ ("verificationInitiated", JBool true);
                      ("commandsSent", JNum (Z.of_nat (length commands)));
                      ("expectedResponseTime", JStr "30 seconds") ])
     end)
    (ret (RError 500 "Failed to verify device")).

(** *** Status, health and shutdown *)

Definition opt_str (x : option string) : JValue :=
  match x with Some s => JStr s | None => JUndefined end.

Definition getDeviceStatus (deviceId : string) : M Response :=
  try_catch
    (w <- get_world ;;
     let session := deviceSessions w !! deviceId in
     let pending := default [] (pendingCommands w !! deviceId) in
     device <- db_select (select_device_status deviceId) ;;
     match device with
     | [] => ret (RError 404 "Device not found")
     | (dp, mds, sp) :: _ =>
         ret (RJson
                [ ("deviceId", JStr deviceId);
                  ("online", JBool (bool_decide (is_Some session)));
                  ("lastCheckIn",
                   match session with
                   | Some s => JNum (s_lastCheckIn s)
                   | None =>
                       match mds ≫= ms_last_check_in with
                       | Some t => JNum t
                       | None => JUndefined
                       end
                   end);
                  ("supervised",
                   JBool (match session with
                          | Some s => s_supervised s
                          | None => false
                          end
                          || match mds with
                             | Some r => ms_supervised r
                             | None => false
                             end));
                  ("pendingCommands", JNum (Z.of_nat (length pending)));
                  ("profileInstalled",
                   JBool (match sp with
                          | Some r => sp_installed r
                          | None => false
                          end));
                  ("securityLevel",
                   JNum (match sp with
                         | Some r => sp_security_level r
                         | None => 0
                         end));
                  ("deviceInfo.model",
                   match session with
                   | Some s => opt_str (s_model s)
                   | None => opt_str (mds ≫= ms_model)
                   end);
                  ("deviceInfo.osVersion",
                   match session with
                   | Some s => opt_str (s_osVersion s)
                   | None => opt_str (mds ≫= ms_os_version)
                   end);
                  ("deviceInfo.serialNumber",
                   match session with
                   | Some s => opt_str (s_serialNumber s)
                   | None => JUndefined
                   end) ])
     end)
    (ret (RError 500 "Failed to get device status")).

Definition health : M Response :=
  w <- get_world ;;
  ret (RJson [ ("status", JStr "healthy");
               ("activeDevices", JNum (Z.of_nat (size (deviceSessions w))));
               ("pendingCommands", JNum (Z.of_nat (size (pendingCommands w)))) ]).

(** [shutdown()] clears the three maps; the store keeps its rows.  A
    server started afterwards on the same store begins from these empty
    maps. *)
Definition shutdown (w : World) : World :=
  with_enrollmentCodes ∅ (with_pendingCommands ∅ (with_deviceSessions ∅ w)).

(** The state a new server object starts from, over a given store. *)
Definition new_server (provider_created : bool) (store : Db) : World :=
  {| deviceSessions := ∅; pendingCommands := ∅; enrollmentCodes := ∅;
     apnProvider := apns config && provider_created;
     db := store; faults := []; pushes := []; next_uuid := 0%nat;
     uncaught := [] |}.

(** *** Routes *)

(** A request as the router hands it to a handler.  The values a handler
    draws from its surroundings travel with the request: the enrollment
    code and the two later readings of the clock of
    [generateSupervisionProfile]. *)
Inductive Route :=
| PutCheckIn (deviceId : string) (body : option CheckInData)
| PutServer (deviceId : string) (body : option CommandResponse)
| PostEnroll (deviceId : Z) (userId : string)
| GetEnroll (code : string)
| PostProfilesGenerate (deviceId userId : string) (settings : Settings)
    (securityLevel : Z) (isWebOnly : bool) (enrollmentCode : string)
    (storedAt answeredAt : Z)
| GetDeviceStatus (deviceId : string)
| PostDeviceCommand (deviceId commandType : string) (parameters : Obj)
| PostDeviceVerify (deviceId : string)
| GetHealth.

Definition route (r : Route) (now : Z) : M Response :=
  match r with
  | PutCheckIn deviceId body => handleCheckIn deviceId body now
  | PutServer deviceId body => handleCommand deviceId body now
  | PostEnroll deviceId userId => handleEnrollment deviceId userId now
  | GetEnroll code => getEnrollmentProfile code now
  | PostProfilesGenerate deviceId userId settings securityLevel isWebOnly code
      storedAt answeredAt =>
      generateSupervisionProfile deviceId userId settings securityLevel
        isWebOnly code now storedAt answeredAt
  | GetDeviceStatus deviceId => getDeviceStatus deviceId
  | PostDeviceCommand deviceId commandType parameters =>
      sendCommand deviceId commandType parameters
  | PostDeviceVerify deviceId => verifyDevice deviceId
  | GetHealth => health
  end.

Definition is_protocol_endpoint (r : Route) : bool :=
  match r with
  | PutCheckIn _ _ | PutServer _ _ => true
  | _ => false
  end.

(** The path of a route as [setupRoutes] writes it, with its parameters
    filled in. *)
Definition route_path (r : Route) : string :=
  match r with
  | PutCheckIn deviceId _ => "/mdm/checkin/" +:+ deviceId
  | PutServer deviceId _ => "/mdm/server/" +:+ deviceId
  | PostEnroll _ _ => "/mdm/enroll"
  | GetEnroll code => "/mdm/enroll/" +:+ code
  | PostProfilesGenerate _ _ _ _ _ _ _ _ => "/mdm/profiles/generate"
  | GetDeviceStatus deviceId => "/mdm/devices/" +:+ deviceId +:+ "/status"
  | PostDeviceCommand deviceId _ _ => "/mdm/devices/" +:+ deviceId +:+ "/command"
  | PostDeviceVerify deviceId => "/mdm/devices/" +:+ deviceId +:+ "/verify"
  | GetHealth => "/mdm/health"
  end.

(** [req.path.startsWith('/mdm/checkin/') || req.path.startsWith('/mdm/server/')],
    a comparison letter for letter. *)
Definition bypasses_api_key (path : string) : bool :=
  String.prefix "/mdm/checkin/" path || String.prefix "/mdm/server/" path.

(** The condition under which the API-key middleware calls [next()]. *)
Definition api_key_check (x_api_key : option string) (path : string) : bool :=
  match x_api_key with
  | Some k => negb (String.eqb k "") && String.eqb k (apiKey config)
  | None => false
  end
  || bypasses_api_key path.

(** The API-key middleware in front of the routes.  [path] is [req.path]
    as the client wrote it and [r] the route the router matched for it.
    Express matches the paths of [setupRoutes] without regard to letter
    case, the middleware compares letter for letter, so [r] does not
    determine [path]. *)
Definition handle (x_api_key : option string) (path : string) (r : Route)
    (now : Z) : M Response :=
  if api_key_check x_api_key path then route r now
  else ret (RError 401 "Invalid API key").

End Server.


(** * Notions used in the statements *)

(** A relation between the world before and after, closed under the steps
    every method takes: consuming a store outcome and drawing an
    identifier. *)
Class Frame (R : World -> World -> Prop) := {
  frame_refl : forall w, R w w;
  frame_trans : forall w1 w2 w3, R w1 w2 -> R w2 w3 -> R w1 w3;
  frame_next_query : forall w, R w (next_query w);
  frame_next_uuid : forall w n, R w (with_next_uuid n w)
}.

Definition framed (R : World -> World -> Prop) {A} (m : M A) : Prop :=
  forall w, R w (snd (m w)).

(** The three maps and the push log are as before; a store that answered
    every query so far keeps answering. *)
Definition same_memory (w w' : World) : Prop :=
  deviceSessions w' = deviceSessions w
  /\ pendingCommands w' = pendingCommands w
  /\ enrollmentCodes w' = enrollmentCodes w
  /\ apnProvider w' = apnProvider w
  /\ pushes w' = pushes w
  /\ (faults w = [] -> faults w' = []).

(** As [same_memory], and the rows of [mdm_commands] are as before. *)
Definition same_commands (w w' : World) : Prop :=
  same_memory w w' /\ mdm_commands (db w') = mdm_commands (db w).

(** As [same_memory], and the whole store is as before. *)
Definition same_store (w w' : World) : Prop :=
  same_memory w w' /\ db w' = db w.

(** Only the push log is as before. *)
Definition same_pushes (w w' : World) : Prop := pushes w' = pushes w.

(** The state a method leaves. *)
Definition after {A} (m : M A) (w : World) : World := snd (m w).

Definition payload_type (payload : Obj) : option JValue := obj_get "PayloadType" payload.

(** The statements of [handleCheckOut] that follow the removal of the
    session from [deviceSessions], named for the proofs. *)
Definition checkOutStatements (id : Z) (data : CheckInData) : M Response :=
  bind (db_exec (update_device_unenrolled id))
    (fun _ =>
       bind (db_exec (delete_session id))
         (fun _ =>
            bind (logDeviceEvent (RecordId id) "unenrolled"
                    (EvUnenrolled (str_or (Reason data) "User initiated")))
              (fun _ => ret (RStatus 200)))).

(** The [switch (response.RequestType)] block of [processCommandResponse],
    named for the proofs. *)
Definition reconcile (id : Z) (response : CommandResponse) (now : Z) : M unit :=
  if String.eqb (r_Status response) "Acknowledged" then
    match r_RequestType response with
    | Some requestType =>
        if String.eqb requestType "ProfileList" then
          processProfileList id (r_ProfileList response) now
        else if String.eqb requestType "SecurityInfo" then
          processSecurityInfo id (r_SecurityInfo response)
        else if String.eqb requestType "InstalledApplicationList" then
          processAppList id (r_InstalledApplicationList response) now
        else if String.eqb requestType "Restrictions" then
          processRestrictions id (r_Restrictions response) now
        else ret tt
    | None => ret tt
    end
  else ret tt.

(** The status [processCommandResponse] writes for a response. *)
Definition terminal_status (response : CommandResponse) : string :=
  if String.eqb (r_Status response) "Acknowledged" then "completed" else "failed".

(** The queue of a device without the commands that carry a given id. *)
Definition without_command (commandUUID : option UUID) (queue : list Command)
  : list Command :=
  filter (fun cmd => Some (CommandUUID cmd) ≠ commandUUID) queue.

(** The notification a wake sends for a device, given its session. *)
Definition wake_push (config : Config) (deviceId : string) (session : Session) : Push :=
  {| push_deviceId := deviceId; push_topic := topic config;
     push_mdm := s_pushMagic session; push_token := s_pushToken session |}.

(** A push that carries the token and magic the session of the device
    holds. *)
Definition sent_from_session (config : Config) (deviceId : string)
    (sessions : gmap string Session) (p : Push) : Prop :=
  exists session,
    sessions !! deviceId = Some session
    /\ is_Some (s_pushToken session)
    /\ p = wake_push config deviceId session.

(** The sessions are as before, and every push that was added comes from
    the session of the device. *)
Definition wakes_only (config : Config) (deviceId : string) (w w' : World) : Prop :=
  deviceSessions w' = deviceSessions w
  /\ apnProvider w' = apnProvider w
  /\ exists extra,
       pushes w' = pushes w ++ extra
       /\ Forall (sent_from_session config deviceId (deviceSessions w)) extra.

(** The sessions are as before, and every push that was added is [p]. *)
Definition pushes_only (p : Push) (w w' : World) : Prop :=
  deviceSessions w' = deviceSessions w
  /\ exists extra, pushes w' = pushes w ++ extra /\ Forall (eq p) extra.

(** The session [handleTokenUpdate] leaves for a device. *)
Definition updated_session (session : Session) (data : CheckInData) : Session :=
  {| s_deviceId := s_deviceId session; s_udid := s_udid session;
     s_serialNumber := s_serialNumber session; s_model := s_model session;
     s_osVersion := s_osVersion session; s_buildVersion := s_buildVersion session;
     s_lastCheckIn := s_lastCheckIn session; s_supervised := s_supervised session;
     s_pushToken := Token data; s_pushMagic := PushMagic data;
     s_unlockToken := UnlockToken data |}.

(** The steps of [handleTokenUpdate] that follow the rewriting of the
    session, named for the proofs. *)
Definition tokenUpdateStatements (config : Config) (deviceId : string)
    (session : Session) (data : CheckInData) (now : Z) : M Response :=
  bind (require (Token data))
    (fun token =>
       bind (db_exec (update_session_token (s_deviceId session) token
                        (PushMagic data) (UnlockToken data) now))
         (fun _ =>
            bind (getPendingCommands deviceId)
              (fun commands =>
                 bind match commands with
                      | _ :: _ =>
                          sendPushNotification config deviceId
                            (s_pushToken session) (s_pushMagic session)
                      | [] => ret tt
                      end
                   (fun _ => ret (RStatus 200))))).

(** The device a request may wake: the three routes that reach
    [sendPushNotification]. *)
Definition wake_target (r : Route) : option string :=
  match r with
  | PutCheckIn deviceId (Some data) =>
      if String.eqb (MessageType data) "TokenUpdate" then Some deviceId else None
  | PostDeviceCommand deviceId _ _ => Some deviceId
  | PostDeviceVerify deviceId => Some deviceId
  | _ => None
  end.

(** What a request adds to the push log. *)
Definition pushes_added (config : Config) (r : Route) (w w' : World) : Prop :=
  exists extra,
    pushes w' = pushes w ++ extra
    /\ match wake_target r with
       | Some deviceId =>
           Forall (sent_from_session config deviceId (deviceSessions w')) extra
       | None => extra = []
       end.

(** Only the pending queues are as before. *)
Definition same_queues (w w' : World) : Prop := pendingCommands w' = pendingCommands w.

(** The sessions are as before, and a store that answered every query so
    far keeps answering. *)
Definition sessions_kept (w w' : World) : Prop :=
  deviceSessions w' = deviceSessions w /\ (faults w = [] -> faults w' = []).

(** What a device receives over [n] rounds when it first sends [response]
    and then acknowledges each command it is handed. *)
Fixpoint deliveries (deviceId : string) (now : Z) (n : nat)
    (response : CommandResponse) (w : World) : list Command :=
  match n with
  | O => []
  | S n' =>
      match handleCommand deviceId (Some response) now w with
      | (Ok (RPlist c), w') =>
          c :: deliveries deviceId now n'
                 {| r_CommandUUID := Some (CommandUUID c);
                    r_Status := "Acknowledged"; r_RequestType := None;
                    r_ProfileList := None; r_SecurityInfo := None;
                    r_InstalledApplicationList := None;
                    r_Restrictions := None |} w'
      | _ => []
      end
  end.

(** * A sample server for the closed examples *)

Definition sample_config : Config :=
  {| serverUrl := "https://mdm.example"; mdmTopic := None; production := false;
     apiKey := "development-key"; apns := true;
     signingCertificate := None; signingKey := None |}.

Definition sample_store : Db :=
  {| device_profiles :=
       [ {| dp_id := 7; dp_profile_uuid := "device-a"; dp_mdm_enrolled := false;
            dp_supervision_level := 0 |};
         {| dp_id := 8; dp_profile_uuid := "device-b"; dp_mdm_enrolled := false;
            dp_supervision_level := 0 |} ];
     mdm_device_sessions := []; mdm_commands := []; mdm_device_events := [];
     supervision_profiles := []; supervision_enrollments := [];
     blocked_domains :=
       [ {| bd_domain := "casino.example"; bd_category := "gambling" |} ];
     blocked_apps := []; device_app_inventory := []; device_restrictions := [] |}.

Definition sample_settings : Settings :=
  {| block_adult_content := false; block_gambling := true;
     block_social_media := false; block_gaming := false; block_news := false;
     block_entertainment := false; block_shopping := false;
     block_dating := false;
     custom_blocked_domains :=
       Some [ "911.gov"; "app.altriirecovery.com"; "casino.example" ];
     customAllowedDomains := None; additionalBlockedApps := None;
     allowJavaScript := None |}.

(** A stand-in serializer: the profile's identifier. *)
Definition sample_plist (p : Profile) : string := PayloadIdentifier p.

Definition sample_sign (certificate key : string) (now : Z) (data : string)
  : option string := Some ("signed:" +:+ data).

Definition sample_server : World := new_server sample_config true sample_store.

Definition sample_ticket : Enrollment :=
  {| e_profileData := "profile-bytes"; e_deviceId := "device-a";
     e_userId := "user-1"; e_profileUUID := 0%nat; e_expiresAt := 1000 |}.

Definition server_with_ticket : World :=
  with_enrollmentCodes {[ "K7Q2M9" := sample_ticket ]} sample_server.

(** The state after [generateSupervisionProfile] issued the code [K7Q2M9]
    for [device-a] at time 0. *)
Definition server_after_issue : World :=
  after (generateSupervisionProfile sample_config sample_plist sample_sign
           "device-a" "user-1" sample_settings 3 true "K7Q2M9" 0 0 0)
    sample_server.

Definition empty_profile : Profile :=
  {| PayloadType := ""; PayloadVersion := 0; PayloadIdentifier := "";
     PayloadUUID := 0%nat; PayloadDisplayName := ""; PayloadDescription := "";
     PayloadOrganization := ""; PayloadRemovalDisallowed := false;
     PayloadContent := [] |}.

Definition returned_profile (r : Result Profile) : Profile :=
  match r with Ok profile => profile | Throw => empty_profile end.

(** The level-3 profile built for [device-a] from [sample_settings]. *)
Definition sample_profile : Profile :=
  returned_profile
    (fst (buildSupervisionProfile sample_config "device-a" 0%nat sample_settings
            3 true sample_server)).

(** The level-1 profile built for [device-a] from [sample_settings]. *)
Definition sample_profile_level1 : Profile :=
  returned_profile
    (fst (buildSupervisionProfile sample_config "device-a" 0%nat sample_settings
            1 true sample_server)).

Definition check_in_message (messageType : string) : CheckInData :=
  {| MessageType := messageType; UDID := Some "00008030-001C";
     SerialNumber := Some "F2LXK0"; Model := Some "iPhone12,1";
     OSVersion := Some "17.4"; BuildVersion := Some "21E219";
     IsSupervised := Some true; Token := Some "push-token-1";
     PushMagic := Some "magic-1"; UnlockToken := None; Reason := None |}.

(** [device-a] after its [Authenticate] check-in. *)
Definition server_with_session : World :=
  after (handleCheckIn sample_config "device-a"
           (Some (check_in_message "Authenticate")) 5) sample_server.

(** [device-a] after its [Authenticate] and [TokenUpdate] check-ins. *)
Definition server_with_token : World :=
  after (handleCheckIn sample_config "device-a"
           (Some (check_in_message "TokenUpdate")) 6) server_with_session.

(** [device-a], which has no session, after the operator queued a
    [ProfileList] command for it. *)
Definition server_with_orphan_command : World :=
  after (sendCommand sample_config "device-a" "ProfileList" []) sample_server.

Definition acknowledgement (commandUUID : UUID) : CommandResponse :=
  {| r_CommandUUID := Some commandUUID; r_Status := "Acknowledged";
     r_RequestType := None; r_ProfileList := None; r_SecurityInfo := None;
     r_InstalledApplicationList := None; r_Restrictions := None |}.

(** [device-a] with a session and two queued commands: [ProfileList]
    (id 0) at the head, then [SecurityInfo] (id 1). *)
Definition server_with_two_commands : World :=
  after (sendCommand sample_config "device-a" "SecurityInfo" [])
    (after (sendCommand sample_config "device-a" "ProfileList" [])
       server_with_token).

(** [device-a] with a session, no push token yet, and one queued command. *)
Definition server_with_session_and_command : World :=
  after (sendCommand sample_config "device-a" "ProfileList" []) server_with_session.

(** A poll of the command endpoint that reports no result. *)
Definition idle : CommandResponse :=
  {| r_CommandUUID := None; r_Status := "Idle"; r_RequestType := None;
     r_ProfileList := None; r_SecurityInfo := None;
     r_InstalledApplicationList := None; r_Restrictions := None |}.

Definition command (commandUUID : UUID) (requestType : string) : Command :=
  {| CommandUUID := commandUUID; Command_ := [ ("RequestType", JStr requestType) ] |}.

(** The commands [ProfileList] (id 0) and [SecurityInfo] (id 1) are queued
    for [device-a]; the server is shut down and started again on the same
    store, which still lists both as pending; the device authenticates;
    the operator queues [Restrictions] (id 2). *)
Definition server_restarted_with_backlog : World :=
  after (sendCommand sample_config "device-a" "Restrictions" [])
    (after (handleCheckIn sample_config "device-a"
              (Some (check_in_message "Authenticate")) 30)
       (shutdown
          (after (sendCommand sample_config "device-a" "SecurityInfo" [])
             (after (sendCommand sample_config "device-a" "ProfileList" [])
                sample_server)))).

(** ** Notions used in the further properties *)

(** The settings select no category. *)
Definition no_category (settings : Settings) : Prop :=
  block_adult_content settings = false /\ block_gambling settings = false
  /\ block_social_media settings = false /\ block_gaming settings = false
  /\ block_news settings = false /\ block_entertainment settings = false
  /\ block_shopping settings = false /\ block_dating settings = false.

(** The list a payload holds under [blacklistedAppBundleIDs]. *)
Definition blacklisted_apps (payload : Obj) : list string :=
  match obj_get "blacklistedAppBundleIDs" payload with
  | Some (JStrs apps) => apps
  | _ => []
  end.

(** What [getPendingCommands] returns for a device when the store answers:
    the in-memory queue, or else the pending rows of the device record. *)
Definition pending_for (deviceId : string) (w : World) : list Command :=
  match default [] (pendingCommands w !! deviceId) with
  | (_ :: _) as queue => queue
  | [] =>
      match select_device deviceId (db w) with
      | [] => []
      | row :: _ => select_pending_commands (dp_id row) (db w)
      end
  end.

(** The push [wakeDevice] sends for a device: one when a provider exists and
    the session of the device holds a token that is not the empty string,
    none otherwise. *)
Definition wake_of (config : Config) (deviceId : string) (w : World) : list Push :=
  match deviceSessions w !! deviceId with
  | Some session =>
      match s_pushToken session with
      | Some token =>
          if String.eqb token "" then []
          else if apnProvider w then [wake_push config deviceId session] else []
      | None => []
      end
  | None => []
  end.

(** The row [sendCommand] and [verifyDevice] store for a command. *)
Definition pending_row (id : Z) (commandType : string) (command : Command) : CommandRow :=
  {| mc_device_id := id; mc_command_uuid := CommandUUID command;
     mc_command_type := commandType; mc_command_data := command;
     mc_status := "pending"; mc_acknowledged_at := None;
     mc_response_data := None |}.

(** The four commands [verifyDevice] builds, with ids drawn from [n] on. *)
Definition verification_commands (n : UUID) : list Command :=
  [ command n "ProfileList"; command (S n) "SecurityInfo";
    command (S (S n)) "Restrictions";
    command (S (S (S n))) "InstalledApplicationList" ].

(** The request type [verifyDevice] stores with a command. *)
Definition request_type (c : Command) : string :=
  match obj_prop "RequestType" (Command_ c) with
  | JStr t => t
  | _ => ""
  end.

(** The request types [buildCommand] knows by name. *)
Definition named_types : list string :=
  [ "ProfileList"; "SecurityInfo"; "DeviceInformation"; "Restrictions";
    "InstallProfile"; "RemoveProfile"; "Settings"; "DeviceLock" ].

(** The entry [generateSupervisionProfile] registers for a code. *)
Definition issued_ticket (signed : string) (deviceId userId : string)
    (profileUUID : UUID) (now : Z) : Enrollment :=
  {| e_profileData := signed; e_deviceId := deviceId; e_userId := userId;
     e_profileUUID := profileUUID; e_expiresAt := now + 24 * 60 * 60 * 1000 |}.

(** The rows the loop of [processAppList] leaves in the store. *)
Definition inventory_after (deviceId : Z) (blockedBundleIds : list string)
    (now : Z) (apps : list App) (d : Db) : Db :=
  fold_left
    (fun d app =>
       upsert_app_inventory deviceId app
         (str_mem (app_BundleIdentifier app) blockedBundleIds) now d)
    apps d.

(** The provider is as before, and without a provider so is the push log. *)
Definition provider_kept (w w' : World) : Prop :=
  apnProvider w' = apnProvider w
  /\ (apnProvider w = false -> pushes w' = pushes w).

(** ** Further sample values *)

(** Settings that select no category and block two custom domains. *)
Definition custom_only_settings : Settings :=
  {| block_adult_content := false; block_gambling := false;
     block_social_media := false; block_gaming := false; block_news := false;
     block_entertainment := false; block_shopping := false;
     block_dating := false;
     custom_blocked_domains := Some [ "tracker.example"; "tracker.example" ];
     customAllowedDomains := Some [ "tracker.example" ];
     additionalBlockedApps := Some [ "com.example.vpn" ];
     allowJavaScript := Some false |}.

(** A [TokenUpdate] message without a token. *)
Definition token_update_without_token : CheckInData :=
  {| MessageType := "TokenUpdate"; UDID := None; SerialNumber := None;
     Model := None; OSVersion := None; BuildVersion := None;
     IsSupervised := None; Token := None; PushMagic := Some "magic-2";
     UnlockToken := None; Reason := None |}.

(** The session of [device-a] in [server_with_token]. *)
Definition session_with_token : Session :=
  {| s_deviceId := 7; s_udid := Some "00008030-001C";
     s_serialNumber := Some "F2LXK0"; s_model := Some "iPhone12,1";
     s_osVersion := Some "17.4"; s_buildVersion := Some "21E219";
     s_lastCheckIn := 5; s_supervised := true;
     s_pushToken := Some "push-token-1"; s_pushMagic := Some "magic-1";
     s_unlockToken := None |}.

(** The session of [device-a] in [server_with_session]. *)
Definition session_without_token : Session :=
  {| s_deviceId := 7; s_udid := Some "00008030-001C";
     s_serialNumber := Some "F2LXK0"; s_model := Some "iPhone12,1";
     s_osVersion := Some "17.4"; s_buildVersion := Some "21E219";
     s_lastCheckIn := 5; s_supervised := true;
     s_pushToken := None; s_pushMagic := None; s_unlockToken := None |}.

(** [device-a] with a session and a push token, on a server whose push
    provider could not be created. *)
Definition server_without_provider : World :=
  after (handleCheckIn sample_config "device-a"
           (Some (check_in_message "TokenUpdate")) 6)
    (after (handleCheckIn sample_config "device-a"
              (Some (check_in_message "Authenticate")) 5)
       (new_server sample_config false sample_store)).

(** [device-a] after an [Authenticate] check-in and a [TokenUpdate] whose
    token is the empty string. *)
Definition server_with_empty_token : World :=
  after (handleCheckIn sample_config "device-a"
           (Some {| MessageType := "TokenUpdate"; UDID := None;
                    SerialNumber := None; Model := None; OSVersion := None;
                    BuildVersion := None; IsSupervised := None;
                    Token := Some ""; PushMagic := Some "magic-1";
                    UnlockToken := None; Reason := None |}) 6)
    server_with_session.

(** A store in which [device-a] is supervised at level 3, one application
    is on the blocked list, and the inventory holds one row of [device-a]
    and one of [device-b]. *)
Definition supervised_store : Db :=
  {| device_profiles :=
       [ {| dp_id := 7; dp_profile_uuid := "device-a"; dp_mdm_enrolled := true;
            dp_supervision_level := 3 |};
         {| dp_id := 8; dp_profile_uuid := "device-b"; dp_mdm_enrolled := false;
            dp_supervision_level := 0 |} ];
     mdm_device_sessions := []; mdm_commands := []; mdm_device_events := [];
     supervision_profiles := []; supervision_enrollments := [];
     blocked_domains := [];
     blocked_apps := [ "com.example.vpn" ];
     device_app_inventory :=
       [ {| ai_device_id := 7; ai_bundle_identifier := "com.example.game";
            ai_app_name := "Game"; ai_version := Some "1.0";
            ai_is_system_app := false; ai_is_blocked := false;
            ai_last_seen_at := None |};
         {| ai_device_id := 8; ai_bundle_identifier := "com.example.vpn";
            ai_app_name := "VPN"; ai_version := Some "2.0";
            ai_is_system_app := false; ai_is_blocked := true;
            ai_last_seen_at := None |} ];
     device_restrictions := [] |}.

Definition supervised_server : World := new_server sample_config true supervised_store.

(** A restrictions report that blocks VPN creation and nothing else. *)
Definition vpn_only_report : Obj := [ ("allowVPNCreation", JBool false) ].

(** An application report: a blocked application without a name, Safari as
    a system application, and the blocked application once more. *)
Definition sample_app_report : list App :=
  [ {| app_BundleIdentifier := "com.example.vpn"; app_Name := Some "";
       app_Version := Some "2.1"; app_IsSystemApp := None |};
    {| app_BundleIdentifier := "com.apple.mobilesafari"; app_Name := Some "Safari";
       app_Version := Some "17.4"; app_IsSystemApp := Some true |};
    {| app_BundleIdentifier := "com.example.vpn"; app_Name := Some "Tunnel";
       app_Version := Some "2.2"; app_IsSystemApp := Some false |} ].

(** * Reasoning about methods *)

(** ** Frames: what a method leaves as it found it *)

Section FrameRules.

Context (R : World -> World -> Prop) `{!Frame R}.

Lemma framed_ret {A} (a : A) : framed R (ret a).
Proof. intros w. apply frame_refl. Qed.

Lemma framed_throw {A} : framed R (@throw A).
Proof. intros w. apply frame_refl. Qed.

Lemma framed_get_world : framed R get_world.
Proof. intros w. apply frame_refl. Qed.

Lemma framed_require {A} (x : option A) : framed R (require x).
Proof. destruct x; [apply framed_ret | apply framed_throw]. Qed.

Lemma framed_bind {A B} (m : M A) (k : A -> M B) :
  framed R m -> (forall a, framed R (k a)) -> framed R (bind m k).
Proof.
  intros Hm Hk w. unfold bind. specialize (Hm w).
  destruct (m w) as [[a|] w1]; simpl in *; [|assumption].
  eapply frame_trans; [eassumption | apply Hk].
Qed.

Lemma framed_try_catch {A} (m h : M A) :
  framed R m -> framed R h -> framed R (try_catch m h).
Proof.
  intros Hm Hh w. unfold try_catch. specialize (Hm w).
  destruct (m w) as [[a|] w1]; simpl in *; [assumption|].
  eapply frame_trans; [eassumption | apply Hh].
Qed.

Lemma framed_modify (g : World -> World) :
  (forall w, R w (g w)) -> framed R (modify g).
Proof. intros Hg w. apply Hg. Qed.

Lemma framed_uuidv4 : framed R uuidv4.
Proof. intros w. apply frame_next_uuid. Qed.

Lemma framed_db_select {A} (q : Db -> A) : framed R (db_select q).
Proof.
  intros w. unfold db_select. destruct (query_fails w); apply frame_next_query.
Qed.

Lemma framed_db_exec (q : Db -> Db) :
  (forall w, R w (with_db (q (db w)) w)) -> framed R (db_exec q).
Proof.
  intros Hq w. unfold db_exec.
  destruct (query_fails w); simpl; [apply frame_next_query|].
  eapply frame_trans; [apply frame_next_query | apply (Hq (next_query w))].
Qed.

End FrameRules.

(** One step of a frame proof, following the shape of the method. *)
Ltac frame_step :=
  lazymatch goal with
  | |- framed _ (bind _ _) => apply framed_bind; [exact _ | | intros ?]
  | |- framed _ (try_catch _ _) => apply framed_try_catch; [exact _ | |]
  | |- framed _ (ret _) => apply framed_ret; exact _
  | |- framed _ throw => apply framed_throw; exact _
  | |- framed _ get_world => apply framed_get_world; exact _
  | |- framed _ (require _) => apply framed_require; exact _
  | |- framed _ uuidv4 => apply framed_uuidv4; exact _
  | |- framed _ (db_select _) => apply framed_db_select; exact _
  | |- framed _ (match ?x with _ => _ end) => destruct x
  end.

(** ** Frames used below *)

Lemma faults_next_query w : faults w = [] -> faults (next_query w) = [].
Proof. intros H. unfold next_query. simpl. rewrite H. reflexivity. Qed.

#[local] Instance same_memory_frame : Frame same_memory.
Proof.
  split; unfold same_memory.
  - intros w. repeat split; auto.
  - intros w1 w2 w3 (?&?&?&?&?&?) (?&?&?&?&?&?).
    repeat split; try congruence; auto.
  - intros w. repeat split; auto. apply faults_next_query.
  - intros w n. repeat split; auto.
Qed.

#[local] Instance same_commands_frame : Frame same_commands.
Proof.
  split; unfold same_commands.
  - intros w. split; [apply frame_refl | reflexivity].
  - intros w1 w2 w3 [? ?] [? ?].
    split; [eapply frame_trans; eassumption | congruence].
  - intros w. split; [apply frame_next_query | reflexivity].
  - intros w n. split; [apply frame_next_uuid | reflexivity].
Qed.

#[local] Instance same_store_frame : Frame same_store.
Proof.
  split; unfold same_store.
  - intros w. split; [apply frame_refl | reflexivity].
  - intros w1 w2 w3 [? ?] [? ?].
    split; [eapply frame_trans; eassumption | congruence].
  - intros w. split; [apply frame_next_query | reflexivity].
  - intros w n. split; [apply frame_next_uuid | reflexivity].
Qed.

#[local] Instance same_pushes_frame : Frame same_pushes.
Proof. split; unfold same_pushes; intros; simpl; congruence. Qed.

Lemma same_memory_with_db w d : same_memory w (with_db d w).
Proof. unfold same_memory. simpl. repeat split; auto. Qed.

(** A method whose exceptions are all caught and dropped returns. *)
Lemma try_catch_ret_ok (m : M unit) w : fst (try_catch m (ret tt) w) = Ok tt.
Proof.
  unfold try_catch, ret. destruct (m w) as [[[]|] w1]; reflexivity.
Qed.

(** ** Frames of the helper methods *)

Lemma logDeviceEvent_pushes id t data : framed same_pushes (logDeviceEvent id t data).
Proof.
  unfold logDeviceEvent. repeat frame_step.
  apply framed_db_exec; [exact _ | reflexivity].
Qed.

Lemma logDeviceEvent_commands id t data :
  framed same_commands (logDeviceEvent id t data).
Proof.
  unfold logDeviceEvent. repeat frame_step.
  apply framed_db_exec; [exact _ |].
  intros w. split; [apply same_memory_with_db | reflexivity].
Qed.

Lemma logDeviceEvent_ok id t data w : fst (logDeviceEvent id t data w) = Ok tt.
Proof. apply try_catch_ret_ok. Qed.

Lemma getPendingCommands_store deviceId : framed same_store (getPendingCommands deviceId).
Proof. unfold getPendingCommands. repeat frame_step. Qed.

Lemma getNextCommand_store deviceId : framed same_store (getNextCommand deviceId).
Proof.
  unfold getNextCommand. repeat frame_step. apply getPendingCommands_store.
Qed.

(** * Sign *)

(** C9. For every profile, when no signing certificate or no signing key is
    configured, [signProfile] returns the serialized profile itself, the
    unsigned document, and does not fail. *)
Theorem signProfile_unsigned_without_identity :
  forall config plist_build pkcs7_sign profile now,
    signingCertificate config = None \/ signingKey config = None ->
    signProfile config plist_build pkcs7_sign profile now = plist_build profile.
Proof.
  intros config plist_build pkcs7_sign profile now H. unfold signProfile.
  destruct H as [H|H]; rewrite H; [reflexivity|].
  destruct (signingCertificate config); reflexivity.
Qed.

(** The same fallback covers a signing attempt that throws. *)
Lemma signProfile_unsigned_on_error :
  forall config plist_build pkcs7_sign profile now,
    (forall certificate key, pkcs7_sign certificate key now (plist_build profile) = None) ->
    signProfile config plist_build pkcs7_sign profile now = plist_build profile.
Proof.
  intros config plist_build pkcs7_sign profile now H. unfold signProfile.
  destruct (signingCertificate config), (signingKey config); try reflexivity.
  rewrite H. reflexivity.
Qed.

Lemma signProfile_unsigned_without_identity_witness :
  (signingCertificate sample_config = None \/ signingKey sample_config = None)
  /\ forall profile,
       signProfile sample_config sample_plist sample_sign profile 0
       = sample_plist profile.
Proof.
  split; [left; reflexivity|].
  intros profile.
  apply (signProfile_unsigned_without_identity sample_config sample_plist
           sample_sign profile 0).
  left. reflexivity.
Defined.

(** * Enrollment codes *)

(** C7. Resolving a code whose expiry time has passed answers 410
    ("Enrollment code expired") and removes the entry from
    [enrollmentCodes]; every later resolution of that code, at whatever
    time, answers 404 ("Invalid enrollment code"). *)
Theorem expired_code_is_evicted :
  forall code now enrollment w,
    enrollmentCodes w !! code = Some enrollment ->
    e_expiresAt enrollment < now ->
    fst (getEnrollmentProfile code now w)
      = Ok (RError 410 "Enrollment code expired")
    /\ enrollmentCodes (after (getEnrollmentProfile code now) w) !! code = None
    /\ forall now',
         fst (getEnrollmentProfile code now'
                (after (getEnrollmentProfile code now) w))
         = Ok (RError 404 "Invalid enrollment code").
Proof.
  intros code now enrollment w Hcode Hexp.
  assert (Hrun : getEnrollmentProfile code now w
                 = (Ok (RError 410 "Enrollment code expired"),
                    with_enrollmentCodes (delete code (enrollmentCodes w)) w)).
  { unfold getEnrollmentProfile, bind, get_world. rewrite Hcode.
    destruct (Z.ltb_spec (e_expiresAt enrollment) now) as [_|Hge]; [|lia].
    reflexivity. }
  unfold after. rewrite Hrun. simpl.
  split; [reflexivity|]. split; [apply lookup_delete_eq|].
  intros now'. unfold getEnrollmentProfile, bind, get_world. simpl.
  rewrite lookup_delete_eq. reflexivity.
Qed.

Lemma expired_code_is_evicted_witness :
  fst (getEnrollmentProfile "K7Q2M9" 1001 server_with_ticket)
    = Ok (RError 410 "Enrollment code expired")
  /\ enrollmentCodes
       (after (getEnrollmentProfile "K7Q2M9" 1001) server_with_ticket)
       !! "K7Q2M9" = None
  /\ forall now',
       fst (getEnrollmentProfile "K7Q2M9" now'
              (after (getEnrollmentProfile "K7Q2M9" 1001) server_with_ticket))
       = Ok (RError 404 "Invalid enrollment code").
Proof.
  apply (expired_code_is_evicted "K7Q2M9" 1001 sample_ticket server_with_ticket).
  - vm_compute. reflexivity.
  - vm_compute. reflexivity.
Defined.

Lemma try_catch_headers_sent_ok (m : M unit) w :
  fst (try_catch m headers_sent w) = Ok tt.
Proof.
  unfold try_catch, headers_sent, modify. destruct (m w) as [[[]|] w1]; reflexivity.
Qed.

Lemma headers_sent_memory : framed same_memory headers_sent.
Proof.
  apply framed_modify; try exact _. intros w. unfold same_memory. simpl.
  repeat split; auto.
Qed.

(** The resolution of a known, unexpired code, step by step. *)
Lemma getEnrollmentProfile_unexpired code now enrollment w :
  enrollmentCodes w !! code = Some enrollment ->
  now <= e_expiresAt enrollment ->
  fst (getEnrollmentProfile code now w) = Ok (RProfile (e_profileData enrollment))
  /\ same_memory w (after (getEnrollmentProfile code now) w)
  /\ (faults w = [] ->
      db (after (getEnrollmentProfile code now) w)
      = update_enrollment_downloaded code
          (insert_event (DeviceIdentifier (e_deviceId enrollment))
             "profile_downloaded" (EvProfileDownloaded code) (db w))
      /\ uncaught (after (getEnrollmentProfile code now) w) = uncaught w).
Proof.
  intros Hcode Hnow.
  pose (m := try_catch
               (bind (logDeviceEvent (DeviceIdentifier (e_deviceId enrollment))
                        "profile_downloaded" (EvProfileDownloaded code))
                     (fun _ => db_exec (update_enrollment_downloaded code)))
               headers_sent).
  assert (Hrun : getEnrollmentProfile code now w
                 = (Ok (RProfile (e_profileData enrollment)), snd (m w))).
  { unfold getEnrollmentProfile, bind at 1, get_world. rewrite Hcode.
    destruct (Z.ltb_spec (e_expiresAt enrollment) now) as [Hlt|_]; [lia|].
    fold m. unfold bind.
    pose proof (try_catch_headers_sent_ok
                  (bind (logDeviceEvent (DeviceIdentifier (e_deviceId enrollment))
                           "profile_downloaded" (EvProfileDownloaded code))
                        (fun _ => db_exec (update_enrollment_downloaded code))) w)
      as Hok.
    fold m in Hok. destruct (m w) as [[[]|] w1]; simpl in Hok;
      [reflexivity | discriminate]. }
  unfold after. rewrite Hrun. simpl.
  split; [reflexivity|]. split.
  - assert (Hframe : framed same_memory m).
    { unfold m, logDeviceEvent.
      repeat (apply headers_sent_memory || frame_step);
        apply framed_db_exec; try exact _; intros; apply same_memory_with_db. }
    apply Hframe.
  - intros Hf. unfold m, try_catch, logDeviceEvent, try_catch, bind, db_exec,
      query_fails, ret. rewrite Hf. simpl. rewrite Hf. split; reflexivity.
Qed.

(** When the statement that marks the enrollment as downloaded fails, the
    client has the profile and an exception leaves the handler. *)
Lemma failed_download_mark_leaves_the_handler code now enrollment w :
  enrollmentCodes w !! code = Some enrollment ->
  now <= e_expiresAt enrollment ->
  query_fails (next_query w) = true ->
  fst (getEnrollmentProfile code now w) = Ok (RProfile (e_profileData enrollment))
  /\ uncaught (after (getEnrollmentProfile code now) w)
     = uncaught w ++ ["ERR_HTTP_HEADERS_SENT"].
Proof.
  intros Hcode Hnow Hfail.
  split; [apply getEnrollmentProfile_unexpired; assumption|].
  unfold after, getEnrollmentProfile, bind at 1, get_world. rewrite Hcode.
  destruct (Z.ltb_spec (e_expiresAt enrollment) now) as [Hlt|_]; [lia|].
  unfold bind, try_catch, logDeviceEvent, try_catch, db_exec, headers_sent,
    modify, ret, query_fails in *.
  simpl in Hfail.
  destruct (hd false (faults w)); simpl; rewrite Hfail; reflexivity.
Qed.

(** C2, as the code has it.  While the store answers, a code that is known
    and not yet expired resolves to its profile every time: a resolution
    answers with the profile bytes, leaves [enrollmentCodes] as it was, logs
    [profile_downloaded], sets the durable enrollment status to
    [downloaded], which no resolution reads, and lets no exception leave
    the handler; a second resolution before the expiry answers with the
    same profile. *)
Theorem unexpired_code_resolves_every_time :
  forall code now now' enrollment w,
    faults w = [] ->
    enrollmentCodes w !! code = Some enrollment ->
    now <= e_expiresAt enrollment ->
    now' <= e_expiresAt enrollment ->
    let w1 := after (getEnrollmentProfile code now) w in
    let w2 := after (getEnrollmentProfile code now') w1 in
    fst (getEnrollmentProfile code now w)
      = Ok (RProfile (e_profileData enrollment))
    /\ enrollmentCodes w1 = enrollmentCodes w
    /\ db w1 = update_enrollment_downloaded code
                 (insert_event (DeviceIdentifier (e_deviceId enrollment))
                    "profile_downloaded" (EvProfileDownloaded code) (db w))
    /\ uncaught w1 = uncaught w
    /\ fst (getEnrollmentProfile code now' w1)
       = Ok (RProfile (e_profileData enrollment))
    /\ enrollmentCodes w2 = enrollmentCodes w
    /\ uncaught w2 = uncaught w.
Proof.
  intros code now now' enrollment w Hf Hcode Hnow Hnow' w1 w2.
  destruct (getEnrollmentProfile_unexpired code now enrollment w Hcode Hnow)
    as (Hr & Hmem & Hdb).
  destruct Hmem as (_ & _ & Hcodes & _ & _ & Hquiet).
  destruct (Hdb Hf) as [Hrows Hnone].
  fold w1 in Hcodes, Hrows, Hnone, Hquiet.
  assert (Hcode1 : enrollmentCodes w1 !! code = Some enrollment)
    by (rewrite Hcodes; exact Hcode).
  destruct (getEnrollmentProfile_unexpired code now' enrollment w1 Hcode1 Hnow')
    as (Hr2 & Hmem2 & Hdb2).
  destruct Hmem2 as (_ & _ & Hcodes2 & _).
  destruct (Hdb2 (Hquiet Hf)) as [_ Hnone2].
  fold w2 in Hcodes2, Hnone2.
  repeat split; try assumption; congruence.
Qed.

Lemma unexpired_code_resolves_every_time_witness :
  let w1 := after (getEnrollmentProfile "K7Q2M9" 10) server_with_ticket in
  let w2 := after (getEnrollmentProfile "K7Q2M9" 20) w1 in
  fst (getEnrollmentProfile "K7Q2M9" 10 server_with_ticket)
    = Ok (RProfile "profile-bytes")
  /\ enrollmentCodes w1 = enrollmentCodes server_with_ticket
  /\ db w1 = update_enrollment_downloaded "K7Q2M9"
               (insert_event (DeviceIdentifier "device-a")
                  "profile_downloaded" (EvProfileDownloaded "K7Q2M9")
                  (db server_with_ticket))
  /\ uncaught w1 = uncaught server_with_ticket
  /\ fst (getEnrollmentProfile "K7Q2M9" 20 w1) = Ok (RProfile "profile-bytes")
  /\ enrollmentCodes w2 = enrollmentCodes server_with_ticket
  /\ uncaught w2 = uncaught server_with_ticket.
Proof.
  apply (unexpired_code_resolves_every_time "K7Q2M9" 10 20 sample_ticket
           server_with_ticket).
  - reflexivity.
  - vm_compute. reflexivity.
  - vm_compute. discriminate.
  - vm_compute. discriminate.
Defined.

(** C2, as stated, fails: the code issued at time 0 is resolved at time
    1000 and again at time 2000, both before it expires, and both
    resolutions answer with the profile. *)
Lemma issued_code_resolves_twice :
  fst (generateSupervisionProfile sample_config sample_plist sample_sign
         "device-a" "user-1" sample_settings 3 true "K7Q2M9" 0 0 0 sample_server)
    = Ok (RJson [ ("enrollmentCode", JStr "K7Q2M9"); ("profileUUID", JUuid 0%nat);
                  ("downloadUrl", JStr "/mdm/enroll/K7Q2M9");
                  ("expiresAt", JNum 86400000) ])
  /\ fst (getEnrollmentProfile "K7Q2M9" 1000 server_after_issue)
     = Ok (RProfile "com.altriirecovery.supervision.device-a")
  /\ fst (getEnrollmentProfile "K7Q2M9" 2000
            (after (getEnrollmentProfile "K7Q2M9" 1000) server_after_issue))
     = Ok (RProfile "com.altriirecovery.supervision.device-a").
Proof. vm_compute. repeat split; reflexivity. Qed.

(** * Profile builder *)

Lemma str_mem_In x l : str_mem x l = true <-> In x l.
Proof.
  unfold str_mem. rewrite existsb_exists. split.
  - intros (y & Hy & Heq). apply String.eqb_eq in Heq. subst. exact Hy.
  - intros H. exists x. split; [exact H | apply String.eqb_refl].
Qed.

Lemma set_spread_from_sound seen l d :
  In d (set_spread_from seen l) -> In d l.
Proof.
  revert seen. induction l as [|x l IH]; intros seen; simpl; [tauto|].
  destruct (str_mem x seen); simpl.
  - intros H. right. exact (IH _ H).
  - intros [H|H]; [left; exact H | right; exact (IH _ H)].
Qed.

Lemma set_spread_from_complete seen l d :
  In d l -> ~ In d seen -> In d (set_spread_from seen l).
Proof.
  revert seen. induction l as [|x l IH]; intros seen; simpl; [tauto|].
  intros Hin Hseen. destruct (str_mem x seen) eqn:Hx.
  - apply IH; [|exact Hseen]. destruct Hin as [->|Hin]; [|exact Hin].
    apply str_mem_In in Hx. contradiction.
  - destruct (String.eqb_spec x d) as [->|Hne]; [left; reflexivity|].
    right. apply IH.
    + destruct Hin as [Heq|Hin]; [contradiction | exact Hin].
    + simpl. intros [Heq|Hin']; [contradiction | contradiction].
Qed.

(** What [compileBlockedDomains] returns when it returns: the category
    rows of the store followed by the custom list, without repetitions
    and without the entries that contain [altriirecovery.com]. *)
Lemma compileBlockedDomains_returns settings w denied w' :
  compileBlockedDomains settings w = (Ok denied, w') ->
  exists categoryDomains,
    denied = List.filter (fun domain => negb (includes domain "altriirecovery.com"))
               (set_spread (categoryDomains
                            ++ or_empty (custom_blocked_domains settings))).
Proof.
  unfold compileBlockedDomains, bind, ret.
  match goal with
  | |- context [match ?c w with _ => _ end] =>
      destruct (c w) as [[categoryDomains|] w1]
  end; intros H; inversion H.
  exists categoryDomains. reflexivity.
Qed.

(** The catalogue query is the only step of the builder that can fail. *)
Lemma compileBlockedDomains_total settings w :
  faults w = [] -> exists denied w', compileBlockedDomains settings w = (Ok denied, w').
Proof.
  intros Hf. unfold compileBlockedDomains, bind, ret.
  match goal with
  | |- context [match ?l with [] => _ | _ :: _ => _ end] => destruct l
  end; [eauto|].
  unfold db_select, query_fails. rewrite Hf. simpl. eauto.
Qed.

Lemma denied_domain_facts settings denied categoryDomains :
  denied = List.filter (fun domain => negb (includes domain "altriirecovery.com"))
             (set_spread (categoryDomains
                          ++ or_empty (custom_blocked_domains settings))) ->
  (forall d, In d denied -> includes d "altriirecovery.com" = false)
  /\ (forall d,
        In d [ "altriirecovery.com"; "www.altriirecovery.com";
               "app.altriirecovery.com"; "api.altriirecovery.com" ] ->
        ~ In d denied)
  /\ (forall d,
        In d (or_empty (custom_blocked_domains settings)) ->
        includes d "altriirecovery.com" = false -> In d denied).
Proof.
  intros ->.
  assert (Hsound : forall d,
             In d (List.filter
                     (fun domain => negb (includes domain "altriirecovery.com"))
                     (set_spread (categoryDomains
                                  ++ or_empty (custom_blocked_domains settings)))) ->
             includes d "altriirecovery.com" = false).
  { intros d Hd. apply filter_In in Hd. destruct Hd as [_ Hd].
    apply negb_true_iff in Hd. exact Hd. }
  split; [exact Hsound|]. split.
  - intros d Hop Hd. apply Hsound in Hd.
    simpl in Hop.
    destruct Hop as [<-|[<-|[<-|[<-|[]]]]]; vm_compute in Hd; discriminate.
  - intros d Hd Hinc. apply filter_In. split.
    + apply set_spread_from_complete; [|simpl; tauto].
      apply in_or_app. right. exact Hd.
    + rewrite Hinc. reflexivity.
Qed.

(** The document [buildSupervisionProfile] returns when it returns. *)
Lemma buildSupervisionProfile_returns
    config deviceId profileUUID settings securityLevel isWebOnly w profile w' :
  buildSupervisionProfile config deviceId profileUUID settings securityLevel
    isWebOnly w = (Ok profile, w') ->
  exists mdm contentFilter rest denied w0 w1,
    compileBlockedDomains settings w0 = (Ok denied, w1)
    /\ PayloadContent profile = mdm :: contentFilter :: rest
    /\ payload_type mdm = Some (JStr "com.apple.mdm")
    /\ payload_type contentFilter = Some (JStr "com.apple.webcontent-filter")
    /\ obj_get "BlacklistedURLs" contentFilter = Some (JStrs denied)
    /\ obj_get "PermittedURLs" contentFilter = Some (JStrs getBaselinePermittedURLs)
    /\ obj_get "BlacklistedURLs" mdm = None
    /\ (forall payload, In payload rest -> obj_get "BlacklistedURLs" payload = None)
    /\ (securityLevel < 2 -> rest = [])
    /\ (2 <= securityLevel ->
        exists restrictions security,
          rest = [restrictions; security]
          /\ payload_type restrictions = Some (JStr "com.apple.applicationaccess")
          /\ payload_type security = Some (JStr "com.apple.security")
          /\ (securityLevel = 2 ->
              obj_get "allowAppInstallation" restrictions = Some (JBool true)
              /\ obj_get "allowVPNCreation" restrictions = Some (JBool false))
          /\ (3 <= securityLevel ->
              obj_get "allowAppInstallation" restrictions = Some (JBool false))).
Proof.
  unfold buildSupervisionProfile, buildMDMPayload, buildContentFilterPayload,
    buildRestrictionsPayload, buildSecurityPayload.
  unfold bind at 1. unfold bind at 1. unfold uuidv4 at 1. unfold ret at 1.
  unfold bind at 1. unfold bind at 1.
  destruct (compileBlockedDomains settings (with_next_uuid (S (next_uuid w)) w))
    as [[denied|] w1] eqn:Hdenied; [|discriminate].
  unfold bind, uuidv4, ret.
  destruct (Z.leb_spec 2 securityLevel) as [H2|H2];
    [destruct (Z.eqb_spec securityLevel 2) as [E2|E2];
     [subst securityLevel; change (3 <=? 2) with false
     |destruct (Z.leb_spec 3 securityLevel) as [H3|H3]; [|lia]]|];
    intros H; inversion H; subst profile w'; clear H;
    simpl; do 6 eexists;
    (split; [exact Hdenied|]); (split; [reflexivity|]);
    destruct isWebOnly; simpl;
    repeat match goal with
           | |- _ /\ _ => split
           | |- _ = _ => reflexivity
           end;
    try (intros; lia);
    try (intros payload Hin; simpl in Hin;
         repeat (destruct Hin as [<-|Hin]; [reflexivity|]); destruct Hin);
    intros _; do 2 eexists; (split; [reflexivity|]);
    repeat split; try reflexivity; intros; lia.
Qed.

(** The builder returns whenever the store answers. *)
Lemma buildSupervisionProfile_total
    config deviceId profileUUID settings securityLevel isWebOnly w :
  faults w = [] ->
  exists profile w',
    buildSupervisionProfile config deviceId profileUUID settings securityLevel
      isWebOnly w = (Ok profile, w').
Proof.
  intros Hf.
  unfold buildSupervisionProfile, buildMDMPayload, buildContentFilterPayload,
    buildRestrictionsPayload, buildSecurityPayload.
  unfold bind at 1. unfold bind at 1. unfold uuidv4 at 1. unfold ret at 1.
  unfold bind at 1. unfold bind at 1.
  destruct (compileBlockedDomains_total settings
              (with_next_uuid (S (next_uuid w)) w) Hf) as (denied & w1 & ->).
  unfold bind, uuidv4, ret.
  destruct (2 <=? securityLevel); [|eauto].
  destruct (securityLevel =? 2); [eauto|].
  destruct (3 <=? securityLevel); eauto.
Qed.

(** C1, as the code has it.  The deny-list of a built profile is the
    [BlacklistedURLs] entry of its content-filter payload, the only payload
    that has one.  No entry of it contains [altriirecovery.com], so none of
    the operator's four service domains is on it, whatever the category
    rows and the custom-blocked list hold.  Nothing else is subtracted:
    every custom-blocked domain that does not contain [altriirecovery.com]
    is on the deny-list, the emergency and crisis-service domains of
    [getBaselinePermittedURLs] included; those are only listed under
    [PermittedURLs]. *)
Theorem deny_list_excludes_operator_domains :
  forall config deviceId profileUUID settings securityLevel isWebOnly w profile w',
    buildSupervisionProfile config deviceId profileUUID settings securityLevel
      isWebOnly w = (Ok profile, w') ->
    exists mdm contentFilter rest denied,
      PayloadContent profile = mdm :: contentFilter :: rest
      /\ obj_get "BlacklistedURLs" contentFilter = Some (JStrs denied)
      /\ obj_get "PermittedURLs" contentFilter = Some (JStrs getBaselinePermittedURLs)
      /\ (forall payload,
            In payload (mdm :: rest) -> obj_get "BlacklistedURLs" payload = None)
      /\ (forall d, In d denied -> includes d "altriirecovery.com" = false)
      /\ (forall d,
            In d [ "altriirecovery.com"; "www.altriirecovery.com";
                   "app.altriirecovery.com"; "api.altriirecovery.com" ] ->
            ~ In d denied)
      /\ (forall d,
            In d (or_empty (custom_blocked_domains settings)) ->
            includes d "altriirecovery.com" = false -> In d denied).
Proof.
  intros config deviceId profileUUID settings securityLevel isWebOnly w profile
    w' Hbuild.
  destruct (buildSupervisionProfile_returns _ _ _ _ _ _ _ _ _ Hbuild)
    as (mdm & contentFilter & rest & denied & w0 & w1 & Hdenied & Hcontent
        & _ & _ & Hdeny & Hpermit & Hmdm & Hrest & _).
  destruct (compileBlockedDomains_returns _ _ _ _ Hdenied) as (cat & Hcat).
  destruct (denied_domain_facts settings denied cat Hcat) as (H1 & H2 & H3).
  exists mdm, contentFilter, rest, denied.
  repeat (split; [assumption|]).
  split; [|auto].
  intros payload [<-|Hin]; [exact Hmdm | exact (Hrest _ Hin)].
Qed.

Lemma deny_list_excludes_operator_domains_witness :
  exists mdm contentFilter rest denied,
    PayloadContent sample_profile = mdm :: contentFilter :: rest
    /\ obj_get "BlacklistedURLs" contentFilter = Some (JStrs denied)
    /\ obj_get "PermittedURLs" contentFilter = Some (JStrs getBaselinePermittedURLs)
    /\ (forall payload,
          In payload (mdm :: rest) -> obj_get "BlacklistedURLs" payload = None)
    /\ (forall d, In d denied -> includes d "altriirecovery.com" = false)
    /\ (forall d,
          In d [ "altriirecovery.com"; "www.altriirecovery.com";
                 "app.altriirecovery.com"; "api.altriirecovery.com" ] ->
          ~ In d denied)
    /\ (forall d,
          In d (or_empty (custom_blocked_domains sample_settings)) ->
          includes d "altriirecovery.com" = false -> In d denied).
Proof.
  apply (deny_list_excludes_operator_domains sample_config "device-a" 0%nat
           sample_settings 3 true sample_server sample_profile
           (after (buildSupervisionProfile sample_config "device-a" 0%nat
                     sample_settings 3 true) sample_server)).
  vm_compute. reflexivity.
Defined.

(** C1, as stated, fails: with [911.gov] on the custom-blocked list, the
    deny-list of the built profile contains [911.gov], a crisis-service
    domain of the always-allow set, while the operator's own domain on the
    same custom list is removed. *)
Lemma emergency_domain_on_deny_list :
  custom_blocked_domains sample_settings
    = Some [ "911.gov"; "app.altriirecovery.com"; "casino.example" ]
  /\ In "911.gov" getBaselinePermittedURLs
  /\ fst (buildSupervisionProfile sample_config "device-a" 0%nat sample_settings
            3 true sample_server) = Ok sample_profile
  /\ exists mdm contentFilter rest,
       PayloadContent sample_profile = mdm :: contentFilter :: rest
       /\ obj_get "BlacklistedURLs" contentFilter
          = Some (JStrs [ "casino.example"; "911.gov" ]).
Proof.
  split; [reflexivity|]. split; [simpl; tauto|].
  split; [vm_compute; reflexivity|].
  vm_compute. do 3 eexists. split; reflexivity.
Qed.

(** C6. A profile built with [securityLevel = 1] consists of the MDM payload
    and the content-filter payload only: none of its payloads is a
    restrictions payload ([com.apple.applicationaccess]) or a
    security-policy payload ([com.apple.security]).  A profile built with
    [securityLevel = 3] carries both, after the first two, and its
    restrictions payload sets [allowAppInstallation] to [false].  At both
    levels the builder returns a profile whenever the store answers. *)
Theorem security_level_gates_payloads :
  forall config deviceId profileUUID settings isWebOnly w,
    (forall profile w',
        buildSupervisionProfile config deviceId profileUUID settings 1
          isWebOnly w = (Ok profile, w') ->
        length (PayloadContent profile) = 2%nat
        /\ forall payload,
             In payload (PayloadContent profile) ->
             payload_type payload <> Some (JStr "com.apple.applicationaccess")
             /\ payload_type payload <> Some (JStr "com.apple.security"))
    /\ (forall profile w',
          buildSupervisionProfile config deviceId profileUUID settings 3
            isWebOnly w = (Ok profile, w') ->
          exists mdm contentFilter restrictions security,
            PayloadContent profile = [mdm; contentFilter; restrictions; security]
            /\ payload_type restrictions = Some (JStr "com.apple.applicationaccess")
            /\ payload_type security = Some (JStr "com.apple.security")
            /\ obj_get "allowAppInstallation" restrictions = Some (JBool false))
    /\ (faults w = [] ->
        forall securityLevel, exists profile w',
          buildSupervisionProfile config deviceId profileUUID settings
            securityLevel isWebOnly w = (Ok profile, w')).
Proof.
  intros config deviceId profileUUID settings isWebOnly w.
  split; [|split].
  - intros profile w' Hbuild.
    destruct (buildSupervisionProfile_returns _ _ _ _ _ _ _ _ _ Hbuild)
      as (mdm & contentFilter & rest & denied & w0 & w1 & _ & Hcontent
          & Hmdm & Hfilter & _ & _ & _ & _ & Hlow & _).
    rewrite Hcontent, (Hlow ltac:(lia)).
    split; [reflexivity|].
    intros payload [<-|[<-|[]]].
    + rewrite Hmdm. split; discriminate.
    + rewrite Hfilter. split; discriminate.
  - intros profile w' Hbuild.
    destruct (buildSupervisionProfile_returns _ _ _ _ _ _ _ _ _ Hbuild)
      as (mdm & contentFilter & rest & denied & w0 & w1 & _ & Hcontent
          & _ & _ & _ & _ & _ & _ & _ & Hhigh).
    destruct (Hhigh ltac:(lia))
      as (restrictions & security & -> & Hr & Hs & _ & Hthree).
    exists mdm, contentFilter, restrictions, security.
    repeat split; try assumption. apply Hthree. lia.
  - intros Hf securityLevel. apply buildSupervisionProfile_total. exact Hf.
Qed.

Lemma security_level_gates_payloads_witness :
  (length (PayloadContent sample_profile_level1) = 2%nat
   /\ forall payload,
        In payload (PayloadContent sample_profile_level1) ->
        payload_type payload <> Some (JStr "com.apple.applicationaccess")
        /\ payload_type payload <> Some (JStr "com.apple.security"))
  /\ (exists mdm contentFilter restrictions security,
        PayloadContent sample_profile = [mdm; contentFilter; restrictions; security]
        /\ payload_type restrictions = Some (JStr "com.apple.applicationaccess")
        /\ payload_type security = Some (JStr "com.apple.security")
        /\ obj_get "allowAppInstallation" restrictions = Some (JBool false))
  /\ exists profile w',
       buildSupervisionProfile sample_config "device-a" 0%nat sample_settings 3
         true sample_server = (Ok profile, w').
Proof.
  destruct (security_level_gates_payloads sample_config "device-a" 0%nat
              sample_settings true sample_server) as (Hone & Hthree & Htotal).
  split; [|split].
  - apply (Hone sample_profile_level1
             (after (buildSupervisionProfile sample_config "device-a" 0%nat
                       sample_settings 1 true) sample_server)).
    vm_compute. reflexivity.
  - apply (Hthree sample_profile
             (after (buildSupervisionProfile sample_config "device-a" 0%nat
                       sample_settings 3 true) sample_server)).
    vm_compute. reflexivity.
  - apply Htotal. vm_compute. reflexivity.
Defined.

(** * Check-in *)

Lemma handleCheckIn_CheckOut config deviceId data now :
  MessageType data = "CheckOut" ->
  handleCheckIn config deviceId (Some data) now = handleCheckOut deviceId data.
Proof. intros H. unfold handleCheckIn. rewrite H. reflexivity. Qed.

Lemma handleCheckOut_absent deviceId data w :
  deviceSessions w !! deviceId = None ->
  handleCheckOut deviceId data w = (Ok (RStatus 200), w).
Proof.
  intros H. unfold handleCheckOut, bind, get_world. rewrite H. reflexivity.
Qed.

Lemma handleCheckOut_run deviceId data session w :
  deviceSessions w !! deviceId = Some session ->
  handleCheckOut deviceId data w
  = (Ok (match fst (checkOutStatements (s_deviceId session) data
                      (with_deviceSessions (delete deviceId (deviceSessions w)) w))
         with
         | Ok r => r
         | Throw => RStatus 500
         end),
     after (checkOutStatements (s_deviceId session) data)
       (with_deviceSessions (delete deviceId (deviceSessions w)) w)).
Proof.
  intros H. unfold after, handleCheckOut, bind at 1, get_world. rewrite H.
  unfold try_catch, bind at 1, modify.
  fold (checkOutStatements (s_deviceId session) data).
  destruct (checkOutStatements _ _ _) as [[r|] w1]; reflexivity.
Qed.

Lemma handleCheckOut_present deviceId data session w :
  deviceSessions w !! deviceId = Some session ->
  after (handleCheckOut deviceId data) w
  = after (checkOutStatements (s_deviceId session) data)
      (with_deviceSessions (delete deviceId (deviceSessions w)) w)
  /\ fst (handleCheckOut deviceId data w)
     = Ok (match fst (checkOutStatements (s_deviceId session) data
                        (with_deviceSessions (delete deviceId (deviceSessions w)) w))
           with
           | Ok r => r
           | Throw => RStatus 500
           end).
Proof.
  intros H. unfold after at 1.
  rewrite (handleCheckOut_run deviceId data session w H). split; reflexivity.
Qed.

Lemma checkOutStatements_memory id data : framed same_memory (checkOutStatements id data).
Proof.
  unfold checkOutStatements, logDeviceEvent.
  repeat frame_step; apply framed_db_exec; try exact _;
    intros; apply same_memory_with_db.
Qed.

Lemma select_session_delete id d : select_session id (delete_session id d) = [].
Proof.
  unfold select_session, delete_session. simpl.
  induction (mdm_device_sessions d) as [|r l IH]; [reflexivity|].
  rewrite (filter_cons (fun r => ms_device_id r ≠ id)).
  destruct (decide (ms_device_id r ≠ id)) as [Hne|Heq]; [|exact IH].
  rewrite filter_cons. destruct (decide (ms_device_id r = id)); [contradiction | exact IH].
Qed.

Lemma checkOutStatements_answers id data w :
  faults w = [] ->
  fst (checkOutStatements id data w) = Ok (RStatus 200)
  /\ select_session id (db (after (checkOutStatements id data) w)) = [].
Proof.
  intros Hf.
  unfold after, checkOutStatements, logDeviceEvent, try_catch, bind, db_exec,
    query_fails, ret.
  rewrite Hf. simpl. rewrite Hf. simpl. rewrite Hf. simpl.
  split; [reflexivity|]. apply select_session_delete.
Qed.

(** C8, as the code has it.  A [CheckOut] check-in for a device that has
    no session in [deviceSessions] answers 200 and changes nothing, the
    store included.  After any [CheckOut] check-in the device has no session
    in [deviceSessions], so a second one in a row answers 200, still leaves
    none and does not touch the store.  The session rows of the store are
    removed only by a [CheckOut] that finds a session in [deviceSessions]
    and a store that answers; when the store fails on the first statement,
    the answer is 500, the session is gone from [deviceSessions], and the
    store is after both check-ins as it was before them. *)
Theorem checkout_is_idempotent :
  forall config deviceId data data' now now' w,
    MessageType data = "CheckOut" ->
    MessageType data' = "CheckOut" ->
    let w1 := after (handleCheckIn config deviceId (Some data) now) w in
    let w2 := after (handleCheckIn config deviceId (Some data') now') w1 in
    (deviceSessions w !! deviceId = None ->
     handleCheckIn config deviceId (Some data) now w = (Ok (RStatus 200), w))
    /\ deviceSessions w1 !! deviceId = None
    /\ handleCheckIn config deviceId (Some data') now' w1 = (Ok (RStatus 200), w1)
    /\ deviceSessions w2 !! deviceId = None
    /\ db w2 = db w1
    /\ (faults w = [] ->
        fst (handleCheckIn config deviceId (Some data) now w) = Ok (RStatus 200)
        /\ forall session,
             deviceSessions w !! deviceId = Some session ->
             select_session (s_deviceId session) (db w1) = [])
    /\ (query_fails w = true ->
        forall session,
          deviceSessions w !! deviceId = Some session ->
          fst (handleCheckIn config deviceId (Some data) now w) = Ok (RStatus 500)
          /\ db w2 = db w).
Proof.
  intros config deviceId data data' now now' w Hdata Hdata' w1 w2.
  subst w2 w1.
  rewrite (handleCheckIn_CheckOut config deviceId data now Hdata).
  rewrite (handleCheckIn_CheckOut config deviceId data' now' Hdata').
  assert (Hgone : deviceSessions (after (handleCheckOut deviceId data) w)
                    !! deviceId = None).
  { destruct (deviceSessions w !! deviceId) as [session|] eqn:Hs.
    - destruct (handleCheckOut_present deviceId data session w Hs) as [-> _].
      destruct (checkOutStatements_memory (s_deviceId session) data
                  (with_deviceSessions (delete deviceId (deviceSessions w)) w))
        as (Hsess & _).
      unfold after. rewrite Hsess. simpl. apply lookup_delete_eq.
    - unfold after. rewrite (handleCheckOut_absent deviceId data w Hs). exact Hs. }
  assert (Hsecond : after (handleCheckOut deviceId data')
                      (after (handleCheckOut deviceId data) w)
                    = after (handleCheckOut deviceId data) w).
  { unfold after at 1.
    rewrite (handleCheckOut_absent deviceId data' _ Hgone). reflexivity. }
  split; [apply handleCheckOut_absent|].
  split; [exact Hgone|].
  split; [apply handleCheckOut_absent; exact Hgone|].
  rewrite Hsecond.
  split; [exact Hgone|]. split; [reflexivity|]. split.
  - intros Hf.
    destruct (deviceSessions w !! deviceId) as [session|] eqn:Hs.
    + destruct (handleCheckOut_present deviceId data session w Hs) as [Hw Hr].
      destruct (checkOutStatements_answers (s_deviceId session) data
                  (with_deviceSessions (delete deviceId (deviceSessions w)) w) Hf)
        as [Hok Hrows].
      split; [rewrite Hr, Hok; reflexivity|].
      intros session' Heq. inversion Heq; subst session'. rewrite Hw. exact Hrows.
    + split; [rewrite (handleCheckOut_absent deviceId data w Hs); reflexivity|].
      intros session' Heq. discriminate.
  - intros Hfail session Hs.
    unfold after.
    rewrite (handleCheckOut_run deviceId data session w Hs). unfold after. simpl.
    unfold checkOutStatements, bind, db_exec.
    change (query_fails
              (with_deviceSessions (delete deviceId (deviceSessions w)) w))
      with (query_fails w).
    rewrite Hfail. split; reflexivity.
Qed.

Lemma checkout_is_idempotent_witness :
  let w := server_with_session in
  let w1 := after (handleCheckIn sample_config "device-a"
                     (Some (check_in_message "CheckOut")) 10) w in
  let w2 := after (handleCheckIn sample_config "device-a"
                     (Some (check_in_message "CheckOut")) 11) w1 in
  (deviceSessions w !! "device-a" = None ->
   handleCheckIn sample_config "device-a" (Some (check_in_message "CheckOut")) 10 w
   = (Ok (RStatus 200), w))
  /\ deviceSessions w1 !! "device-a" = None
  /\ handleCheckIn sample_config "device-a" (Some (check_in_message "CheckOut")) 11 w1
     = (Ok (RStatus 200), w1)
  /\ deviceSessions w2 !! "device-a" = None
  /\ db w2 = db w1
  /\ (faults w = [] ->
      fst (handleCheckIn sample_config "device-a"
             (Some (check_in_message "CheckOut")) 10 w) = Ok (RStatus 200)
      /\ forall session,
           deviceSessions w !! "device-a" = Some session ->
           select_session (s_deviceId session) (db w1) = [])
  /\ (query_fails w = true ->
      forall session,
        deviceSessions w !! "device-a" = Some session ->
        fst (handleCheckIn sample_config "device-a"
               (Some (check_in_message "CheckOut")) 10 w) = Ok (RStatus 500)
        /\ db w2 = db w).
Proof.
  apply (checkout_is_idempotent sample_config "device-a"
           (check_in_message "CheckOut") (check_in_message "CheckOut") 10 11
           server_with_session); reflexivity.
Defined.

(** C8, as stated, fails for the session rows of the store.  After a
    restart [device-a] has a session row and no session in
    [deviceSessions]: two [CheckOut] check-ins in a row answer 200 and the
    row is still there.  The same holds when the store fails on the first
    of the two: the answers are 500 and 200, and the row is still there. *)
Lemma checkout_twice_keeps_the_durable_session :
  let check_out now w :=
    handleCheckIn sample_config "device-a" (Some (check_in_message "CheckOut"))
      now w in
  let restarted := shutdown server_with_session in
  let failing := with_faults [ true ] server_with_session in
  length (select_session 7 (db restarted)) = 1%nat
  /\ fst (check_out 10 restarted) = Ok (RStatus 200)
  /\ fst (check_out 11 (snd (check_out 10 restarted))) = Ok (RStatus 200)
  /\ length (select_session 7
               (db (snd (check_out 11 (snd (check_out 10 restarted))))))
     = 1%nat
  /\ fst (check_out 10 failing) = Ok (RStatus 500)
  /\ fst (check_out 11 (snd (check_out 10 failing))) = Ok (RStatus 200)
  /\ length (select_session 7
               (db (snd (check_out 11 (snd (check_out 10 failing))))))
     = 1%nat.
Proof. vm_compute. repeat split; reflexivity. Qed.

Example server_with_session_has_session :
  s_deviceId <$> (deviceSessions server_with_session !! "device-a") = Some 7
  /\ length (select_session 7 (db server_with_session)) = 1%nat.
Proof. vm_compute. split; reflexivity. Qed.

(** * Command exchange *)

Lemma bind_ok {A B} (m : M A) (k : A -> M B) w a :
  fst (m w) = Ok a -> bind m k w = k a (snd (m w)).
Proof. unfold bind. destruct (m w) as [[a'|] w1]; simpl; congruence. Qed.

Lemma db_exec_answers q w :
  faults w = [] -> db_exec q w = (Ok tt, with_db (q (db w)) (next_query w)).
Proof. intros Hf. unfold db_exec, query_fails. rewrite Hf. reflexivity. Qed.

Lemma db_select_answers {A} (q : Db -> A) w :
  faults w = [] -> db_select q w = (Ok (q (db w)), next_query w).
Proof. intros Hf. unfold db_select, query_fails. rewrite Hf. reflexivity. Qed.

(** A store statement, seen from the frame [same_commands]. *)
Ltac frame_exec_commands :=
  apply framed_db_exec; [exact _ |];
  intros ?; split; [apply same_memory_with_db | reflexivity].

Lemma insertAppInventory_commands id blocked now apps :
  framed same_commands (insertAppInventory id blocked now apps).
Proof.
  induction apps as [|app rest IH]; simpl.
  - frame_step.
  - frame_step; [frame_exec_commands | exact IH].
Qed.

Lemma processProfileList_commands id profiles now :
  framed same_commands (processProfileList id profiles now).
Proof.
  unfold processProfileList. repeat frame_step; frame_exec_commands.
Qed.

Lemma processSecurityInfo_commands id info :
  framed same_commands (processSecurityInfo id info).
Proof.
  unfold processSecurityInfo.
  repeat frame_step; first [frame_exec_commands | apply logDeviceEvent_commands].
Qed.

Lemma processAppList_commands id apps now :
  framed same_commands (processAppList id apps now).
Proof.
  unfold processAppList.
  repeat frame_step;
    first [frame_exec_commands | apply logDeviceEvent_commands
          | apply insertAppInventory_commands].
Qed.

Lemma processRestrictions_commands id restrictions now :
  framed same_commands (processRestrictions id restrictions now).
Proof.
  unfold processRestrictions.
  repeat frame_step; first [frame_exec_commands | apply logDeviceEvent_commands].
Qed.

Lemma reconcile_commands id response now :
  framed same_commands (reconcile id response now).
Proof.
  unfold reconcile.
  repeat frame_step;
    first [apply processProfileList_commands | apply processSecurityInfo_commands
          | apply processAppList_commands | apply processRestrictions_commands].
Qed.

Lemma reconcile_ok id response now w : fst (reconcile id response now w) = Ok tt.
Proof.
  unfold reconcile.
  repeat match goal with
         | |- context [if ?b then _ else _] => destruct b
         | |- context [match ?x with Some _ => _ | None => _ end] => destruct x
         end;
    first [reflexivity | apply try_catch_ret_ok].
Qed.

Lemma processCommandResponse_no_session deviceId response now w :
  deviceSessions w !! deviceId = None ->
  processCommandResponse deviceId response now w = (Ok tt, w).
Proof.
  intros H. unfold processCommandResponse, bind, get_world. rewrite H. reflexivity.
Qed.

Lemma processCommandResponse_with_session deviceId response now session w :
  deviceSessions w !! deviceId = Some session ->
  faults w = [] ->
  exists w3,
    same_commands
      (with_db (update_command_status (terminal_status response) response
                  (r_CommandUUID response) now (db w)) (next_query w)) w3
    /\ processCommandResponse deviceId response now w
       = (Ok tt,
          with_pendingCommands
            (<[deviceId := without_command (r_CommandUUID response)
                             (default [] (pendingCommands w3 !! deviceId))]>
               (pendingCommands w3)) w3).
Proof.
  intros Hs Hf.
  unfold processCommandResponse, bind at 1, get_world. rewrite Hs.
  fold (terminal_status response).
  fold (reconcile (s_deviceId session) response now).
  unfold try_catch.
  rewrite (bind_ok _ _ w tt) by (rewrite db_exec_answers by exact Hf; reflexivity).
  rewrite (db_exec_answers _ w Hf). simpl snd.
  set (w1 := with_db _ (next_query w)).
  rewrite (bind_ok _ _ w1 tt) by apply logDeviceEvent_ok.
  set (w2 := snd (logDeviceEvent _ _ _ w1)).
  rewrite (bind_ok _ _ w2 tt) by apply reconcile_ok.
  set (w3 := snd (reconcile _ _ _ w2)).
  exists w3. split; [|reflexivity].
  eapply frame_trans; [apply logDeviceEvent_commands | apply reconcile_commands].
Qed.

Lemma handleCommand_run deviceId response now w :
  fst (processCommandResponse deviceId response now w) = Ok tt ->
  handleCommand deviceId (Some response) now w
  = (Ok (match fst (getNextCommand deviceId
                      (after (processCommandResponse deviceId response now) w))
         with
         | Ok (Some command) => RPlist command
         | Ok None => RStatus 200
         | Throw => RStatus 500
         end),
     after (getNextCommand deviceId)
       (after (processCommandResponse deviceId response now) w)).
Proof.
  intros Hok. unfold handleCommand, try_catch, after.
  unfold bind at 1. unfold require, ret at 1.
  rewrite (bind_ok _ _ w tt Hok).
  unfold bind.
  destruct (getNextCommand deviceId _) as [[[c|]|] w2]; reflexivity.
Qed.

Lemma getNextCommand_head deviceId command rest w :
  pendingCommands w !! deviceId = Some (command :: rest) ->
  getNextCommand deviceId w = (Ok (Some command), w).
Proof.
  intros H. unfold getNextCommand, getPendingCommands, bind, get_world.
  rewrite H. reflexivity.
Qed.

Lemma getNextCommand_answers deviceId w :
  faults w = [] -> exists next, fst (getNextCommand deviceId w) = Ok next.
Proof.
  intros Hf. unfold getNextCommand, getPendingCommands, bind at 1.
  unfold bind at 1. unfold get_world.
  destruct (default [] (pendingCommands w !! deviceId)) as [|c l]; [|simpl; eauto].
  rewrite (bind_ok _ _ w (select_device deviceId (db w)))
    by (rewrite db_select_answers by exact Hf; reflexivity).
  rewrite (db_select_answers _ w Hf). simpl snd.
  destruct (select_device deviceId (db w)) as [|row rows]; [simpl; eauto|].
  rewrite db_select_answers by (apply faults_next_query; exact Hf).
  simpl. eauto.
Qed.

(** Where a command returned by [getNextCommand] comes from: the head of
    the in-memory queue of that device, or else a pending row of the store
    that belongs to the record of that device. *)
Lemma getNextCommand_source deviceId command w :
  fst (getNextCommand deviceId w) = Ok (Some command) ->
  (exists rest, pendingCommands w !! deviceId = Some (command :: rest))
  \/ (default [] (pendingCommands w !! deviceId) = []
      /\ exists row rows,
           select_device deviceId (db w) = row :: rows
           /\ In command (select_pending_commands (dp_id row) (db w))).
Proof.
  unfold getNextCommand, getPendingCommands, bind at 1.
  unfold bind at 1. unfold get_world.
  destruct (pendingCommands w !! deviceId) as [[|c l]|] eqn:Hq; simpl.
  - unfold bind, db_select. destruct (query_fails w); [discriminate|].
    destruct (select_device deviceId (db w)) as [|row rows] eqn:Hdev;
      [discriminate|].
    destruct (query_fails (next_query w)); [discriminate|]. simpl.
    destruct (select_pending_commands (dp_id row) (db w)) as [|c l] eqn:Hp;
      [discriminate|].
    intros [= ->]. right. split; [reflexivity|].
    exists row, rows. split; [reflexivity|]. rewrite Hp. left. reflexivity.
  - intros [= ->]. left. eauto.
  - unfold bind, db_select. destruct (query_fails w); [discriminate|].
    destruct (select_device deviceId (db w)) as [|row rows] eqn:Hdev;
      [discriminate|].
    destruct (query_fails (next_query w)); [discriminate|]. simpl.
    destruct (select_pending_commands (dp_id row) (db w)) as [|c l] eqn:Hp;
      [discriminate|].
    intros [= ->]. right. split; [reflexivity|].
    exists row, rows. split; [reflexivity|]. rewrite Hp. left. reflexivity.
Qed.

(** C10. A command response from a device that has no entry in
    [deviceSessions] is dropped before any store statement: the handler
    leaves the store (so every command record and the event log), the
    pending queues and the sessions as they were, and still answers with
    what [getNextCommand] returns for the device, which is the head of its
    in-memory queue when that queue is not empty. *)
Theorem response_without_session_is_dropped :
  forall deviceId response now w,
    deviceSessions w !! deviceId = None ->
    let w1 := after (handleCommand deviceId (Some response) now) w in
    db w1 = db w
    /\ pendingCommands w1 = pendingCommands w
    /\ deviceSessions w1 = deviceSessions w
    /\ fst (handleCommand deviceId (Some response) now w)
       = Ok (match fst (getNextCommand deviceId w) with
             | Ok (Some command) => RPlist command
             | Ok None => RStatus 200
             | Throw => RStatus 500
             end)
    /\ forall command rest,
         pendingCommands w !! deviceId = Some (command :: rest) ->
         fst (handleCommand deviceId (Some response) now w) = Ok (RPlist command).
Proof.
  intros deviceId response now w Hs w1.
  pose proof (processCommandResponse_no_session deviceId response now w Hs) as Hdrop.
  assert (Hrun := handleCommand_run deviceId response now w).
  unfold after in Hrun. rewrite Hdrop in Hrun. simpl in Hrun.
  specialize (Hrun eq_refl).
  subst w1. unfold after. rewrite Hrun. simpl.
  destruct (getNextCommand_store deviceId w) as ((Hsess & Hpend & _) & Hdb).
  split; [exact Hdb|]. split; [exact Hpend|]. split; [exact Hsess|].
  split; [reflexivity|].
  intros command rest Hq.
  rewrite (getNextCommand_head deviceId command rest w Hq). reflexivity.
Qed.

Lemma response_without_session_is_dropped_witness :
  let w := server_with_orphan_command in
  let w1 := after (handleCommand "device-a" (Some (acknowledgement 0%nat)) 20) w in
  db w1 = db w
  /\ pendingCommands w1 = pendingCommands w
  /\ deviceSessions w1 = deviceSessions w
  /\ fst (handleCommand "device-a" (Some (acknowledgement 0%nat)) 20 w)
     = Ok (match fst (getNextCommand "device-a" w) with
           | Ok (Some command) => RPlist command
           | Ok None => RStatus 200
           | Throw => RStatus 500
           end)
  /\ forall command rest,
       pendingCommands w !! "device-a" = Some (command :: rest) ->
       fst (handleCommand "device-a" (Some (acknowledgement 0%nat)) 20 w)
       = Ok (RPlist command).
Proof.
  apply (response_without_session_is_dropped "device-a" (acknowledgement 0%nat) 20
           server_with_orphan_command).
  vm_compute. reflexivity.
Defined.

(** The acknowledged command stays pending in the store and is handed out
    again. *)
Example orphan_command_stays_pending :
  let w1 := after (handleCommand "device-a" (Some (acknowledgement 0%nat)) 20)
              server_with_orphan_command in
  map (fun r => (mc_command_uuid r, mc_status r)) (mdm_commands (db w1))
    = [ (0%nat, "pending") ]
  /\ mdm_device_events (db w1) = []
  /\ fst (handleCommand "device-a" (Some (acknowledgement 0%nat)) 20
            server_with_orphan_command)
     = Ok (RPlist {| CommandUUID := 0%nat;
                     Command_ := [ ("RequestType", JStr "ProfileList") ] |}).
Proof. vm_compute. repeat split; reflexivity. Qed.

(** The command endpoint for a device with a session and a store that
    answers. *)
Lemma handleCommand_with_session :
  forall deviceId response now session w,
    deviceSessions w !! deviceId = Some session ->
    faults w = [] ->
    let w1 := after (handleCommand deviceId (Some response) now) w in
    let remaining :=
      without_command (r_CommandUUID response)
        (default [] (pendingCommands w !! deviceId)) in
    pendingCommands w1 = <[deviceId := remaining]> (pendingCommands w)
    /\ mdm_commands (db w1)
       = mdm_commands
           (update_command_status (terminal_status response) response
              (r_CommandUUID response) now (db w))
    /\ (exists next,
          fst (handleCommand deviceId (Some response) now w)
          = Ok (match next with
                | Some command => RPlist command
                | None => RStatus 200
                end))
    /\ forall command rest,
         remaining = command :: rest ->
         fst (handleCommand deviceId (Some response) now w) = Ok (RPlist command).
Proof.
  intros deviceId response now session w Hs Hf w1 remaining.
  destruct (processCommandResponse_with_session deviceId response now session w
              Hs Hf) as (w3 & Hframe & Hrun).
  destruct Hframe as ((_ & Hpend & _ & _ & _ & Hquiet) & Hrows).
  simpl in Hpend, Hrows, Hquiet.
  assert (Hf3 : faults w3 = []) by (apply Hquiet; rewrite Hf; reflexivity).
  assert (Hok : fst (processCommandResponse deviceId response now w) = Ok tt)
    by (rewrite Hrun; reflexivity).
  pose proof (handleCommand_run deviceId response now w Hok) as Hhandle.
  unfold after in Hhandle. rewrite Hrun in Hhandle. simpl fst in Hhandle.
  simpl snd in Hhandle. rewrite Hpend in Hhandle. fold remaining in Hhandle.
  set (w4 := with_pendingCommands (<[deviceId := remaining]> (pendingCommands w)) w3)
    in Hhandle.
  destruct (getNextCommand_store deviceId w4) as ((_ & Hpend4 & _) & Hdb4).
  subst w1. unfold after. rewrite Hhandle. simpl.
  split; [rewrite Hpend4; reflexivity|].
  split; [rewrite Hdb4; exact Hrows|].
  split.
  - destruct (getNextCommand_answers deviceId w4 Hf3) as [next Hnext].
    exists next. rewrite Hnext. destruct next; reflexivity.
  - intros command rest Hremaining.
    rewrite (getNextCommand_head deviceId command rest w4); [reflexivity|].
    simpl. rewrite lookup_insert_eq, Hremaining. reflexivity.
Qed.

(** C3, as the code has it.  The command endpoint has no [UnknownCommand]
    failure and does not compare the id of a response with the head of the
    queue.  For a device with a session and a store that answers, whatever
    id the response carries: every command record with that id is marked
    [completed] (status [Acknowledged]) or [failed] (any other status), the
    commands with that id are removed from the device's pending queue
    wherever they stand while the others keep their order, and the handler
    answers with the head of what remains in memory, or else with what the
    store lists as pending, or with an empty 200; it never answers with an
    error.  In particular, when the id of the response is not the id of the
    head of the queue, the handler answers with that head, which stays at
    the head of the queue. *)
Theorem response_is_processed_whatever_its_id :
  forall deviceId response now session w,
    deviceSessions w !! deviceId = Some session ->
    faults w = [] ->
    let w1 := after (handleCommand deviceId (Some response) now) w in
    let remaining :=
      without_command (r_CommandUUID response)
        (default [] (pendingCommands w !! deviceId)) in
    pendingCommands w1 = <[deviceId := remaining]> (pendingCommands w)
    /\ mdm_commands (db w1)
       = mdm_commands
           (update_command_status (terminal_status response) response
              (r_CommandUUID response) now (db w))
    /\ (exists next,
          fst (handleCommand deviceId (Some response) now w)
          = Ok (match next with
                | Some command => RPlist command
                | None => RStatus 200
                end))
    /\ forall head rest,
         pendingCommands w !! deviceId = Some (head :: rest) ->
         r_CommandUUID response <> Some (CommandUUID head) ->
         fst (handleCommand deviceId (Some response) now w) = Ok (RPlist head)
         /\ remaining = head :: without_command (r_CommandUUID response) rest.
Proof.
  intros deviceId response now session w Hs Hf w1 remaining.
  destruct (handleCommand_with_session deviceId response now session w Hs Hf)
    as (Hpend & Hrows & Hnext & Hhead).
  split; [exact Hpend|]. split; [exact Hrows|]. split; [exact Hnext|].
  intros head rest Hq Hne.
  assert (Hrem : remaining = head :: without_command (r_CommandUUID response) rest).
  { unfold remaining, without_command. rewrite Hq. simpl.
    rewrite filter_cons. destruct (decide _) as [_|Heq]; [reflexivity|].
    exfalso. apply Heq. congruence. }
  split; [|exact Hrem].
  apply (Hhead head (without_command (r_CommandUUID response) rest)).
  exact Hrem.
Qed.

Lemma response_is_processed_whatever_its_id_witness :
  let w := server_with_two_commands in
  let w1 := after (handleCommand "device-a" (Some (acknowledgement 1%nat)) 20) w in
  let remaining :=
    without_command (Some 1%nat) (default [] (pendingCommands w !! "device-a")) in
  pendingCommands w1 = <["device-a" := remaining]> (pendingCommands w)
  /\ mdm_commands (db w1)
     = mdm_commands
         (update_command_status (terminal_status (acknowledgement 1%nat))
            (acknowledgement 1%nat) (Some 1%nat) 20 (db w))
  /\ (exists next,
        fst (handleCommand "device-a" (Some (acknowledgement 1%nat)) 20 w)
        = Ok (match next with
              | Some command => RPlist command
              | None => RStatus 200
              end))
  /\ forall head rest,
       pendingCommands w !! "device-a" = Some (head :: rest) ->
       r_CommandUUID (acknowledgement 1%nat) <> Some (CommandUUID head) ->
       fst (handleCommand "device-a" (Some (acknowledgement 1%nat)) 20 w)
       = Ok (RPlist head)
       /\ remaining = head :: without_command (Some 1%nat) rest.
Proof.
  apply (response_is_processed_whatever_its_id "device-a" (acknowledgement 1%nat) 20
           {| s_deviceId := 7; s_udid := Some "00008030-001C";
              s_serialNumber := Some "F2LXK0"; s_model := Some "iPhone12,1";
              s_osVersion := Some "17.4"; s_buildVersion := Some "21E219";
              s_lastCheckIn := 5; s_supervised := true;
              s_pushToken := Some "push-token-1"; s_pushMagic := Some "magic-1";
              s_unlockToken := None |}
           server_with_two_commands).
  - vm_compute. reflexivity.
  - vm_compute. reflexivity.
Defined.

(** C3, as stated, fails: the device's queue holds the commands 0 and 1,
    in that order, and a response arrives for command 1, which is not the
    head.  The handler does not fail: it answers with command 0, removes
    command 1 from the queue and marks its record completed. *)
Lemma response_for_a_later_command_is_accepted :
  let w := server_with_two_commands in
  let w1 := after (handleCommand "device-a" (Some (acknowledgement 1%nat)) 20) w in
  map CommandUUID <$> (pendingCommands w !! "device-a") = Some [ 0%nat; 1%nat ]
  /\ map (fun r => (mc_command_uuid r, mc_status r)) (mdm_commands (db w))
     = [ (0%nat, "pending"); (1%nat, "pending") ]
  /\ fst (handleCommand "device-a" (Some (acknowledgement 1%nat)) 20 w)
     = Ok (RPlist {| CommandUUID := 0%nat;
                     Command_ := [ ("RequestType", JStr "ProfileList") ] |})
  /\ map CommandUUID <$> (pendingCommands w1 !! "device-a") = Some [ 0%nat ]
  /\ map (fun r => (mc_command_uuid r, mc_status r)) (mdm_commands (db w1))
     = [ (0%nat, "pending"); (1%nat, "completed") ].
Proof. vm_compute. repeat split; reflexivity. Qed.

(** * Wake dispatch *)

Lemma framed_weaken (R R' : World -> World -> Prop) {A} (m : M A) :
  (forall w w', R w w' -> R' w w') -> framed R m -> framed R' m.
Proof. intros HR Hm w. apply HR, Hm. Qed.

Lemma same_commands_pushes w w' : same_commands w w' -> same_pushes w w'.
Proof. intros ((_ & _ & _ & _ & H & _) & _). exact H. Qed.

Lemma same_store_pushes w w' : same_store w w' -> same_pushes w w'.
Proof. intros ((_ & _ & _ & _ & H & _) & _). exact H. Qed.

(** A store statement or a change of the maps, seen from the push log. *)
Ltac frame_pushes_leaf :=
  first [ apply framed_db_exec; try exact _; intros ?; reflexivity
        | apply framed_modify; try exact _; intros ?; reflexivity
        | apply logDeviceEvent_pushes
        | apply (framed_weaken same_store same_pushes);
            [exact same_store_pushes | apply getNextCommand_store]
        | apply (framed_weaken same_commands same_pushes);
            [exact same_commands_pushes | apply reconcile_commands] ].

Lemma handleAuthenticate_pushes deviceId data now :
  framed same_pushes (handleAuthenticate deviceId data now).
Proof. unfold handleAuthenticate. repeat (frame_step || frame_pushes_leaf). Qed.

Lemma handleCheckOut_pushes deviceId data :
  framed same_pushes (handleCheckOut deviceId data).
Proof. unfold handleCheckOut. repeat (frame_step || frame_pushes_leaf). Qed.

Lemma processCommandResponse_pushes deviceId response now :
  framed same_pushes (processCommandResponse deviceId response now).
Proof.
  unfold processCommandResponse.
  frame_step; [frame_step|]. frame_step; [|frame_step].
  fold (reconcile (s_deviceId s) response now).
  repeat (frame_step || frame_pushes_leaf).
Qed.

Lemma handleCommand_pushes deviceId body now :
  framed same_pushes (handleCommand deviceId body now).
Proof.
  unfold handleCommand.
  repeat (frame_step || frame_pushes_leaf || apply processCommandResponse_pushes).
Qed.

Lemma handleEnrollment_pushes deviceId userId now :
  framed same_pushes (handleEnrollment deviceId userId now).
Proof. unfold handleEnrollment. repeat (frame_step || frame_pushes_leaf). Qed.

Lemma getEnrollmentProfile_pushes code now :
  framed same_pushes (getEnrollmentProfile code now).
Proof. unfold getEnrollmentProfile. repeat (frame_step || frame_pushes_leaf). Qed.

Lemma buildSupervisionProfile_pushes
    config deviceId profileUUID settings securityLevel isWebOnly :
  framed same_pushes
    (buildSupervisionProfile config deviceId profileUUID settings securityLevel
       isWebOnly).
Proof.
  unfold buildSupervisionProfile, buildMDMPayload, buildContentFilterPayload,
    compileBlockedDomains, buildRestrictionsPayload, buildSecurityPayload.
  repeat (frame_step || frame_pushes_leaf).
Qed.

Lemma generateSupervisionProfile_pushes
    config plist_build pkcs7_sign deviceId userId settings securityLevel
    isWebOnly enrollmentCode now storedAt answeredAt :
  framed same_pushes
    (generateSupervisionProfile config plist_build pkcs7_sign deviceId userId
       settings securityLevel isWebOnly enrollmentCode now storedAt answeredAt).
Proof.
  unfold generateSupervisionProfile.
  repeat (frame_step || frame_pushes_leaf || apply buildSupervisionProfile_pushes).
Qed.

Lemma getDeviceStatus_pushes deviceId : framed same_pushes (getDeviceStatus deviceId).
Proof. unfold getDeviceStatus. repeat (frame_step || frame_pushes_leaf). Qed.

Lemma health_pushes : framed same_pushes health.
Proof. unfold health. repeat (frame_step || frame_pushes_leaf). Qed.

#[local] Instance wakes_only_frame config deviceId : Frame (wakes_only config deviceId).
Proof.
  split; unfold wakes_only.
  - intros w. repeat split. exists []. split; [symmetry; apply app_nil_r | constructor].
  - intros w1 w2 w3 (Hs1 & Ha1 & e1 & Hp1 & Hf1) (Hs2 & Ha2 & e2 & Hp2 & Hf2).
    split; [congruence|]. split; [congruence|].
    exists (e1 ++ e2). split.
    + rewrite Hp2, Hp1, app_assoc. reflexivity.
    + apply Forall_app. split; [exact Hf1|]. rewrite <- Hs1. exact Hf2.
  - intros w. repeat split. exists []. split; [symmetry; apply app_nil_r | constructor].
  - intros w n. repeat split. exists []. split; [symmetry; apply app_nil_r | constructor].
Qed.

Lemma wakes_only_quiet config deviceId w w' :
  deviceSessions w' = deviceSessions w ->
  apnProvider w' = apnProvider w ->
  pushes w' = pushes w ->
  wakes_only config deviceId w w'.
Proof.
  intros Hs Ha Hp. split; [exact Hs|]. split; [exact Ha|].
  exists []. split; [rewrite Hp; symmetry; apply app_nil_r | constructor].
Qed.

Lemma wakeDevice_wakes config deviceId :
  framed (wakes_only config deviceId) (wakeDevice config deviceId).
Proof.
  intros w. unfold wakeDevice, bind at 1, get_world.
  destruct (deviceSessions w !! deviceId) as [session|] eqn:Hs;
    [|apply frame_refl].
  destruct (s_pushToken session) as [token|] eqn:Ht; [|apply frame_refl].
  simpl. destruct (String.eqb token ""); [apply frame_refl|]. simpl.
  unfold sendPushNotification, bind, get_world, modify, ret.
  destruct (apnProvider w); [|apply frame_refl].
  simpl. split; [reflexivity|]. split; [reflexivity|].
  eexists. split; [reflexivity|].
  constructor; [|constructor].
  exists session. split; [exact Hs|]. split; [rewrite Ht; eauto|].
  unfold wake_push. rewrite Ht. reflexivity.
Qed.

(** A store statement or a change of the queues, seen from [wakes_only]. *)
Ltac frame_wakes_leaf :=
  first [ apply framed_db_exec; try exact _; intros ?;
            apply wakes_only_quiet; reflexivity
        | apply framed_modify; try exact _; intros ?;
            apply wakes_only_quiet; reflexivity
        | apply wakeDevice_wakes ].

Lemma insertCommands_wakes config deviceId id commands :
  framed (wakes_only config deviceId) (insertCommands id commands).
Proof.
  induction commands as [|command rest IH]; simpl.
  - frame_step.
  - frame_step; [frame_wakes_leaf | exact IH].
Qed.

Lemma sendCommand_wakes config deviceId commandType parameters :
  framed (wakes_only config deviceId)
    (sendCommand config deviceId commandType parameters).
Proof.
  unfold sendCommand, buildCommand. repeat (frame_step || frame_wakes_leaf).
Qed.

Lemma verifyDevice_wakes config deviceId :
  framed (wakes_only config deviceId) (verifyDevice config deviceId).
Proof.
  unfold verifyDevice, buildCommand.
  repeat (frame_step || frame_wakes_leaf || apply insertCommands_wakes).
Qed.

#[local] Instance pushes_only_frame p : Frame (pushes_only p).
Proof.
  split; unfold pushes_only.
  - intros w. split; [reflexivity|].
    exists []. split; [symmetry; apply app_nil_r | constructor].
  - intros w1 w2 w3 (Hs1 & e1 & Hp1 & Hf1) (Hs2 & e2 & Hp2 & Hf2).
    split; [congruence|].
    exists (e1 ++ e2). split.
    + rewrite Hp2, Hp1, app_assoc. reflexivity.
    + apply Forall_app. split; assumption.
  - intros w. split; [reflexivity|].
    exists []. split; [symmetry; apply app_nil_r | constructor].
  - intros w n. split; [reflexivity|].
    exists []. split; [symmetry; apply app_nil_r | constructor].
Qed.

Lemma pushes_only_quiet p w w' :
  deviceSessions w' = deviceSessions w -> pushes w' = pushes w ->
  pushes_only p w w'.
Proof.
  intros Hs Hp. split; [exact Hs|].
  exists []. split; [rewrite Hp; symmetry; apply app_nil_r | constructor].
Qed.

Lemma sendPushNotification_pushes_only config deviceId pushToken pushMagic :
  framed
    (pushes_only {| push_deviceId := deviceId; push_topic := topic config;
                    push_mdm := pushMagic; push_token := pushToken |})
    (sendPushNotification config deviceId pushToken pushMagic).
Proof.
  intros w. unfold sendPushNotification, bind, get_world, modify, ret.
  destruct (apnProvider w); [|apply frame_refl].
  simpl. split; [reflexivity|].
  eexists. split; [reflexivity|]. constructor; [reflexivity | constructor].
Qed.

Lemma getPendingCommands_pushes_only p deviceId :
  framed (pushes_only p) (getPendingCommands deviceId).
Proof.
  apply (framed_weaken same_store (pushes_only p));
    [|apply getPendingCommands_store].
  intros w w' ((Hs & _ & _ & _ & Hp & _) & _). apply pushes_only_quiet; assumption.
Qed.

Lemma handleTokenUpdate_after config deviceId data now w :
  after (handleTokenUpdate config deviceId data now) w
  = match deviceSessions w !! deviceId with
    | Some session =>
        after (tokenUpdateStatements config deviceId
                 (updated_session session data) data now)
          (with_deviceSessions
             (<[deviceId := updated_session session data]> (deviceSessions w)) w)
    | None => w
    end.
Proof.
  unfold after, handleTokenUpdate, bind at 1, get_world.
  destruct (deviceSessions w !! deviceId) as [session|]; [|reflexivity].
  fold (updated_session session data).
  unfold try_catch, bind at 1, modify.
  fold (tokenUpdateStatements config deviceId (updated_session session data) data now).
  destruct (tokenUpdateStatements _ _ _ _ _ _) as [[r|] w1]; reflexivity.
Qed.

Lemma tokenUpdateStatements_pushes_only config deviceId session data now :
  framed (pushes_only (wake_push config deviceId session))
    (tokenUpdateStatements config deviceId session data now).
Proof.
  unfold tokenUpdateStatements, wake_push.
  repeat (frame_step
          || apply sendPushNotification_pushes_only
          || apply getPendingCommands_pushes_only
          || (apply framed_db_exec; try exact _; intros ?;
              apply pushes_only_quiet; reflexivity)).
Qed.

Lemma handleTokenUpdate_wakes config deviceId data now w :
  let w' := after (handleTokenUpdate config deviceId data now) w in
  (forall session,
      deviceSessions w !! deviceId = Some session ->
      deviceSessions w' = <[deviceId := updated_session session data]> (deviceSessions w))
  /\ exists extra,
       pushes w' = pushes w ++ extra
       /\ Forall (sent_from_session config deviceId (deviceSessions w')) extra.
Proof.
  intros w'. subst w'. rewrite handleTokenUpdate_after.
  destruct (deviceSessions w !! deviceId) as [session|] eqn:Hs.
  2:{ split; [intros ? [=]|].
      exists []. split; [symmetry; apply app_nil_r | constructor]. }
  set (session' := updated_session session data).
  set (w2 := with_deviceSessions (<[deviceId := session']> (deviceSessions w)) w).
  destruct (Token data) as [token|] eqn:Htoken.
  - destruct (tokenUpdateStatements_pushes_only config deviceId session' data now w2)
      as (Hsess & extra & Hp & Hall).
    fold (after (tokenUpdateStatements config deviceId session' data now) w2)
      in Hsess, Hp.
    split.
    + intros s [= <-]. rewrite Hsess. reflexivity.
    + exists extra. split; [exact Hp|].
      eapply Forall_impl; [exact Hall|].
      intros p <-. exists session'. rewrite Hsess. simpl.
      split; [apply lookup_insert_eq|]. split; [|reflexivity].
      unfold session', updated_session. simpl. rewrite Htoken. eauto.
  - unfold after, tokenUpdateStatements, bind, require, throw. rewrite Htoken.
    simpl. split.
    + intros s [= <-]. reflexivity.
    + exists []. split; [symmetry; apply app_nil_r | constructor].
Qed.

Lemma pushes_added_quiet config r w w' :
  pushes w' = pushes w -> pushes_added config r w w'.
Proof.
  intros Hp. exists []. split; [rewrite Hp; symmetry; apply app_nil_r|].
  destruct (wake_target r); [constructor | reflexivity].
Qed.

Lemma pushes_added_wakes config r deviceId w w' :
  wake_target r = Some deviceId ->
  wakes_only config deviceId w w' -> pushes_added config r w w'.
Proof.
  intros Hr (Hs & _ & extra & Hp & Hall). exists extra. split; [exact Hp|].
  rewrite Hr, Hs. exact Hall.
Qed.

Lemma handleCheckIn_pushes_added config deviceId body now w :
  pushes_added config (PutCheckIn deviceId body) w
    (after (handleCheckIn config deviceId body now) w).
Proof.
  destruct body as [data|]; [|apply pushes_added_quiet; reflexivity].
  unfold handleCheckIn.
  destruct (String.eqb_spec (MessageType data) "Authenticate") as [Ha|_].
  { apply pushes_added_quiet, handleAuthenticate_pushes. }
  destruct (String.eqb_spec (MessageType data) "TokenUpdate") as [Ht|_].
  { destruct (handleTokenUpdate_wakes config deviceId data now w)
      as (_ & extra & Hp & Hall).
    exists extra. split; [exact Hp|]. simpl. rewrite Ht. exact Hall. }
  destruct (String.eqb_spec (MessageType data) "CheckOut") as [Hc|_].
  { apply pushes_added_quiet, handleCheckOut_pushes. }
  apply pushes_added_quiet. reflexivity.
Qed.

(** C4, as the code has it.  Three handlers reach the push-delivery
    service: the [TokenUpdate] check-in, [sendCommand] and [verifyDevice].
    A request on any other route adds nothing to the push log.  Every push
    one of the three adds carries the token and the magic held by the
    session of the addressed device; for a [TokenUpdate] these are the ones
    the message has just supplied, for [sendCommand] and [verifyDevice]
    the ones a previous [TokenUpdate] stored.  This holds for every
    request, whatever its path and key; a [TokenUpdate] that the API-key
    middleware turns away leaves the session as it was. *)
Theorem pushes_come_from_three_handlers :
  forall config plist_build pkcs7_sign x_api_key path r now w,
    let w' := after (handle config plist_build pkcs7_sign x_api_key path r now) w in
    pushes_added config r w w'
    /\ forall deviceId data session,
         r = PutCheckIn deviceId (Some data) ->
         MessageType data = "TokenUpdate" ->
         deviceSessions w !! deviceId = Some session ->
         deviceSessions w' !! deviceId
         = Some (if api_key_check config x_api_key path
                 then updated_session session data else session).
Proof.
  intros config plist_build pkcs7_sign x_api_key path r now w w'. subst w'.
  unfold handle.
  destruct (api_key_check config x_api_key path) eqn:Hauth.
  2:{ split; [apply pushes_added_quiet; reflexivity|].
      intros deviceId data session _ _ Hs. exact Hs. }
  split.
  - destruct r; simpl route.
    + apply handleCheckIn_pushes_added.
    + apply pushes_added_quiet, handleCommand_pushes.
    + apply pushes_added_quiet, handleEnrollment_pushes.
    + apply pushes_added_quiet, getEnrollmentProfile_pushes.
    + apply pushes_added_quiet, generateSupervisionProfile_pushes.
    + apply pushes_added_quiet, getDeviceStatus_pushes.
    + eapply pushes_added_wakes; [reflexivity | apply sendCommand_wakes].
    + eapply pushes_added_wakes; [reflexivity | apply verifyDevice_wakes].
    + apply pushes_added_quiet, health_pushes.
  - intros deviceId data session -> Ht Hs. simpl route.
    unfold handleCheckIn. rewrite Ht. simpl.
    destruct (handleTokenUpdate_wakes config deviceId data now w) as (Hsess & _).
    rewrite (Hsess session Hs). apply lookup_insert_eq.
Qed.

(** C4, as stated, fails: [sendCommand] for a device whose session holds a
    push token calls the push-delivery service, outside of any
    [TokenUpdate] handling, with the token stored in the session. *)
Lemma sendCommand_sends_a_push :
  pushes server_with_token = []
  /\ pushes (after (handle sample_config sample_plist sample_sign
                      (Some "development-key") "/mdm/devices/device-a/command"
                      (PostDeviceCommand "device-a" "DeviceLock" []) 30)
               server_with_token)
     = [ {| push_deviceId := "device-a"; push_topic := "com.altriirecovery.mdm";
            push_mdm := Some "magic-1"; push_token := Some "push-token-1" |} ]
  /\ pushes (after (handle sample_config sample_plist sample_sign
                      (Some "development-key") "/mdm/devices/device-a/verify"
                      (PostDeviceVerify "device-a") 30)
               server_with_token)
     = [ {| push_deviceId := "device-a"; push_topic := "com.altriirecovery.mdm";
            push_mdm := Some "magic-1"; push_token := Some "push-token-1" |} ].
Proof. vm_compute. repeat split; reflexivity. Qed.

Lemma pushes_come_from_three_handlers_witness :
  let r := PutCheckIn "device-a" (Some (check_in_message "TokenUpdate")) in
  let w := server_with_session_and_command in
  let w' := after (handle sample_config sample_plist sample_sign None
                     "/mdm/checkin/device-a" r 6) w in
  pushes_added sample_config r w w'
  /\ deviceSessions w' !! "device-a"
     = Some (updated_session
               {| s_deviceId := 7; s_udid := Some "00008030-001C";
                  s_serialNumber := Some "F2LXK0"; s_model := Some "iPhone12,1";
                  s_osVersion := Some "17.4"; s_buildVersion := Some "21E219";
                  s_lastCheckIn := 5; s_supervised := true;
                  s_pushToken := None; s_pushMagic := None;
                  s_unlockToken := None |}
               (check_in_message "TokenUpdate")).
Proof.
  intros r w w'.
  destruct (pushes_come_from_three_handlers sample_config sample_plist
              sample_sign None "/mdm/checkin/device-a" r 6 w)
    as [Hadded Hsession].
  split; [exact Hadded|].
  apply (Hsession "device-a" (check_in_message "TokenUpdate")).
  - reflexivity.
  - reflexivity.
  - vm_compute. reflexivity.
Defined.

(** The wake of a [TokenUpdate] with one pending command: one push, with
    the token and magic of the message. *)
Example token_update_wakes_once :
  pushes server_with_session_and_command = []
  /\ pushes (after (handle sample_config sample_plist sample_sign None
                      "/mdm/checkin/device-a"
                      (PutCheckIn "device-a"
                         (Some (check_in_message "TokenUpdate"))) 6)
               server_with_session_and_command)
     = [ {| push_deviceId := "device-a"; push_topic := "com.altriirecovery.mdm";
            push_mdm := Some "magic-1"; push_token := Some "push-token-1" |} ].
Proof. vm_compute. split; reflexivity. Qed.

(** * Command order *)

#[local] Instance same_queues_frame : Frame same_queues.
Proof. split; unfold same_queues; intros; simpl; congruence. Qed.

Lemma wakeDevice_queues config deviceId : framed same_queues (wakeDevice config deviceId).
Proof.
  unfold wakeDevice, sendPushNotification.
  repeat (frame_step || (apply framed_modify; try exact _; intros ?; reflexivity)).
Qed.

(** [sendCommand] either leaves the queues as they were (and answers with
    an error) or appends one command, carrying a fresh id, at the end of
    the queue of the addressed device. *)
Lemma sendCommand_appends config deviceId commandType parameters w :
  let w' := after (sendCommand config deviceId commandType parameters) w in
  pendingCommands w' = pendingCommands w
  \/ exists command,
       CommandUUID command = next_uuid w
       /\ pendingCommands w'
          = <[deviceId := default [] (pendingCommands w !! deviceId) ++ [command]]>
              (pendingCommands w).
Proof.
  intros w'. assert (Hw' : w' = after (sendCommand config deviceId commandType
                                         parameters) w) by reflexivity.
  clearbody w'. unfold after, sendCommand, try_catch in Hw'.
  unfold bind at 1 in Hw'. unfold buildCommand at 1, bind at 1, uuidv4, ret at 1 in Hw'.
  set (command := {| CommandUUID := next_uuid w; Command_ := _ |}) in Hw'.
  unfold bind at 1, db_select in Hw'.
  destruct (query_fails _); [left; subst w'; reflexivity|].
  simpl select_device in Hw'. destruct (select_device deviceId _) as [|row rows];
    [left; subst w'; reflexivity|].
  unfold bind at 1, db_exec in Hw'.
  destruct (query_fails _); [left; subst w'; reflexivity|].
  unfold bind at 1, modify in Hw'.
  set (w3 := with_pendingCommands _ _) in Hw'.
  unfold bind in Hw'. pose proof (wakeDevice_queues config deviceId w3) as Hq.
  unfold same_queues in Hq.
  destruct (wakeDevice config deviceId w3) as [[[]|] w4]; simpl in Hw', Hq;
    subst w'; right; exists command; (split; [reflexivity|]); rewrite Hq;
    reflexivity.
Qed.

#[local] Instance sessions_kept_frame : Frame sessions_kept.
Proof.
  split; unfold sessions_kept.
  - intros w. split; auto.
  - intros w1 w2 w3 [? ?] [? ?]. split; [congruence | auto].
  - intros w. split; [reflexivity | apply faults_next_query].
  - intros w n. split; auto.
Qed.

Lemma same_commands_sessions w w' : same_commands w w' -> sessions_kept w w'.
Proof. intros ((H & _ & _ & _ & _ & Hf) & _). split; assumption. Qed.

Lemma same_store_sessions w w' : same_store w w' -> sessions_kept w w'.
Proof. intros ((H & _ & _ & _ & _ & Hf) & _). split; assumption. Qed.

(** A store statement or a change of the queues, seen from [sessions_kept]. *)
Ltac frame_sessions_leaf :=
  first [ apply framed_db_exec; try exact _; intros ?; split; auto
        | apply framed_modify; try exact _; intros ?; split; auto
        | apply (framed_weaken same_store sessions_kept);
            [exact same_store_sessions | apply getNextCommand_store]
        | apply (framed_weaken same_commands sessions_kept);
            [exact same_commands_sessions
            | first [apply reconcile_commands | apply logDeviceEvent_commands]] ].
Lemma without_command_NoDup commandUUID queue :
  NoDup (map CommandUUID queue) ->
  NoDup (map CommandUUID (without_command commandUUID queue)).
Proof.
  unfold without_command. induction queue as [|c l IH]; simpl; [constructor|].
  intros Hnd. apply NoDup_cons in Hnd. destruct Hnd as [Hc Hl].
  rewrite filter_cons. destruct (decide _); [|auto].
  simpl. apply NoDup_cons. split; [|auto].
  intros Hin. apply Hc.
  apply list_elem_of_fmap in Hin. destruct Hin as (c' & Heq & Hin).
  apply list_elem_of_filter in Hin. destruct Hin as [_ Hin].
  apply list_elem_of_fmap. eauto.
Qed.

Lemma without_command_head c rest :
  NoDup (map CommandUUID (c :: rest)) ->
  without_command (Some (CommandUUID c)) (c :: rest) = rest.
Proof.
  unfold without_command. simpl. intros Hnd.
  apply NoDup_cons in Hnd. destruct Hnd as [Hc _].
  rewrite filter_cons. destruct (decide _) as [Hne|_]; [congruence|].
  induction rest as [|c' l IH]; [reflexivity|].
  rewrite filter_cons. destruct (decide _) as [_|Heq].
  - f_equal. apply IH. intros Hin. apply Hc. simpl.
    apply list_elem_of_further. exact Hin.
  - exfalso. apply Hc. simpl.
    destruct (decide (CommandUUID c' = CommandUUID c)) as [->|Hne];
      [apply list_elem_of_here|].
    exfalso. apply Heq. congruence.
Qed.

Lemma processCommandResponse_sessions deviceId response now :
  framed sessions_kept (processCommandResponse deviceId response now).
Proof.
  unfold processCommandResponse.
  frame_step; [frame_step|]. frame_step; [|frame_step].
  fold (reconcile (s_deviceId s) response now).
  repeat (frame_step || frame_sessions_leaf).
Qed.

Lemma handleCommand_sessions deviceId body now :
  framed sessions_kept (handleCommand deviceId body now).
Proof.
  unfold handleCommand.
  repeat (frame_step || frame_sessions_leaf
          || apply processCommandResponse_sessions).
Qed.

(** Within one life of the server, polling and acknowledging what was
    received hands out the in-memory queue of a device from its head to
    its end: the order in which [sendCommand] and [verifyDevice] appended
    the commands. *)
Lemma queue_is_delivered_in_order deviceId now session :
  forall remaining queue response w,
    deviceSessions w !! deviceId = Some session ->
    faults w = [] ->
    pendingCommands w !! deviceId = Some queue ->
    NoDup (map CommandUUID queue) ->
    without_command (r_CommandUUID response) queue = remaining ->
    deliveries deviceId now (length remaining) response w = remaining.
Proof.
  induction remaining as [|c rest IH]; intros queue response w Hs Hf Hq Hnd Hrem;
    [reflexivity|].
  destruct (handleCommand_with_session deviceId response now session w Hs Hf)
    as (Hpend & _ & _ & Hhead).
  rewrite Hq in Hpend, Hhead. simpl in Hpend, Hhead. rewrite Hrem in Hpend, Hhead.
  specialize (Hhead c rest eq_refl).
  destruct (handleCommand_sessions deviceId (Some response) now w) as [Hsess Hquiet].
  simpl. unfold after in *.
  destruct (handleCommand deviceId (Some response) now w) as [r w1].
  simpl in *. rewrite Hhead. f_equal.
  assert (Hnd' : NoDup (map CommandUUID (c :: rest))).
  { rewrite <- Hrem. apply without_command_NoDup. exact Hnd. }
  apply (IH (c :: rest)).
  - rewrite Hsess. exact Hs.
  - apply Hquiet. exact Hf.
  - rewrite Hpend. apply lookup_insert_eq.
  - exact Hnd'.
  - apply without_command_head. exact Hnd'.
Qed.

(** Within one life of the server the in-memory queue is first in, first
    out: with commands 0 and 1 queued in that order, a poll returns
    command 0, and the acknowledgement of command 0 returns command 1. *)
Example queue_is_fifo_in_memory :
  fst (handleCommand "device-a" (Some idle) 20 server_with_two_commands)
    = Ok (RPlist (command 0%nat "ProfileList"))
  /\ fst (handleCommand "device-a" (Some (acknowledgement 0%nat)) 21
            (after (handleCommand "device-a" (Some idle) 20)
               server_with_two_commands))
     = Ok (RPlist (command 1%nat "SecurityInfo")).
Proof. vm_compute. split; reflexivity. Qed.

(** C5 at the failing input.  The store lists the pending commands of
    [device-a] in the order they were queued, 0, 1, 2, but the in-memory
    queue of the restarted server holds command 2 only, and
    [getPendingCommands] looks at the store only when that queue is empty:
    the device receives command 2 first, then 0, then 1. *)
Theorem backlog_is_delivered_after_newer_command :
  let w := server_restarted_with_backlog in
  let w1 := after (handleCommand "device-a" (Some idle) 40) w in
  let w2 := after (handleCommand "device-a" (Some (acknowledgement 2%nat)) 41) w1 in
  map CommandUUID (select_pending_commands 7 (db w)) = [ 0%nat; 1%nat; 2%nat ]
  /\ map CommandUUID <$> (pendingCommands w !! "device-a") = Some [ 2%nat ]
  /\ fst (getNextCommand "device-a" w) = Ok (Some (command 2%nat "Restrictions"))
  /\ fst (handleCommand "device-a" (Some idle) 40 w)
     = Ok (RPlist (command 2%nat "Restrictions"))
  /\ fst (handleCommand "device-a" (Some (acknowledgement 2%nat)) 41 w1)
     = Ok (RPlist (command 0%nat "ProfileList"))
  /\ fst (handleCommand "device-a" (Some (acknowledgement 0%nat)) 42 w2)
     = Ok (RPlist (command 1%nat "SecurityInfo")).
Proof. vm_compute. repeat split; reflexivity. Qed.

(** * Further properties *)

(** ** Strings and objects *)

Lemma prefix_append sub b : String.prefix sub (sub +:+ b) = true.
Proof.
  induction sub as [|c sub IH].
  - destruct b; reflexivity.
  - change (String c sub +:+ b) with (String c (sub +:+ b)). simpl.
    destruct (Ascii.ascii_dec c c); [exact IH | contradiction].
Qed.

Lemma prefix_split sub s :
  String.prefix sub s = true -> exists b, s = sub +:+ b.
Proof.
  revert s. induction sub as [|c sub IH]; intros s.
  - intros _. exists s. reflexivity.
  - destruct s as [|c' s]; simpl; [discriminate|].
    destruct (Ascii.ascii_dec c c') as [<-|_]; [|discriminate].
    intros H. destruct (IH s H) as [b ->]. exists b. reflexivity.
Qed.

Lemma includes_unfold s sub :
  includes s sub
  = if String.prefix sub s then true
    else match s with
         | EmptyString => false
         | String _ s' => includes s' sub
         end.
Proof. destruct s; reflexivity. Qed.

(** [includes] is the substring test of [String.prototype.includes]. *)
Lemma includes_true_iff s sub :
  includes s sub = true <-> exists a b, s = a +:+ sub +:+ b.
Proof.
  split.
  - induction s as [|c s IH]; rewrite includes_unfold;
      destruct (String.prefix sub _) eqn:Hp.
    + intros _. destruct (prefix_split _ _ Hp) as [b Hb]. exists "", b. exact Hb.
    + discriminate.
    + intros _. destruct (prefix_split _ _ Hp) as [b Hb]. exists "", b. exact Hb.
    + intros H. destruct (IH H) as (a & b & ->). exists (String c a), b. reflexivity.
  - intros (a & b & ->). induction a as [|c a IH]; rewrite includes_unfold.
    + change ("" +:+ sub +:+ b) with (sub +:+ b).
      rewrite prefix_append. reflexivity.
    + change (String c a +:+ sub +:+ b) with (String c (a +:+ sub +:+ b)).
      destruct (String.prefix sub (String c (a +:+ sub +:+ b)));
        [reflexivity | exact IH].
Qed.

Lemma obj_get_obj_set k k' v o :
  obj_get k (obj_set k' v o) = if String.eqb k k' then Some v else obj_get k o.
Proof.
  induction o as [|[k0 v0] o IH]; simpl.
  - destruct (String.eqb k k'); reflexivity.
  - destruct (String.eqb_spec k' k0) as [<-|Hne]; simpl.
    + destruct (String.eqb k k'); reflexivity.
    + rewrite IH. destruct (String.eqb_spec k k0) as [->|_]; [|reflexivity].
      destruct (String.eqb_spec k0 k') as [->|_]; [contradiction | reflexivity].
Qed.

(** [Object.assign]: the last source entry of a key wins, and the keys the
    source does not name keep their value. *)
Lemma obj_get_obj_assign k o src :
  obj_get k (obj_assign o src)
  = match obj_get k (rev src) with
    | Some v => Some v
    | None => obj_get k o
    end.
Proof.
  unfold obj_assign. revert o. induction src as [|[k' v'] src IH]; intros o; simpl.
  - reflexivity.
  - rewrite IH, obj_get_obj_set.
    assert (Hrev : forall l : Obj,
               obj_get k (l ++ [(k', v')])
               = match obj_get k l with
                 | Some v => Some v
                 | None => if String.eqb k k' then Some v' else None
                 end).
    { induction l as [|[k0 v0] l IHl]; simpl; [reflexivity|].
      destruct (String.eqb k k0); [reflexivity | exact IHl]. }
    rewrite Hrev. destruct (obj_get k (rev src)); [reflexivity|].
    destruct (String.eqb k k'); reflexivity.
Qed.

(** Assigning never repeats a key. *)
Lemma obj_set_keys k v o :
  NoDup (map fst o) -> NoDup (map fst (obj_set k v o)).
Proof.
  induction o as [|[k0 v0] o IH]; simpl; intros Hnd.
  - apply NoDup_singleton.
  - destruct (String.eqb_spec k k0) as [->|Hne]; simpl; [exact Hnd|].
    apply NoDup_cons in Hnd. destruct Hnd as [Hk0 Hnd].
    apply NoDup_cons. split; [|exact (IH Hnd)].
    intros Hin. apply Hk0. clear IH Hnd Hk0.
    induction o as [|[k1 v1] o IHo]; simpl in *.
    + apply list_elem_of_singleton in Hin. congruence.
    + destruct (String.eqb_spec k k1) as [->|Hne1]; simpl in Hin; [exact Hin|].
      apply elem_of_cons in Hin. destruct Hin as [->|Hin];
        [apply list_elem_of_here | apply list_elem_of_further, IHo, Hin].
Qed.

Lemma obj_assign_keys o src :
  NoDup (map fst o) -> NoDup (map fst (obj_assign o src)).
Proof.
  unfold obj_assign. revert o. induction src as [|[k v] src IH]; intros o Hnd;
    simpl; [exact Hnd|].
  apply IH, obj_set_keys, Hnd.
Qed.

(** ** The deny-list and the allow-list *)

Lemma set_spread_from_fresh seen l d :
  In d (set_spread_from seen l) -> ~ In d seen.
Proof.
  revert seen. induction l as [|x l IH]; intros seen; simpl; [tauto|].
  destruct (str_mem x seen) eqn:Hx; [apply IH|].
  intros [<-|Hin].
  - intros Hseen. apply str_mem_In in Hseen. congruence.
  - intros Hseen. apply (IH _ Hin). right. exact Hseen.
Qed.

Lemma set_spread_from_NoDup seen l : List.NoDup (set_spread_from seen l).
Proof.
  revert seen. induction l as [|x l IH]; intros seen; simpl; [constructor|].
  destruct (str_mem x seen); [apply IH|].
  constructor; [|apply IH].
  intros Hin. apply set_spread_from_fresh in Hin. apply Hin. left. reflexivity.
Qed.

(** X1. The deny-list never lists a domain twice, whatever the category rows
    and the custom list repeat. *)
Theorem deny_list_has_no_duplicates :
  forall settings w denied w',
    compileBlockedDomains settings w = (Ok denied, w') -> List.NoDup denied.
Proof.
  intros settings w denied w' H.
  destruct (compileBlockedDomains_returns _ _ _ _ H) as (cat & ->).
  apply List.NoDup_filter, set_spread_from_NoDup.
Qed.

(** X2. The store is asked for category domains only when a category is
    selected.  With none selected, [compileBlockedDomains] returns the custom
    list (deduplicated, without the entries containing [altriirecovery.com])
    whether or not the store answers, and consumes no query; with one
    selected and a store that fails, it throws. *)
Theorem deny_list_needs_the_store_only_for_categories :
  forall settings w,
    (no_category settings ->
     compileBlockedDomains settings w
     = (Ok (List.filter (fun domain => negb (includes domain "altriirecovery.com"))
              (set_spread (or_empty (custom_blocked_domains settings)))), w))
    /\ (~ no_category settings -> query_fails w = true ->
        fst (compileBlockedDomains settings w) = Throw).
Proof.
  intros settings w. unfold no_category. split.
  - unfold compileBlockedDomains.
    intros (-> & -> & -> & -> & -> & -> & -> & ->). reflexivity.
  - intros Hsome Hfail. unfold compileBlockedDomains, bind, db_select.
    destruct (block_adult_content settings), (block_gambling settings),
      (block_social_media settings), (block_gaming settings),
      (block_news settings), (block_entertainment settings),
      (block_shopping settings), (block_dating settings);
      simpl; rewrite ?Hfail; try reflexivity.
    exfalso. apply Hsome. repeat split.
Qed.

(** X3. The filter on [altriirecovery.com] is a substring test: a domain
    that contains that text anywhere, such as a look-alike with a prefix or
    a suffix, is never on the deny-list, and a custom-blocked domain that
    does not contain it always is. *)
Theorem domain_naming_the_operator_cannot_be_denied :
  forall settings w denied w',
    compileBlockedDomains settings w = (Ok denied, w') ->
    (forall a b, ~ In (a +:+ "altriirecovery.com" +:+ b) denied)
    /\ (forall d,
          In d (or_empty (custom_blocked_domains settings)) ->
          (forall a b, d <> a +:+ "altriirecovery.com" +:+ b) ->
          In d denied).
Proof.
  intros settings w denied w' H.
  destruct (compileBlockedDomains_returns _ _ _ _ H) as (cat & Hcat).
  destruct (denied_domain_facts settings denied cat Hcat) as (Hnot & _ & Hin).
  split.
  - intros a b Hd. apply Hnot in Hd.
    assert (Ht : includes (a +:+ "altriirecovery.com" +:+ b) "altriirecovery.com" = true)
      by (apply includes_true_iff; eauto).
    congruence.
  - intros d Hd Hfree. apply Hin; [exact Hd|].
    destruct (includes d "altriirecovery.com") eqn:Hi; [|reflexivity].
    apply includes_true_iff in Hi. destruct Hi as (a & b & ->).
    exfalso. exact (Hfree a b eq_refl).
Qed.

Lemma domain_naming_the_operator_cannot_be_denied_witness :
  (forall a b, ~ In (a +:+ "altriirecovery.com" +:+ b) [ "casino.example"; "911.gov" ])
  /\ (forall d,
        In d (or_empty (custom_blocked_domains sample_settings)) ->
        (forall a b, d <> a +:+ "altriirecovery.com" +:+ b) ->
        In d [ "casino.example"; "911.gov" ]).
Proof.
  apply (domain_naming_the_operator_cannot_be_denied sample_settings
           sample_server [ "casino.example"; "911.gov" ]
           (after (compileBlockedDomains sample_settings) sample_server)).
  vm_compute. reflexivity.
Defined.

Lemma deny_list_has_no_duplicates_witness :
  List.NoDup [ "casino.example"; "911.gov" ].
Proof.
  apply (deny_list_has_no_duplicates sample_settings sample_server
           [ "casino.example"; "911.gov" ]
           (after (compileBlockedDomains sample_settings) sample_server)).
  vm_compute. reflexivity.
Defined.

Lemma deny_list_needs_the_store_only_for_categories_witness :
  (compileBlockedDomains custom_only_settings (with_faults [ true ] sample_server)
   = (Ok [ "tracker.example" ], with_faults [ true ] sample_server))
  /\ fst (compileBlockedDomains sample_settings (with_faults [ true ] sample_server))
     = Throw.
Proof.
  destruct (deny_list_needs_the_store_only_for_categories custom_only_settings
              (with_faults [ true ] sample_server)) as [Hnone _].
  destruct (deny_list_needs_the_store_only_for_categories sample_settings
              (with_faults [ true ] sample_server)) as [_ Hsome].
  split.
  - apply Hnone. repeat split.
  - apply Hsome; [|reflexivity].
    intros (_ & Hg & _). discriminate Hg.
Defined.

(** What [buildContentFilterPayload] returns when it returns. *)
Lemma buildContentFilterPayload_returns deviceId settings isWebOnly w payload w' :
  buildContentFilterPayload deviceId settings isWebOnly w = (Ok payload, w') ->
  exists denied w1,
    compileBlockedDomains settings w = (Ok denied, w1)
    /\ obj_get "BlacklistedURLs" payload = Some (JStrs denied)
    /\ obj_get "WhitelistedURLs" payload
       = Some (JStrs ([ "altriirecovery.com"; "www.altriirecovery.com";
                        "app.altriirecovery.com"; "api.altriirecovery.com" ]
                      ++ or_empty (customAllowedDomains settings)))
    /\ obj_get "PermittedURLs" payload = Some (JStrs getBaselinePermittedURLs)
    /\ obj_get "FilterGrade" payload
       = (if isWebOnly then Some (JStr "firewall") else None).
Proof.
  unfold buildContentFilterPayload. unfold bind at 1.
  destruct (compileBlockedDomains settings w) as [[denied|] w1]; [|discriminate].
  unfold bind, uuidv4, ret. intros H. inversion H; subst payload w'; clear H.
  exists denied, w1. split; [reflexivity|].
  destruct isWebOnly; repeat split; reflexivity.
Qed.

(** X4. The allow-list of the content filter starts with the operator's four
    service domains, whatever the settings, followed by the custom allowed
    domains.  Allowing a domain does not take it off the deny-list: a domain
    that is both custom-blocked and custom-allowed, and does not contain
    [altriirecovery.com], is on both lists. *)
Theorem allow_list_starts_with_operator_domains :
  forall deviceId settings isWebOnly w payload w',
    buildContentFilterPayload deviceId settings isWebOnly w = (Ok payload, w') ->
    exists denied allowed,
      obj_get "BlacklistedURLs" payload = Some (JStrs denied)
      /\ obj_get "WhitelistedURLs" payload = Some (JStrs allowed)
      /\ allowed = [ "altriirecovery.com"; "www.altriirecovery.com";
                     "app.altriirecovery.com"; "api.altriirecovery.com" ]
                   ++ or_empty (customAllowedDomains settings)
      /\ forall d,
           In d (or_empty (customAllowedDomains settings)) ->
           In d (or_empty (custom_blocked_domains settings)) ->
           includes d "altriirecovery.com" = false ->
           In d allowed /\ In d denied.
Proof.
  intros deviceId settings isWebOnly w payload w' H.
  destruct (buildContentFilterPayload_returns _ _ _ _ _ _ H)
    as (denied & w1 & Hdenied & Hb & Hw & _).
  destruct (compileBlockedDomains_returns _ _ _ _ Hdenied) as (cat & Hcat).
  destruct (denied_domain_facts settings denied cat Hcat) as (_ & _ & Hin).
  eexists denied, _. split; [exact Hb|]. split; [exact Hw|].
  split; [reflexivity|].
  intros d Ha Hd Hfree. split; [|apply Hin; assumption].
  apply in_or_app. right. exact Ha.
Qed.

Lemma allow_list_starts_with_operator_domains_witness :
  exists denied allowed,
    obj_get "BlacklistedURLs"
      (match fst (buildContentFilterPayload "device-a" custom_only_settings
                    false sample_server) with
       | Ok payload => payload
       | Throw => []
       end) = Some (JStrs denied)
    /\ obj_get "WhitelistedURLs"
         (match fst (buildContentFilterPayload "device-a" custom_only_settings
                       false sample_server) with
          | Ok payload => payload
          | Throw => []
          end) = Some (JStrs allowed)
    /\ allowed = [ "altriirecovery.com"; "www.altriirecovery.com";
                   "app.altriirecovery.com"; "api.altriirecovery.com" ]
                 ++ or_empty (customAllowedDomains custom_only_settings)
    /\ forall d,
         In d (or_empty (customAllowedDomains custom_only_settings)) ->
         In d (or_empty (custom_blocked_domains custom_only_settings)) ->
         includes d "altriirecovery.com" = false ->
         In d allowed /\ In d denied.
Proof.
  apply (allow_list_starts_with_operator_domains "device-a" custom_only_settings
           false sample_server _
           (after (buildContentFilterPayload "device-a" custom_only_settings
                     false) sample_server)).
  vm_compute. reflexivity.
Defined.

(** ** Restrictions and passcode policy *)

(** X5. The restrictions of level 3 and above are at least as strict as the
    ones of level 2: every capability level 2 switches off is switched off,
    every application level 2 blacklists is blacklisted, and at both levels
    the operator's additional blocked applications are on the blacklist and
    VPN creation is off. *)
Theorem restrictions_grow_stricter :
  forall deviceId settings securityLevel w w',
    3 <= securityLevel ->
    exists level2 level3 w2 w3,
      buildRestrictionsPayload deviceId settings 2 w = (Ok level2, w2)
      /\ buildRestrictionsPayload deviceId settings securityLevel w' = (Ok level3, w3)
      /\ (forall k,
            obj_get k level2 = Some (JBool false) ->
            obj_get k level3 = Some (JBool false))
      /\ (forall app, In app (blacklisted_apps level2) -> In app (blacklisted_apps level3))
      /\ (forall app,
            In app (or_empty (additionalBlockedApps settings)) ->
            In app (blacklisted_apps level2))
      /\ obj_get "allowVPNCreation" level2 = Some (JBool false)
      /\ obj_get "allowAppInstallation" level2 = Some (JBool true)
      /\ obj_get "allowAppInstallation" level3 = Some (JBool false)
      /\ obj_get "allowEraseContentAndSettings" level3 = Some (JBool false)
      /\ obj_get "allowPasscodeModification" level3 = Some (JBool false).
Proof.
  intros deviceId settings securityLevel w w' Hlevel.
  unfold buildRestrictionsPayload, bind, uuidv4, ret.
  change (2 =? 2) with true.
  destruct (Z.eqb_spec securityLevel 2) as [->|_]; [lia|].
  destruct (Z.leb_spec 3 securityLevel) as [_|?]; [|lia].
  do 4 eexists. split; [reflexivity|]. split; [reflexivity|].
  split; [|split; [|split; [|repeat split]]].
  - intros k. simpl.
    repeat match goal with
           | |- context [String.eqb k ?s] =>
               destruct (String.eqb_spec k s) as [->|?]
           end; try discriminate; try reflexivity.
  - unfold blacklisted_apps. simpl. unfold bypassApps, thirdPartyBrowsers.
    intros app Hin. simpl in Hin. simpl.
    repeat (destruct Hin as [Heq|Hin]; [tauto|]).
    do 15 right. exact Hin.
  - unfold blacklisted_apps. simpl. intros app Hin.
    do 8 right. exact Hin.
Qed.

Lemma restrictions_grow_stricter_witness :
  exists level2 level3 w2 w3,
    buildRestrictionsPayload "device-a" custom_only_settings 2 sample_server
    = (Ok level2, w2)
    /\ buildRestrictionsPayload "device-a" custom_only_settings 3 sample_server
       = (Ok level3, w3)
    /\ (forall k,
          obj_get k level2 = Some (JBool false) ->
          obj_get k level3 = Some (JBool false))
    /\ (forall app, In app (blacklisted_apps level2) -> In app (blacklisted_apps level3))
    /\ (forall app,
          In app (or_empty (additionalBlockedApps custom_only_settings)) ->
          In app (blacklisted_apps level2))
    /\ obj_get "allowVPNCreation" level2 = Some (JBool false)
    /\ obj_get "allowAppInstallation" level2 = Some (JBool true)
    /\ obj_get "allowAppInstallation" level3 = Some (JBool false)
    /\ obj_get "allowEraseContentAndSettings" level3 = Some (JBool false)
    /\ obj_get "allowPasscodeModification" level3 = Some (JBool false).
Proof.
  apply (restrictions_grow_stricter "device-a" custom_only_settings 3
           sample_server sample_server).
  lia.
Defined.

(** X6. The security payload holds each key once; its passcode rules appear
    from level 2 on and are tightened, not repeated, at level 3: the limit
    of failed attempts is 10 at level 2 and 5 from level 3 on, and the
    complex-passcode rules exist from level 3 on only. *)
Theorem passcode_policy_by_level :
  forall deviceId securityLevel w,
    exists payload w',
      buildSecurityPayload deviceId securityLevel w = (Ok payload, w')
      /\ NoDup (map fst payload)
      /\ obj_get "maxFailedAttempts" payload
         = (if 3 <=? securityLevel then Some (JNum 5)
            else if 2 <=? securityLevel then Some (JNum 10) else None)
      /\ obj_get "minLength" payload
         = (if 2 <=? securityLevel then Some (JNum 6) else None)
      /\ obj_get "forcePIN" payload
         = (if 2 <=? securityLevel then Some (JBool true) else None)
      /\ obj_get "requireComplexPasscode" payload
         = (if 3 <=? securityLevel then Some (JBool true) else None)
      /\ obj_get "allowPasscodeModification" payload
         = (if 3 <=? securityLevel then Some (JBool false) else None).
Proof.
  intros deviceId securityLevel w.
  unfold buildSecurityPayload, bind, uuidv4, ret.
  do 2 eexists. split; [reflexivity|]. split.
  - destruct (2 <=? securityLevel), (3 <=? securityLevel);
      repeat apply obj_assign_keys; simpl;
      apply (bool_decide_unpack _); vm_compute; reflexivity.
  - destruct (Z.leb_spec 3 securityLevel), (Z.leb_spec 2 securityLevel);
      try lia; repeat split; reflexivity.
Qed.

(** ** Check-in *)

(** X7. A [TokenUpdate] check-in for a device without a session is answered
    401 and changes nothing: neither the maps nor the store nor the schedule
    of store outcomes. *)
Theorem token_update_without_session_is_rejected :
  forall config deviceId data now w,
    MessageType data = "TokenUpdate" ->
    deviceSessions w !! deviceId = None ->
    handleCheckIn config deviceId (Some data) now w = (Ok (RStatus 401), w).
Proof.
  intros config deviceId data now w Ht Hs.
  unfold handleCheckIn. rewrite Ht. simpl.
  unfold handleTokenUpdate, bind, get_world. rewrite Hs. reflexivity.
Qed.

Lemma token_update_without_session_is_rejected_witness :
  handleCheckIn sample_config "device-a" (Some (check_in_message "TokenUpdate")) 6
    sample_server = (Ok (RStatus 401), sample_server).
Proof.
  apply (token_update_without_session_is_rejected sample_config "device-a"
           (check_in_message "TokenUpdate") 6 sample_server); reflexivity.
Defined.

(** X8. A [TokenUpdate] that carries no [Token] is answered 500, after the
    session has already been rewritten: the session loses its push token and
    takes the magic and unlock token of the message, while the store is not
    touched and nothing is pushed. *)
Theorem token_update_without_token_clears_the_session_token :
  forall config deviceId data now session w,
    MessageType data = "TokenUpdate" ->
    Token data = None ->
    deviceSessions w !! deviceId = Some session ->
    handleCheckIn config deviceId (Some data) now w
    = (Ok (RStatus 500),
       with_deviceSessions
         (<[deviceId := updated_session session data]> (deviceSessions w)) w)
    /\ s_pushToken (updated_session session data) = None.
Proof.
  intros config deviceId data now session w Ht Htoken Hs.
  unfold handleCheckIn. rewrite Ht. simpl.
  unfold handleTokenUpdate, bind at 1, get_world. rewrite Hs.
  fold (updated_session session data).
  unfold try_catch, bind, modify, require. rewrite Htoken.
  split; reflexivity.
Qed.

Lemma token_update_without_token_clears_the_session_token_witness :
  handleCheckIn sample_config "device-a" (Some token_update_without_token) 9
    server_with_token
  = (Ok (RStatus 500),
     with_deviceSessions
       (<["device-a" := updated_session session_with_token
                          token_update_without_token]>
          (deviceSessions server_with_token)) server_with_token)
  /\ s_pushToken (updated_session session_with_token token_update_without_token)
     = None.
Proof.
  apply (token_update_without_token_clears_the_session_token sample_config
           "device-a" token_update_without_token 9 session_with_token
           server_with_token).
  - reflexivity.
  - reflexivity.
  - vm_compute. reflexivity.
Defined.

(** X9. An [Authenticate] check-in for an identifier the store does not know
    creates no session: the answer is 401, or 500 when the lookup itself
    fails, and the maps and the store are as before. *)
Theorem authenticate_unknown_device_creates_no_session :
  forall config deviceId data now w,
    MessageType data = "Authenticate" ->
    select_device deviceId (db w) = [] ->
    handleCheckIn config deviceId (Some data) now w
    = (Ok (if query_fails w then RStatus 500 else RStatus 401), next_query w).
Proof.
  intros config deviceId data now w Ht Hdev.
  unfold handleCheckIn. rewrite Ht. simpl.
  unfold handleAuthenticate, try_catch, bind, db_select.
  destruct (query_fails w); [reflexivity|].
  rewrite Hdev. reflexivity.
Qed.

Lemma authenticate_unknown_device_creates_no_session_witness :
  handleCheckIn sample_config "device-z" (Some (check_in_message "Authenticate"))
    5 sample_server
  = (Ok (if query_fails sample_server then RStatus 500 else RStatus 401),
     next_query sample_server).
Proof.
  apply (authenticate_unknown_device_creates_no_session sample_config "device-z"
           (check_in_message "Authenticate") 5 sample_server); reflexivity.
Defined.

Lemma select_session_update_where id p f l :
  (forall r, ms_device_id (f r) = ms_device_id r) ->
  filter (fun r => ms_device_id r = id) (update_where p f l)
  = map (fun r => if p r then f r else r)
      (filter (fun r => ms_device_id r = id) l).
Proof.
  intros Hf. unfold update_where. induction l as [|r l IH]; [reflexivity|].
  simpl. rewrite !filter_cons.
  assert (Hid : ms_device_id (if p r then f r else r) = ms_device_id r)
    by (destruct (p r); [apply Hf | reflexivity]).
  destruct (decide (ms_device_id r = id)) as [Heq|Hne];
    destruct (decide (ms_device_id (if p r then f r else r) = id)) as [Heq'|Hne'];
    try congruence.
  simpl. rewrite IH. reflexivity.
Qed.

Lemma select_session_insert id data d :
  select_session id (insert_session id data d)
  = select_session id d
      ++ [{| ms_device_id := id; ms_udid := UDID data;
             ms_serial_number := SerialNumber data; ms_model := Model data;
             ms_os_version := OSVersion data; ms_build_version := BuildVersion data;
             ms_supervised := default false (IsSupervised data);
             ms_push_token := None; ms_push_magic := None;
             ms_unlock_token := None; ms_last_check_in := None |}].
Proof.
  unfold select_session, insert_session. simpl.
  rewrite filter_app, filter_cons. simpl.
  destruct (decide (id = id)); [reflexivity | contradiction].
Qed.

(** X10. An [Authenticate] check-in for a registered device, with a store that
    answers, is answered 200.  It sets the session of that device alone, to
    a session bound to the device record and holding no push token, whatever
    the earlier session held.  In the store the device has one session row
    if it had none and as many as before otherwise, the push tokens of
    these rows are kept, and one [authenticated] event is appended. *)
Theorem authenticate_registers_session :
  forall config deviceId data now row rows w,
    MessageType data = "Authenticate" ->
    faults w = [] ->
    select_device deviceId (db w) = row :: rows ->
    exists w',
      handleCheckIn config deviceId (Some data) now w = (Ok (RStatus 200), w')
      /\ (exists session,
            deviceSessions w' !! deviceId = Some session
            /\ s_deviceId session = dp_id row
            /\ s_pushToken session = None
            /\ s_lastCheckIn session = now)
      /\ (forall other,
            other <> deviceId ->
            deviceSessions w' !! other = deviceSessions w !! other)
      /\ pendingCommands w' = pendingCommands w
      /\ pushes w' = pushes w
      /\ length (select_session (dp_id row) (db w'))
         = Nat.max 1 (length (select_session (dp_id row) (db w)))
      /\ (select_session (dp_id row) (db w) <> [] ->
          map ms_push_token (select_session (dp_id row) (db w'))
          = map ms_push_token (select_session (dp_id row) (db w)))
      /\ mdm_device_events (db w')
         = mdm_device_events (db w)
             ++ [{| ev_device_id := RecordId (dp_id row);
                    ev_event_type := "authenticated";
                    ev_event_data :=
                      EvAuthenticated (IsSupervised data) (OSVersion data) |}].
Proof.
  intros config deviceId data now row rows w Ht Hf Hdev.
  unfold handleCheckIn. rewrite Ht. simpl.
  unfold handleAuthenticate, try_catch, logDeviceEvent, try_catch, bind,
    db_select, db_exec, modify, ret, query_fails.
  unfold next_query. rewrite Hf. simpl. rewrite Hdev. simpl.
  destruct (select_session (dp_id row) (db w)) as [|r0 rs] eqn:Hrows;
    simpl; eexists; (split; [reflexivity|]); simpl.
  - split; [eexists; split; [apply lookup_insert_eq | repeat split]|].
    split; [intros other Hne; apply lookup_insert_ne; congruence|].
    split; [reflexivity|]. split; [reflexivity|].
    pose proof (select_session_insert (dp_id row) data (db w)) as Hins.
    unfold select_session in Hins, Hrows |- *. simpl in Hins |- *.
    rewrite Hins, Hrows. simpl.
    split; [reflexivity|]. split; [congruence | reflexivity].
  - split; [eexists; split; [apply lookup_insert_eq | repeat split]|].
    split; [intros other Hne; apply lookup_insert_ne; congruence|].
    split; [reflexivity|]. split; [reflexivity|].
    unfold select_session in Hrows |- *. simpl.
    rewrite select_session_update_where by reflexivity.
    rewrite Hrows.
    match goal with
    | |- context [map ?g0 (r0 :: rs)] => set (g := g0)
    end.
    assert (Hg : forall l, map ms_push_token (map g l) = map ms_push_token l).
    { induction l as [|r l IH]; simpl; [reflexivity|].
      f_equal; [|exact IH]. unfold g.
      destruct (ms_device_id r =? dp_id row); reflexivity. }
    split; [rewrite length_map; reflexivity|].
    split; [intros _; apply Hg | reflexivity].
Qed.

Lemma authenticate_registers_session_witness :
  exists w',
    handleCheckIn sample_config "device-a"
      (Some (check_in_message "Authenticate")) 40 server_with_token
    = (Ok (RStatus 200), w')
    /\ (exists session,
          deviceSessions w' !! "device-a" = Some session
          /\ s_deviceId session = 7
          /\ s_pushToken session = None
          /\ s_lastCheckIn session = 40)
    /\ (forall other,
          other <> "device-a" ->
          deviceSessions w' !! other = deviceSessions server_with_token !! other)
    /\ pendingCommands w' = pendingCommands server_with_token
    /\ pushes w' = pushes server_with_token
    /\ length (select_session 7 (db w'))
       = Nat.max 1 (length (select_session 7 (db server_with_token)))
    /\ (select_session 7 (db server_with_token) <> [] ->
        map ms_push_token (select_session 7 (db w'))
        = map ms_push_token (select_session 7 (db server_with_token)))
    /\ mdm_device_events (db w')
       = mdm_device_events (db server_with_token)
           ++ [{| ev_device_id := RecordId 7; ev_event_type := "authenticated";
                  ev_event_data := EvAuthenticated (Some true) (Some "17.4") |}].
Proof.
  apply (authenticate_registers_session sample_config "device-a"
           (check_in_message "Authenticate") 40
           {| dp_id := 7; dp_profile_uuid := "device-a"; dp_mdm_enrolled := false;
              dp_supervision_level := 0 |}
           [] server_with_token).
  - reflexivity.
  - vm_compute. reflexivity.
  - vm_compute. reflexivity.
Defined.

(** The durable row keeps the token the in-memory session lost. *)
Example reauthentication_keeps_the_durable_token :
  s_pushToken <$> (deviceSessions server_with_token !! "device-a")
    = Some (Some "push-token-1")
  /\ s_pushToken
       <$> (deviceSessions
              (after (handleCheckIn sample_config "device-a"
                        (Some (check_in_message "Authenticate")) 40)
                 server_with_token) !! "device-a")
     = Some None
  /\ map ms_push_token
       (select_session 7
          (db (after (handleCheckIn sample_config "device-a"
                        (Some (check_in_message "Authenticate")) 40)
                 server_with_token)))
     = [ Some "push-token-1" ].
Proof. vm_compute. repeat split; reflexivity. Qed.

(** ** Waking a device *)

Lemma getPendingCommands_answers deviceId w :
  faults w = [] ->
  fst (getPendingCommands deviceId w) = Ok (pending_for deviceId w).
Proof.
  intros Hf. unfold pending_for, getPendingCommands, bind at 1, get_world.
  destruct (default [] (pendingCommands w !! deviceId)) as [|c q]; [|reflexivity].
  rewrite (bind_ok _ _ w (select_device deviceId (db w)))
    by (rewrite db_select_answers by exact Hf; reflexivity).
  rewrite (db_select_answers _ w Hf). simpl snd.
  destruct (select_device deviceId (db w)) as [|row rows]; [reflexivity|].
  rewrite db_select_answers by (apply faults_next_query; exact Hf). reflexivity.
Qed.

Lemma pending_for_ext deviceId w w' :
  pendingCommands w' = pendingCommands w ->
  device_profiles (db w') = device_profiles (db w) ->
  mdm_commands (db w') = mdm_commands (db w) ->
  pending_for deviceId w' = pending_for deviceId w.
Proof.
  intros Hq Hd Hc.
  unfold pending_for, select_device, select_pending_commands.
  rewrite Hq, Hd, Hc. reflexivity.
Qed.

(** X11. A [TokenUpdate] check-in with a token, for a device with a session
    and a store that answers, is answered 200, stores token, magic and
    unlock token in the session and in the session rows of the device, and
    wakes the device exactly when commands wait for it and a push provider
    exists: then it sends one push, with the token and magic of the
    message; otherwise none. *)
Theorem token_update_wakes_when_commands_wait :
  forall config deviceId data now session token w,
    MessageType data = "TokenUpdate" ->
    Token data = Some token ->
    deviceSessions w !! deviceId = Some session ->
    faults w = [] ->
    exists w',
      handleCheckIn config deviceId (Some data) now w = (Ok (RStatus 200), w')
      /\ pushes w'
         = pushes w
             ++ (if apnProvider w
                 then match pending_for deviceId w with
                      | _ :: _ =>
                          [{| push_deviceId := deviceId;
                              push_topic := topic config;
                              push_mdm := PushMagic data;
                              push_token := Some token |}]
                      | [] => []
                      end
                 else [])
      /\ deviceSessions w'
         = <[deviceId := updated_session session data]> (deviceSessions w)
      /\ pendingCommands w' = pendingCommands w
      /\ db w' = update_session_token (s_deviceId session) token (PushMagic data)
                   (UnlockToken data) now (db w).
Proof.
  intros config deviceId data now session token w Ht Htoken Hs Hf.
  unfold handleCheckIn. rewrite Ht. simpl.
  unfold handleTokenUpdate, bind at 1, get_world. rewrite Hs.
  fold (updated_session session data).
  unfold try_catch, bind at 1, modify, bind at 1, require. rewrite Htoken.
  unfold ret at 1.
  set (w0 := with_deviceSessions _ w).
  assert (Hf0 : faults w0 = []) by exact Hf.
  rewrite (bind_ok _ _ w0 tt) by (rewrite db_exec_answers by exact Hf0; reflexivity).
  rewrite (db_exec_answers _ w0 Hf0). simpl snd.
  set (w1 := with_db _ (next_query w0)).
  assert (Hf1 : faults w1 = []) by (unfold w1; simpl; rewrite Hf; reflexivity).
  pose proof (getPendingCommands_answers deviceId w1 Hf1) as Hpend.
  rewrite (pending_for_ext deviceId w w1) in Hpend by reflexivity.
  destruct (getPendingCommands_store deviceId w1)
    as ((Hsess & Hqueue & _ & Hapn & Hpush & _) & Hdb).
  rewrite (bind_ok _ _ w1 _ Hpend).
  set (w2 := snd (getPendingCommands deviceId w1)) in *.
  unfold sendPushNotification, bind, get_world, modify, ret.
  change (s_pushToken (updated_session session data)) with (Token data).
  change (s_pushMagic (updated_session session data)) with (PushMagic data).
  rewrite Htoken.
  assert (Hapn' : apnProvider w2 = apnProvider w) by (rewrite Hapn; reflexivity).
  rewrite <- Hapn'.
  destruct (pending_for deviceId w) as [|c q];
    [|destruct (apnProvider w2)];
    eexists; (split; [reflexivity|]); simpl;
    rewrite ?Hpush, ?Hsess, ?Hqueue, ?Hdb; simpl;
    repeat split; try reflexivity;
    try (destruct (apnProvider w2)); rewrite ?app_nil_r; reflexivity.
Qed.

Lemma token_update_wakes_when_commands_wait_witness :
  exists w',
    handleCheckIn sample_config "device-a"
      (Some (check_in_message "TokenUpdate")) 6 server_with_session_and_command
    = (Ok (RStatus 200), w')
    /\ pushes w'
       = pushes server_with_session_and_command
           ++ (if apnProvider server_with_session_and_command
               then match pending_for "device-a" server_with_session_and_command with
                    | _ :: _ =>
                        [{| push_deviceId := "device-a";
                            push_topic := topic sample_config;
                            push_mdm := PushMagic (check_in_message "TokenUpdate");
                            push_token := Some "push-token-1" |}]
                    | [] => []
                    end
               else [])
    /\ deviceSessions w'
       = <["device-a" := updated_session session_without_token
                           (check_in_message "TokenUpdate")]>
           (deviceSessions server_with_session_and_command)
    /\ pendingCommands w' = pendingCommands server_with_session_and_command
    /\ db w' = update_session_token (s_deviceId session_without_token)
                 "push-token-1" (PushMagic (check_in_message "TokenUpdate"))
                 (UnlockToken (check_in_message "TokenUpdate")) 6
                 (db server_with_session_and_command).
Proof.
  apply (token_update_wakes_when_commands_wait sample_config "device-a"
           (check_in_message "TokenUpdate") 6 session_without_token
           "push-token-1" server_with_session_and_command).
  - reflexivity.
  - reflexivity.
  - vm_compute. reflexivity.
  - vm_compute. reflexivity.
Defined.

Lemma wakeDevice_run config deviceId w :
  exists w',
    wakeDevice config deviceId w = (Ok tt, w')
    /\ pushes w' = pushes w ++ wake_of config deviceId w
    /\ deviceSessions w' = deviceSessions w
    /\ pendingCommands w' = pendingCommands w
    /\ enrollmentCodes w' = enrollmentCodes w
    /\ db w' = db w
    /\ faults w' = faults w
    /\ next_uuid w' = next_uuid w.
Proof.
  unfold wakeDevice, wake_of, bind at 1, get_world.
  destruct (deviceSessions w !! deviceId) as [session|];
    [|exists w; rewrite app_nil_r; repeat split].
  destruct (s_pushToken session) as [token|] eqn:Ht;
    [|exists w; rewrite app_nil_r; repeat split].
  simpl. destruct (String.eqb token "");
    [exists w; rewrite app_nil_r; repeat split|].
  simpl. unfold sendPushNotification, bind, get_world, modify, ret.
  destruct (apnProvider w);
    [|exists w; rewrite app_nil_r; repeat split].
  eexists. split; [reflexivity|]. simpl. unfold wake_push. rewrite Ht.
  repeat split.
Qed.

(** X12. Operator commands wake a device only through a token stored in its
    session: when the device has no session, or a session without a push
    token (as right after an [Authenticate]), neither [sendCommand] nor
    [verifyDevice] sends a push. *)
Theorem operator_commands_need_a_stored_token :
  forall config deviceId commandType parameters w,
    (forall session,
        deviceSessions w !! deviceId = Some session -> s_pushToken session = None) ->
    pushes (after (sendCommand config deviceId commandType parameters) w) = pushes w
    /\ pushes (after (verifyDevice config deviceId) w) = pushes w.
Proof.
  intros config deviceId commandType parameters w Hnone.
  assert (Hquiet : forall w', wakes_only config deviceId w w' -> pushes w' = pushes w).
  { intros w' (_ & _ & extra & Hp & Hall). rewrite Hp.
    destruct extra as [|p extra]; [apply app_nil_r|].
    apply Forall_cons in Hall. destruct Hall as [(session & Hs & Htoken & _) _].
    rewrite (Hnone session Hs) in Htoken. destruct Htoken as [? [=]]. }
  split; apply Hquiet; [apply sendCommand_wakes | apply verifyDevice_wakes].
Qed.

Lemma operator_commands_need_a_stored_token_witness :
  pushes (after (sendCommand sample_config "device-a" "DeviceLock" [])
            server_with_session) = pushes server_with_session
  /\ pushes (after (verifyDevice sample_config "device-a") server_with_session)
     = pushes server_with_session.
Proof.
  apply (operator_commands_need_a_stored_token sample_config "device-a"
           "DeviceLock" [] server_with_session).
  intros session Hs. vm_compute in Hs. inversion Hs. reflexivity.
Defined.

(** ** Operator commands *)

(** X13. [sendCommand] for an identifier the store does not know answers 404
    and queues nothing: the pending queues, the store and the push log are
    as before. *)
Theorem sendCommand_unknown_device :
  forall config deviceId commandType parameters w,
    faults w = [] ->
    select_device deviceId (db w) = [] ->
    exists w',
      sendCommand config deviceId commandType parameters w
      = (Ok (RError 404 "Device not found"), w')
      /\ pendingCommands w' = pendingCommands w
      /\ db w' = db w
      /\ pushes w' = pushes w.
Proof.
  intros config deviceId commandType parameters w Hf Hdev.
  unfold sendCommand, try_catch, bind at 1, buildCommand, bind at 1, uuidv4,
    ret at 1, bind at 1, db_select, query_fails. simpl. rewrite Hf. simpl.
  rewrite Hdev. eexists. split; [reflexivity|]. repeat split.
Qed.

Lemma sendCommand_unknown_device_witness :
  exists w',
    sendCommand sample_config "device-z" "DeviceLock" [] sample_server
    = (Ok (RError 404 "Device not found"), w')
    /\ pendingCommands w' = pendingCommands sample_server
    /\ db w' = db sample_server
    /\ pushes w' = pushes sample_server.
Proof.
  apply (sendCommand_unknown_device sample_config "device-z" "DeviceLock" []
           sample_server); reflexivity.
Defined.

(** [wake_of], case by case. *)
Lemma wake_of_cases config deviceId w session :
  deviceSessions w !! deviceId = Some session ->
  (s_pushToken session = Some "" -> wake_of config deviceId w = [])
  /\ (forall token,
        s_pushToken session = Some token -> token <> "" -> apnProvider w = true ->
        wake_of config deviceId w = [wake_push config deviceId session]).
Proof.
  intros Hs. unfold wake_of. rewrite Hs. split.
  - intros ->. reflexivity.
  - intros token -> Hne ->.
    destruct (String.eqb_spec token "") as [H|_]; [contradiction | reflexivity].
Qed.

(** X14. [sendCommand] for a registered device, with a store that answers,
    answers with the fresh id of the command and the status [pending].  The
    command is stored as one pending row of the device record, appended at
    the end of the in-memory queue of the device and of no other queue.
    The device is woken, with the token and magic of its session, when a
    provider exists and the session holds a token that is not the empty
    string; a session that holds the empty string as its token is not
    woken. *)
Theorem sendCommand_queues_one_command :
  forall config deviceId commandType parameters row rows w,
    faults w = [] ->
    select_device deviceId (db w) = row :: rows ->
    exists command w',
      sendCommand config deviceId commandType parameters w
      = (Ok (RJson [ ("commandUUID", JUuid (next_uuid w));
                     ("status", JStr "pending") ]), w')
      /\ fst (buildCommand commandType parameters w) = Ok command
      /\ CommandUUID command = next_uuid w
      /\ pendingCommands w'
         = <[deviceId := default [] (pendingCommands w !! deviceId) ++ [command]]>
             (pendingCommands w)
      /\ mdm_commands (db w')
         = mdm_commands (db w) ++ [pending_row (dp_id row) commandType command]
      /\ pushes w' = pushes w ++ wake_of config deviceId w
      /\ next_uuid w' = S (next_uuid w)
      /\ (forall session,
            deviceSessions w !! deviceId = Some session ->
            s_pushToken session = Some "" ->
            pushes w' = pushes w)
      /\ (forall session token,
            deviceSessions w !! deviceId = Some session ->
            s_pushToken session = Some token -> token <> "" ->
            apnProvider w = true ->
            pushes w' = pushes w ++ [wake_push config deviceId session]).
Proof.
  intros config deviceId commandType parameters row rows w Hf Hdev.
  unfold sendCommand, try_catch, bind at 1.
  unfold buildCommand at 1, bind at 1, uuidv4, ret at 1.
  set (command := {| CommandUUID := next_uuid w; Command_ := _ |}).
  unfold bind at 1, db_select, query_fails. simpl. rewrite Hf. simpl.
  rewrite Hdev.
  unfold bind at 1, db_exec, query_fails, next_query. simpl. rewrite Hf. simpl.
  unfold bind at 1, modify. simpl.
  set (w3 := with_pendingCommands _ _).
  destruct (wakeDevice_run config deviceId w3)
    as (w4 & Hrun & Hp & Hs & Hq & _ & Hdb & _ & Hn).
  unfold bind. rewrite Hrun. simpl.
  exists command, w4. split; [reflexivity|].
  split; [reflexivity|]. split; [reflexivity|].
  rewrite Hq, Hdb, Hp, Hn.
  assert (Hwake : wake_of config deviceId w3 = wake_of config deviceId w)
    by reflexivity.
  rewrite Hwake.
  split; [reflexivity|]. split; [reflexivity|]. split; [reflexivity|].
  split; [reflexivity|]. split.
  - intros session Hsession Hempty.
    rewrite (proj1 (wake_of_cases config deviceId w session Hsession) Hempty).
    apply app_nil_r.
  - intros session token Hsession Htoken Hne Hprovider.
    rewrite (proj2 (wake_of_cases config deviceId w session Hsession) token
               Htoken Hne Hprovider).
    reflexivity.
Qed.

Lemma sendCommand_queues_one_command_witness :
  exists command w',
    sendCommand sample_config "device-a" "DeviceLock"
      [ ("pin", JStr "1234"); ("message", JStr "Locked") ] server_with_token
    = (Ok (RJson [ ("commandUUID", JUuid (next_uuid server_with_token));
                   ("status", JStr "pending") ]), w')
    /\ fst (buildCommand "DeviceLock"
              [ ("pin", JStr "1234"); ("message", JStr "Locked") ]
              server_with_token) = Ok command
    /\ CommandUUID command = next_uuid server_with_token
    /\ pendingCommands w'
       = <["device-a" :=
             default [] (pendingCommands server_with_token !! "device-a")
             ++ [command]]> (pendingCommands server_with_token)
    /\ mdm_commands (db w')
       = mdm_commands (db server_with_token) ++ [pending_row 7 "DeviceLock" command]
    /\ pushes w' = pushes server_with_token
                   ++ wake_of sample_config "device-a" server_with_token
    /\ next_uuid w' = S (next_uuid server_with_token)
    /\ (forall session,
          deviceSessions server_with_token !! "device-a" = Some session ->
          s_pushToken session = Some "" ->
          pushes w' = pushes server_with_token)
    /\ (forall session token,
          deviceSessions server_with_token !! "device-a" = Some session ->
          s_pushToken session = Some token -> token <> "" ->
          apnProvider server_with_token = true ->
          pushes w' = pushes server_with_token
                      ++ [wake_push sample_config "device-a" session]).
Proof.
  apply (sendCommand_queues_one_command sample_config "device-a" "DeviceLock"
           [ ("pin", JStr "1234"); ("message", JStr "Locked") ]
           {| dp_id := 7; dp_profile_uuid := "device-a"; dp_mdm_enrolled := false;
              dp_supervision_level := 0 |}
           [ ] server_with_token).
  - vm_compute. reflexivity.
  - vm_compute. reflexivity.
Defined.

(** A session whose token is the empty string is not woken by an operator
    command, while a session with a token is. *)
Example empty_token_is_not_woken :
  (s_pushToken <$> (deviceSessions server_with_empty_token !! "device-a"))
  = Some (Some "")
  /\ pushes (after (sendCommand sample_config "device-a" "DeviceLock" [])
               server_with_empty_token) = []
  /\ pushes (after (verifyDevice sample_config "device-a")
               server_with_empty_token) = []
  /\ length (pushes (after (sendCommand sample_config "device-a" "DeviceLock" [])
                       server_with_token)) = 1%nat.
Proof. vm_compute. repeat split; reflexivity. Qed.

(** X15. [verifyDevice] for a registered device, with a store that answers,
    queues four commands with fresh ids, in the order [ProfileList],
    [SecurityInfo], [Restrictions], [InstalledApplicationList]: as four
    pending rows of the device record and at the end of the in-memory queue
    of the device.  It wakes the device as [sendCommand] does: with the
    token and magic of its session, when a provider exists and the session
    holds a token that is not the empty string. *)
Theorem verifyDevice_queues_four_commands :
  forall config deviceId row rows w,
    faults w = [] ->
    select_device deviceId (db w) = row :: rows ->
    exists w',
      verifyDevice config deviceId w
      = (Ok (RJson [ ("verificationInitiated", JBool true);
                     ("commandsSent", JNum 4);
                     ("expectedResponseTime", JStr "30 seconds") ]), w')
      /\ pendingCommands w'
         = <[deviceId := default [] (pendingCommands w !! deviceId)
                         ++ verification_commands (next_uuid w)]>
             (pendingCommands w)
      /\ mdm_commands (db w')
         = mdm_commands (db w)
             ++ map (fun c => pending_row (dp_id row) (request_type c) c)
                  (verification_commands (next_uuid w))
      /\ pushes w' = pushes w ++ wake_of config deviceId w
      /\ (forall session,
            deviceSessions w !! deviceId = Some session ->
            s_pushToken session = Some "" ->
            pushes w' = pushes w)
      /\ (forall session token,
            deviceSessions w !! deviceId = Some session ->
            s_pushToken session = Some token -> token <> "" ->
            apnProvider w = true ->
            pushes w' = pushes w ++ [wake_push config deviceId session]).
Proof.
  intros config deviceId row rows w Hf Hdev.
  cbv [verifyDevice try_catch buildCommand bind uuidv4 ret db_select db_exec
         query_fails next_query modify insertCommands].
  simpl. rewrite Hf. simpl. rewrite Hdev. simpl.
  match goal with
  | |- context [wakeDevice config deviceId ?W] =>
      destruct (wakeDevice_run config deviceId W)
        as (w4 & Hrun & Hp & Hs & Hq & _ & Hdb & _ & Hn);
      rewrite Hrun
  end.
  exists w4. split; [reflexivity|].
  rewrite Hq, Hdb, Hp.
  match goal with
  | |- context [wake_of config deviceId ?W] =>
      assert (Hwake : wake_of config deviceId W = wake_of config deviceId w)
        by reflexivity;
      rewrite Hwake
  end.
  split; [reflexivity|].
  split; [simpl; rewrite <- !app_assoc; reflexivity|].
  split; [reflexivity|]. split.
  - intros session Hsession Hempty.
    rewrite (proj1 (wake_of_cases config deviceId w session Hsession) Hempty).
    apply app_nil_r.
  - intros session token Hsession Htoken Hne Hprovider.
    rewrite (proj2 (wake_of_cases config deviceId w session Hsession) token
               Htoken Hne Hprovider).
    reflexivity.
Qed.

Lemma verifyDevice_queues_four_commands_witness :
  exists w',
    verifyDevice sample_config "device-a" server_with_token
    = (Ok (RJson [ ("verificationInitiated", JBool true);
                   ("commandsSent", JNum 4);
                   ("expectedResponseTime", JStr "30 seconds") ]), w')
    /\ pendingCommands w'
       = <["device-a" := default [] (pendingCommands server_with_token !! "device-a")
                         ++ verification_commands (next_uuid server_with_token)]>
           (pendingCommands server_with_token)
    /\ mdm_commands (db w')
       = mdm_commands (db server_with_token)
           ++ map (fun c => pending_row 7 (request_type c) c)
                (verification_commands (next_uuid server_with_token))
    /\ pushes w' = pushes server_with_token
                   ++ wake_of sample_config "device-a" server_with_token
    /\ (forall session,
          deviceSessions server_with_token !! "device-a" = Some session ->
          s_pushToken session = Some "" ->
          pushes w' = pushes server_with_token)
    /\ (forall session token,
          deviceSessions server_with_token !! "device-a" = Some session ->
          s_pushToken session = Some token -> token <> "" ->
          apnProvider server_with_token = true ->
          pushes w' = pushes server_with_token
                      ++ [wake_push sample_config "device-a" session]).
Proof.
  apply (verifyDevice_queues_four_commands sample_config "device-a"
           {| dp_id := 7; dp_profile_uuid := "device-a"; dp_mdm_enrolled := false;
              dp_supervision_level := 0 |}
           [ ] server_with_token).
  - vm_compute. reflexivity.
  - vm_compute. reflexivity.
Defined.

(** X16. [verifyDevice] is not atomic.  When the store fails on one of the four
    insertions, the answer is 500, nothing is queued in memory and nothing is
    pushed, but the rows inserted before the failure stay in the store as
    pending commands of the device. *)
Theorem verifyDevice_failure_keeps_stored_rows :
  forall config deviceId row rows k later w,
    (k < 4)%nat ->
    faults w = false :: replicate k false ++ true :: later ->
    select_device deviceId (db w) = row :: rows ->
    exists w',
      verifyDevice config deviceId w
      = (Ok (RError 500 "Failed to verify device"), w')
      /\ pendingCommands w' = pendingCommands w
      /\ pushes w' = pushes w
      /\ mdm_commands (db w')
         = mdm_commands (db w)
             ++ map (fun c => pending_row (dp_id row) (request_type c) c)
                  (take k (verification_commands (next_uuid w))).
Proof.
  intros config deviceId row rows k later w Hk Hf Hdev.
  cbv [verifyDevice try_catch buildCommand bind uuidv4 ret db_select db_exec
         query_fails next_query modify insertCommands].
  destruct k as [|[|[|[|k]]]]; try lia;
    simpl; rewrite Hf; simpl; rewrite Hdev; simpl;
    eexists; (split; [reflexivity|]); simpl;
    rewrite <- ?app_assoc, ?app_nil_r; repeat split.
Qed.

Lemma verifyDevice_failure_keeps_stored_rows_witness :
  exists w',
    verifyDevice sample_config "device-a"
      (with_faults [ false; false; true ] sample_server)
    = (Ok (RError 500 "Failed to verify device"), w')
    /\ pendingCommands w' = pendingCommands (with_faults [ false; false; true ] sample_server)
    /\ pushes w' = pushes (with_faults [ false; false; true ] sample_server)
    /\ mdm_commands (db w')
       = mdm_commands (db (with_faults [ false; false; true ] sample_server))
           ++ map (fun c => pending_row 7 (request_type c) c)
                (take 1 (verification_commands
                           (next_uuid (with_faults [ false; false; true ] sample_server)))).
Proof.
  apply (verifyDevice_failure_keeps_stored_rows sample_config "device-a"
           {| dp_id := 7; dp_profile_uuid := "device-a"; dp_mdm_enrolled := false;
              dp_supervision_level := 0 |}
           [ ] 1%nat [ ]
           (with_faults [ false; false; true ] sample_server)).
  - lia.
  - reflexivity.
  - vm_compute. reflexivity.
Defined.

(** The command the operator was told had failed is handed to the device
    all the same. *)
Example failed_verification_is_delivered :
  fst (getNextCommand "device-a"
         (after (verifyDevice sample_config "device-a")
            (with_faults [ false; false; true ] sample_server)))
  = Ok (Some (command 0%nat "ProfileList")).
Proof. vm_compute. reflexivity. Qed.

(** X17. When the store fails on the update of the command record, the
    response of a device is lost without a trace: the queue, the command
    records and the event log are as before, and the handler hands out the
    head of the queue again. *)
Theorem failed_store_keeps_the_command_queued :
  forall deviceId response now session w,
    deviceSessions w !! deviceId = Some session ->
    query_fails w = true ->
    processCommandResponse deviceId response now w = (Ok tt, next_query w)
    /\ forall head rest,
         pendingCommands w !! deviceId = Some (head :: rest) ->
         handleCommand deviceId (Some response) now w
         = (Ok (RPlist head), next_query w).
Proof.
  intros deviceId response now session w Hs Hfail.
  assert (Hrun : processCommandResponse deviceId response now w
                 = (Ok tt, next_query w)).
  { unfold processCommandResponse, bind at 1, get_world. rewrite Hs.
    unfold try_catch, bind at 1, db_exec. rewrite Hfail. reflexivity. }
  split; [exact Hrun|].
  intros head rest Hq.
  rewrite handleCommand_run by (rewrite Hrun; reflexivity).
  unfold after. rewrite Hrun. simpl.
  rewrite (getNextCommand_head deviceId head rest (next_query w)) by exact Hq.
  reflexivity.
Qed.

Lemma failed_store_keeps_the_command_queued_witness :
  processCommandResponse "device-a" (acknowledgement 0%nat) 20
    (with_faults [ true ] server_with_two_commands)
  = (Ok tt, next_query (with_faults [ true ] server_with_two_commands))
  /\ forall head rest,
       pendingCommands (with_faults [ true ] server_with_two_commands)
         !! "device-a" = Some (head :: rest) ->
       handleCommand "device-a" (Some (acknowledgement 0%nat)) 20
         (with_faults [ true ] server_with_two_commands)
       = (Ok (RPlist head), next_query (with_faults [ true ] server_with_two_commands)).
Proof.
  apply (failed_store_keeps_the_command_queued "device-a" (acknowledgement 0%nat)
           20 session_with_token (with_faults [ true ] server_with_two_commands)).
  - vm_compute. reflexivity.
  - reflexivity.
Defined.

(** X18. [buildCommand] always returns, with a fresh id.  For the eight types
    it knows by name the command carries that type as its [RequestType],
    whatever the parameters hold.  For any other type the parameters are
    copied into the command, so a parameter named [RequestType] replaces the
    requested type. *)
Theorem buildCommand_request_type :
  forall type parameters w,
    exists command,
      buildCommand type parameters w
      = (Ok command, with_next_uuid (S (next_uuid w)) w)
      /\ CommandUUID command = next_uuid w
      /\ (In type named_types ->
          obj_get "RequestType" (Command_ command) = Some (JStr type))
      /\ (~ In type named_types ->
          forall k,
            obj_get k (Command_ command)
            = match obj_get k (rev parameters) with
              | Some v => Some v
              | None => if String.eqb k "RequestType" then Some (JStr type) else None
              end).
Proof.
  intros type parameters w. unfold buildCommand, bind, uuidv4, ret.
  eexists. split; [reflexivity|]. split; [reflexivity|]. simpl Command_. split.
  - unfold named_types. intros Hin. simpl in Hin.
    repeat (destruct Hin as [<-|Hin]; [reflexivity|]). destruct Hin.
  - intros Hout k.
    assert (Hne : forall t, In t named_types -> String.eqb type t = false).
    { intros t Ht. destruct (String.eqb_spec type t) as [->|_];
        [contradiction | reflexivity]. }
    unfold str_mem. simpl existsb.
    rewrite !Hne by (unfold named_types; simpl; tauto).
    simpl. rewrite obj_get_obj_assign. simpl.
    destruct (obj_get k (rev parameters)); reflexivity.
Qed.

Lemma buildCommand_request_type_witness :
  exists command,
    buildCommand "EraseDevice" [ ("RequestType", JStr "DeviceLock") ] sample_server
    = (Ok command, with_next_uuid (S (next_uuid sample_server)) sample_server)
    /\ CommandUUID command = next_uuid sample_server
    /\ (In "EraseDevice" named_types ->
        obj_get "RequestType" (Command_ command) = Some (JStr "EraseDevice"))
    /\ (~ In "EraseDevice" named_types ->
        forall k,
          obj_get k (Command_ command)
          = match obj_get k (rev [ ("RequestType", JStr "DeviceLock") ]) with
            | Some v => Some v
            | None =>
                if String.eqb k "RequestType" then Some (JStr "EraseDevice") else None
            end).
Proof.
  apply (buildCommand_request_type "EraseDevice"
           [ ("RequestType", JStr "DeviceLock") ] sample_server).
Defined.

(** ** Issuing and resolving enrollment codes *)

Lemma buildSupervisionProfile_memory
    config deviceId profileUUID settings securityLevel isWebOnly :
  framed same_store
    (buildSupervisionProfile config deviceId profileUUID settings securityLevel
       isWebOnly).
Proof.
  unfold buildSupervisionProfile, buildMDMPayload, buildContentFilterPayload,
    compileBlockedDomains, buildRestrictionsPayload, buildSecurityPayload.
  repeat frame_step.
Qed.

Lemma generateSupervisionProfile_answers
    config plist_build pkcs7_sign deviceId userId settings securityLevel
    isWebOnly code now storedAt answeredAt row rows w :
  faults w = [] ->
  select_device deviceId (db w) = row :: rows ->
  exists profile w0 w1 w',
    buildSupervisionProfile config deviceId (next_uuid w) settings securityLevel
      true w0 = (Ok profile, w1)
    /\ generateSupervisionProfile config plist_build pkcs7_sign deviceId userId
         settings securityLevel isWebOnly code now storedAt answeredAt w
       = (Ok (RJson [ ("enrollmentCode", JStr code);
                      ("profileUUID", JUuid (next_uuid w));
                      ("downloadUrl", JStr ("/mdm/enroll/" +:+ code));
                      ("expiresAt", JNum (answeredAt + 24 * 60 * 60 * 1000)) ]),
          w')
    /\ enrollmentCodes w'
       = <[code := issued_ticket (signProfile config plist_build pkcs7_sign profile now)
                     deviceId userId (next_uuid w) storedAt]> (enrollmentCodes w)
    /\ supervision_profiles (db w')
       = supervision_profiles
           (upsert_supervision_profile (dp_id row) (next_uuid w)
              ("com.altriirecovery.supervision." +:+ deviceId)
              "Altrii Recovery - Maximum Protection" securityLevel
              (signProfile config plist_build pkcs7_sign profile now) (db w))
    /\ pendingCommands w' = pendingCommands w
    /\ deviceSessions w' = deviceSessions w.
Proof.
  intros Hf Hdev.
  unfold generateSupervisionProfile, try_catch, bind at 1, uuidv4.
  unfold bind at 1, db_select, query_fails. simpl. rewrite Hf. simpl.
  rewrite Hdev. rewrite orb_true_r.
  set (w0 := next_query (with_next_uuid (S (next_uuid w)) w)).
  assert (Hf0 : faults w0 = []) by (unfold w0; simpl; rewrite Hf; reflexivity).
  destruct (buildSupervisionProfile_total config deviceId (next_uuid w) settings
              securityLevel true w0 Hf0) as (profile & w1 & Hbuild).
  destruct (buildSupervisionProfile_memory config deviceId (next_uuid w) settings
              securityLevel true w0) as ((Hs & Hq & Hc & _ & _ & Hquiet) & Hdb).
  rewrite Hbuild in Hs, Hq, Hc, Hquiet, Hdb. simpl in Hs, Hq, Hc, Hquiet, Hdb.
  unfold bind at 1. rewrite Hbuild.
  unfold bind, modify, db_exec, query_fails, next_query, ret. simpl.
  rewrite (Hquiet Hf0). simpl.
  exists profile, w0, w1. eexists. split; [exact Hbuild|].
  split; [reflexivity|]. simpl. rewrite Hc, Hdb, Hq, Hs. repeat split.
Qed.

(** X19. Issue and resolve.  For a registered device and a store that
    answers, [generateSupervisionProfile] answers with the code, a fresh
    profile id and the download path of the code, and builds the profile as
    web-only, whatever flag the request carries.  The expiry it reports is
    24 hours after the clock reading taken when the answer is written; the
    expiry it keeps with the code is 24 hours after an earlier reading.
    Resolving the code up to the kept expiry returns the signed bytes of the
    profile that was built, resolving it later answers 410: when the clock
    has moved between the two readings, the code is refused at the expiry
    the answer reports. *)
Theorem issued_code_resolves_to_the_built_profile :
  forall config plist_build pkcs7_sign deviceId userId settings securityLevel
         isWebOnly code now storedAt answeredAt row rows w,
    faults w = [] ->
    select_device deviceId (db w) = row :: rows ->
    exists profile w0 w1 w',
      buildSupervisionProfile config deviceId (next_uuid w) settings securityLevel
        true w0 = (Ok profile, w1)
      /\ generateSupervisionProfile config plist_build pkcs7_sign deviceId userId
           settings securityLevel isWebOnly code now storedAt answeredAt w
         = (Ok (RJson [ ("enrollmentCode", JStr code);
                        ("profileUUID", JUuid (next_uuid w));
                        ("downloadUrl", JStr ("/mdm/enroll/" +:+ code));
                        ("expiresAt", JNum (answeredAt + 86400000)) ]), w')
      /\ (forall now',
            now' <= storedAt + 86400000 ->
            fst (getEnrollmentProfile code now' w')
            = Ok (RProfile (signProfile config plist_build pkcs7_sign profile now)))
      /\ (forall now',
            storedAt + 86400000 < now' ->
            fst (getEnrollmentProfile code now' w')
            = Ok (RError 410 "Enrollment code expired"))
      /\ (storedAt < answeredAt ->
          fst (getEnrollmentProfile code (answeredAt + 86400000) w')
          = Ok (RError 410 "Enrollment code expired")).
Proof.
  intros config plist_build pkcs7_sign deviceId userId settings securityLevel
    isWebOnly code now storedAt answeredAt row rows w Hf Hdev.
  destruct (generateSupervisionProfile_answers config plist_build pkcs7_sign
              deviceId userId settings securityLevel isWebOnly code now storedAt
              answeredAt row rows w Hf Hdev)
    as (profile & w0 & w1 & w' & Hbuild & Hrun & Hcodes & _).
  exists profile, w0, w1, w'. split; [exact Hbuild|]. split; [exact Hrun|].
  assert (Hticket : enrollmentCodes w' !! code
                    = Some (issued_ticket
                              (signProfile config plist_build pkcs7_sign profile now)
                              deviceId userId (next_uuid w) storedAt))
    by (rewrite Hcodes; apply lookup_insert_eq).
  assert (Hlate : forall now',
             storedAt + 86400000 < now' ->
             fst (getEnrollmentProfile code now' w')
             = Ok (RError 410 "Enrollment code expired")).
  { intros now' Hnow.
    unfold getEnrollmentProfile, bind, get_world. rewrite Hticket.
    destruct (Z.ltb_spec (e_expiresAt (issued_ticket
                (signProfile config plist_build pkcs7_sign profile now)
                deviceId userId (next_uuid w) storedAt)) now') as [_|Hge];
      [reflexivity | simpl in Hge; lia]. }
  split; [|split; [exact Hlate|]].
  - intros now' Hnow.
    apply (getEnrollmentProfile_unexpired code now' _ w' Hticket).
    simpl. lia.
  - intros Hmoved. apply Hlate. lia.
Qed.

Lemma issued_code_resolves_to_the_built_profile_witness :
  exists profile w0 w1 w',
    buildSupervisionProfile sample_config "device-a" (next_uuid sample_server)
      sample_settings 3 true w0 = (Ok profile, w1)
    /\ generateSupervisionProfile sample_config sample_plist sample_sign
         "device-a" "user-1" sample_settings 3 false "K7Q2M9" 0 1 5 sample_server
       = (Ok (RJson [ ("enrollmentCode", JStr "K7Q2M9");
                      ("profileUUID", JUuid (next_uuid sample_server));
                      ("downloadUrl", JStr ("/mdm/enroll/" +:+ "K7Q2M9"));
                      ("expiresAt", JNum (5 + 86400000)) ]), w')
    /\ (forall now',
          now' <= 1 + 86400000 ->
          fst (getEnrollmentProfile "K7Q2M9" now' w')
          = Ok (RProfile (signProfile sample_config sample_plist sample_sign
                            profile 0)))
    /\ (forall now',
          1 + 86400000 < now' ->
          fst (getEnrollmentProfile "K7Q2M9" now' w')
          = Ok (RError 410 "Enrollment code expired"))
    /\ (1 < 5 ->
        fst (getEnrollmentProfile "K7Q2M9" (5 + 86400000) w')
        = Ok (RError 410 "Enrollment code expired")).
Proof.
  apply (issued_code_resolves_to_the_built_profile sample_config sample_plist
           sample_sign "device-a" "user-1" sample_settings 3 false "K7Q2M9" 0 1 5
           {| dp_id := 7; dp_profile_uuid := "device-a"; dp_mdm_enrolled := false;
              dp_supervision_level := 0 |}
           [ ] sample_server).
  - reflexivity.
  - vm_compute. reflexivity.
Defined.

(** The code issued with the clock at 1 and reported with the clock at 5
    is refused at the expiry the answer reports. *)
Example reported_expiry_is_later_than_the_kept_one :
  let w' := after (generateSupervisionProfile sample_config sample_plist
                     sample_sign "device-a" "user-1" sample_settings 3 false
                     "K7Q2M9" 0 1 5) sample_server in
  fst (getEnrollmentProfile "K7Q2M9" (1 + 86400000) w')
  = Ok (RProfile "com.altriirecovery.supervision.device-a")
  /\ fst (getEnrollmentProfile "K7Q2M9" (5 + 86400000) w')
     = Ok (RError 410 "Enrollment code expired").
Proof. vm_compute. split; reflexivity. Qed.

(** What a resolution answers is read off the entry of the code alone. *)
Lemma getEnrollmentProfile_answer code now w :
  fst (getEnrollmentProfile code now w)
  = Ok match enrollmentCodes w !! code with
       | None => RError 404 "Invalid enrollment code"
       | Some enrollment =>
           if e_expiresAt enrollment <? now
           then RError 410 "Enrollment code expired"
           else RProfile (e_profileData enrollment)
       end.
Proof.
  destruct (enrollmentCodes w !! code) as [enrollment|] eqn:Hcode.
  - destruct (Z.ltb_spec (e_expiresAt enrollment) now) as [Hlt|Hge].
    + unfold getEnrollmentProfile, bind, get_world. rewrite Hcode.
      destruct (Z.ltb_spec (e_expiresAt enrollment) now) as [_|Hge]; [|lia].
      reflexivity.
    + apply (getEnrollmentProfile_unexpired code now enrollment w Hcode Hge).
  - unfold getEnrollmentProfile, bind, get_world. rewrite Hcode. reflexivity.
Qed.

(** X20. No code for an unknown device.  When the store has no row for the
    device, [generateSupervisionProfile] answers 404 (or 500 when the lookup
    itself fails), registers no enrollment code and writes nothing. *)
Theorem unknown_device_gets_no_code :
  forall config plist_build pkcs7_sign deviceId userId settings securityLevel
         isWebOnly code now storedAt answeredAt w,
    select_device deviceId (db w) = [] ->
    let run := generateSupervisionProfile config plist_build pkcs7_sign deviceId
                 userId settings securityLevel isWebOnly code now storedAt
                 answeredAt w in
    fst run = Ok (if query_fails w
                  then RError 500 "Failed to generate supervision profile"
                  else RError 404 "Device not found")
    /\ enrollmentCodes (snd run) = enrollmentCodes w
    /\ db (snd run) = db w
    /\ forall now', fst (getEnrollmentProfile code now' (snd run))
                    = fst (getEnrollmentProfile code now' w).
Proof.
  intros config plist_build pkcs7_sign deviceId userId settings securityLevel
    isWebOnly code now storedAt answeredAt w Hdev run.
  assert (H : fst run = Ok (if query_fails w
                            then RError 500 "Failed to generate supervision profile"
                            else RError 404 "Device not found")
              /\ enrollmentCodes (snd run) = enrollmentCodes w
              /\ db (snd run) = db w).
  { unfold run, generateSupervisionProfile, try_catch, bind, uuidv4, db_select.
    change (query_fails (with_next_uuid (S (next_uuid w)) w)) with (query_fails w).
    destruct (query_fails w); simpl; [repeat split|].
    rewrite Hdev. repeat split. }
  destruct H as (Hr & Hc & Hd). repeat split; try assumption.
  intros now'. rewrite !getEnrollmentProfile_answer, Hc. reflexivity.
Qed.

Lemma unknown_device_gets_no_code_witness :
  let run := generateSupervisionProfile sample_config sample_plist sample_sign
               "device-z" "user-1" sample_settings 3 false "K7Q2M9" 0 0 0
               sample_server in
  fst run = Ok (if query_fails sample_server
                then RError 500 "Failed to generate supervision profile"
                else RError 404 "Device not found")
  /\ enrollmentCodes (snd run) = enrollmentCodes sample_server
  /\ db (snd run) = db sample_server
  /\ forall now', fst (getEnrollmentProfile "K7Q2M9" now' (snd run))
                  = fst (getEnrollmentProfile "K7Q2M9" now' sample_server).
Proof.
  apply (unknown_device_gets_no_code sample_config sample_plist sample_sign
           "device-z" "user-1" sample_settings 3 false "K7Q2M9" 0 0 0
           sample_server).
  vm_compute. reflexivity.
Defined.

Lemma compileBlockedDomains_no_category settings w :
  no_category settings ->
  exists denied, compileBlockedDomains settings w = (Ok denied, w).
Proof.
  unfold no_category, compileBlockedDomains.
  intros (-> & -> & -> & -> & -> & -> & -> & ->). eexists. reflexivity.
Qed.

Lemma compileBlockedDomains_category settings w :
  ~ no_category settings ->
  query_fails w = false ->
  exists denied, compileBlockedDomains settings w = (Ok denied, next_query w).
Proof.
  intros Hsome Hanswers. unfold compileBlockedDomains, bind, db_select.
  destruct (block_adult_content settings) eqn:H1,
    (block_gambling settings) eqn:H2, (block_social_media settings) eqn:H3,
    (block_gaming settings) eqn:H4, (block_news settings) eqn:H5,
    (block_entertainment settings) eqn:H6, (block_shopping settings) eqn:H7,
    (block_dating settings) eqn:H8;
    simpl; rewrite ?Hanswers; try (eexists; reflexivity).
  exfalso. apply Hsome. repeat split; assumption.
Qed.

(** Past the deny-list, the builder draws identifiers only. *)
Lemma buildSupervisionProfile_after_deny_list
    config deviceId profileUUID settings securityLevel isWebOnly w denied w1 :
  compileBlockedDomains settings (with_next_uuid (S (next_uuid w)) w)
  = (Ok denied, w1) ->
  exists profile w2,
    buildSupervisionProfile config deviceId profileUUID settings securityLevel
      isWebOnly w = (Ok profile, w2)
    /\ faults w2 = faults w1 /\ db w2 = db w1
    /\ enrollmentCodes w2 = enrollmentCodes w1.
Proof.
  intros Hdenied.
  unfold buildSupervisionProfile, buildMDMPayload, buildContentFilterPayload,
    buildRestrictionsPayload, buildSecurityPayload.
  unfold bind at 1. unfold bind at 1. unfold uuidv4 at 1. unfold ret at 1.
  unfold bind at 1. unfold bind at 1. rewrite Hdenied.
  unfold bind, uuidv4, ret.
  destruct (2 <=? securityLevel); [|do 2 eexists; repeat split].
  destruct (securityLevel =? 2); [do 2 eexists; repeat split|].
  destruct (3 <=? securityLevel); do 2 eexists; repeat split.
Qed.

(** X21. The code is registered before the profile row is written.  When the
    store answers the device lookup (and the category query, if the settings
    select a category) but fails on the final write to [supervision_profiles],
    [generateSupervisionProfile] answers 500 and the store is as before; yet
    the enrollment code is registered in memory, and resolving it until its
    expiry returns the profile. *)
Theorem code_is_registered_before_the_profile_is_stored :
  forall config plist_build pkcs7_sign deviceId userId settings securityLevel
         isWebOnly code now storedAt answeredAt row rows later w,
    select_device deviceId (db w) = row :: rows ->
    (no_category settings /\ faults w = false :: true :: later)
    \/ (~ no_category settings /\ faults w = false :: false :: true :: later) ->
    let run := generateSupervisionProfile config plist_build pkcs7_sign deviceId
                 userId settings securityLevel isWebOnly code now storedAt
                 answeredAt w in
    exists profile,
      fst run = Ok (RError 500 "Failed to generate supervision profile")
      /\ db (snd run) = db w
      /\ enrollmentCodes (snd run)
         = <[code := issued_ticket
                       (signProfile config plist_build pkcs7_sign profile now)
                       deviceId userId (next_uuid w) storedAt]> (enrollmentCodes w)
      /\ forall now',
           now' <= storedAt + 86400000 ->
           fst (getEnrollmentProfile code now' (snd run))
           = Ok (RProfile (signProfile config plist_build pkcs7_sign profile now)).
Proof.
  intros config plist_build pkcs7_sign deviceId userId settings securityLevel
    isWebOnly code now storedAt answeredAt row rows later w Hdev Hschedule run.
  set (w0 := next_query (with_next_uuid (S (next_uuid w)) w)).
  assert (Hbuild : exists profile w2,
             buildSupervisionProfile config deviceId (next_uuid w) settings
               securityLevel true w0 = (Ok profile, w2)
             /\ faults w2 = true :: later /\ db w2 = db w
             /\ enrollmentCodes w2 = enrollmentCodes w).
  { destruct Hschedule as [(Hnone & Hf)|(Hsome & Hf)].
    - destruct (compileBlockedDomains_no_category settings
                  (with_next_uuid (S (next_uuid w0)) w0) Hnone) as (denied & Hd).
      destruct (buildSupervisionProfile_after_deny_list config deviceId
                  (next_uuid w) settings securityLevel true w0 denied _ Hd)
        as (profile & w2 & Hb & Hf2 & Hdb & Hc).
      exists profile, w2. split; [exact Hb|].
      rewrite Hf2, Hdb, Hc. unfold w0. simpl. rewrite Hf. repeat split.
    - assert (Hq : query_fails (with_next_uuid (S (next_uuid w0)) w0) = false)
        by (unfold w0, query_fails; simpl; rewrite Hf; reflexivity).
      destruct (compileBlockedDomains_category settings
                  (with_next_uuid (S (next_uuid w0)) w0) Hsome Hq) as (denied & Hd).
      destruct (buildSupervisionProfile_after_deny_list config deviceId
                  (next_uuid w) settings securityLevel true w0 denied _ Hd)
        as (profile & w2 & Hb & Hf2 & Hdb & Hc).
      exists profile, w2. split; [exact Hb|].
      rewrite Hf2, Hdb, Hc. unfold w0. simpl. rewrite Hf. repeat split. }
  destruct Hbuild as (profile & w2 & Hb & Hf2 & Hdb & Hc).
  exists profile.
  assert (Hrun : run
                 = (Ok (RError 500 "Failed to generate supervision profile"),
                    next_query
                      (with_enrollmentCodes
                         (<[code := issued_ticket
                                      (signProfile config plist_build pkcs7_sign
                                         profile now)
                                      deviceId userId (next_uuid w) storedAt]>
                            (enrollmentCodes w2)) w2))).
  { unfold run, generateSupervisionProfile, try_catch, bind at 1, uuidv4.
    unfold bind at 1, db_select.
    assert (Hq : query_fails (with_next_uuid (S (next_uuid w)) w) = false)
      by (unfold query_fails; simpl; destruct Hschedule as [(_ & ->)|(_ & ->)];
          reflexivity).
    rewrite Hq. simpl. rewrite Hdev. rewrite orb_true_r. fold w0.
    unfold bind at 1. rewrite Hb.
    unfold bind, modify, db_exec, query_fails, ret. simpl. rewrite Hf2.
    reflexivity. }
  rewrite Hrun. simpl. rewrite Hdb, Hc.
  split; [reflexivity|]. split; [reflexivity|]. split; [reflexivity|].
  intros now' Hnow. rewrite getEnrollmentProfile_answer. simpl.
  rewrite lookup_insert_eq. simpl.
  destruct (Z.ltb_spec (storedAt + 24 * 60 * 60 * 1000) now') as [Hlt|_];
    [lia | reflexivity].
Qed.

Lemma code_is_registered_before_the_profile_is_stored_witness :
  let run := generateSupervisionProfile sample_config sample_plist sample_sign
               "device-a" "user-1" custom_only_settings 3 false "K7Q2M9" 0 0 0
               (with_faults [ false; true ] sample_server) in
  exists profile,
    fst run = Ok (RError 500 "Failed to generate supervision profile")
    /\ db (snd run) = db (with_faults [ false; true ] sample_server)
    /\ enrollmentCodes (snd run)
       = <[ "K7Q2M9" := issued_ticket
                          (signProfile sample_config sample_plist sample_sign
                             profile 0)
                          "device-a" "user-1"
                          (next_uuid (with_faults [ false; true ] sample_server)) 0]>
           (enrollmentCodes (with_faults [ false; true ] sample_server))
    /\ forall now',
         now' <= 0 + 86400000 ->
         fst (getEnrollmentProfile "K7Q2M9" now' (snd run))
         = Ok (RProfile (signProfile sample_config sample_plist sample_sign
                           profile 0)).
Proof.
  apply (code_is_registered_before_the_profile_is_stored sample_config
           sample_plist sample_sign "device-a" "user-1" custom_only_settings 3
           false "K7Q2M9" 0 0 0
           {| dp_id := 7; dp_profile_uuid := "device-a"; dp_mdm_enrolled := false;
              dp_supervision_level := 0 |}
           [ ] [ ] (with_faults [ false; true ] sample_server)).
  - vm_compute. reflexivity.
  - left. split; [|reflexivity]. vm_compute. repeat split.
Defined.

(** ** Completing an enrollment *)

Lemma update_where_In {A} (p : A -> bool) (f : A -> A) l r' :
  In r' (update_where p f l) ->
  exists r, In r l /\ r' = if p r then f r else r.
Proof.
  unfold update_where. intros H. apply in_map_iff in H.
  destruct H as (r & <- & Hr). eauto.
Qed.

Lemma update_where_none {A} (p : A -> bool) (f : A -> A) l :
  (forall r, In r l -> p r = false) -> update_where p f l = l.
Proof.
  unfold update_where. induction l as [|r l IH]; intros H; [reflexivity|].
  simpl. rewrite (H r) by (left; reflexivity).
  rewrite IH; [reflexivity|]. intros r' Hr'. apply H. right. exact Hr'.
Qed.

Lemma device_enrolled_rows id d r :
  In r (device_profiles (update_device_enrolled id d)) ->
  dp_id r = id -> dp_mdm_enrolled r = true.
Proof.
  unfold update_device_enrolled. simpl. intros Hin Hid.
  apply update_where_In in Hin. destruct Hin as (r0 & _ & ->).
  destruct (Z.eqb_spec (dp_id r0) id) as [_|Hne]; [reflexivity|].
  contradiction.
Qed.

(** X22. Completing an enrollment does not depend on a download.  With a
    store that answers, [handleEnrollment] answers success and flags every
    device record with the given id as MDM-enrolled, whether or not an
    enrollment of that device and user was downloaded; when none was, the
    enrollment rows are left exactly as they were. *)
Theorem enrollment_completes_without_a_download :
  forall deviceId userId now w,
    faults w = [] ->
    let run := handleEnrollment deviceId userId now w in
    fst run = Ok (RJson [ ("success", JBool true) ])
    /\ (forall r,
          In r (device_profiles (db (snd run))) ->
          dp_id r = deviceId -> dp_mdm_enrolled r = true)
    /\ ((forall r,
           In r (supervision_enrollments (db w)) ->
           se_device_id r = deviceId -> se_user_id r = userId ->
           se_status r <> "downloaded") ->
        supervision_enrollments (db (snd run)) = supervision_enrollments (db w))
    /\ same_memory w (snd run).
Proof.
  intros deviceId userId now w Hf run.
  assert (Hrun : run
                 = (Ok (RJson [ ("success", JBool true) ]),
                    with_db (update_device_enrolled deviceId
                               (update_enrollment_enrolled deviceId userId now
                                  (db w))) w)).
  { unfold run, handleEnrollment, try_catch, bind, db_exec, query_fails, ret.
    rewrite Hf. simpl. rewrite Hf. simpl. destruct w; simpl in *; subst.
    reflexivity. }
  rewrite Hrun. simpl. split; [reflexivity|]. split; [|split].
  - intros r Hin Hid. exact (device_enrolled_rows deviceId _ r Hin Hid).
  - intros Hnone. apply update_where_none. intros r Hin.
    destruct (Z.eqb_spec (se_device_id r) deviceId) as [Hd|]; [|reflexivity].
    destruct (String.eqb_spec (se_user_id r) userId) as [Hu|]; [|reflexivity].
    destruct (String.eqb_spec (se_status r) "downloaded") as [Hs|]; [|reflexivity].
    exfalso. exact (Hnone r Hin Hd Hu Hs).
  - apply same_memory_with_db.
Qed.

Lemma enrollment_completes_without_a_download_witness :
  let run := handleEnrollment 7 "user-1" 0 sample_server in
  fst run = Ok (RJson [ ("success", JBool true) ])
  /\ (forall r,
        In r (device_profiles (db (snd run))) ->
        dp_id r = 7 -> dp_mdm_enrolled r = true)
  /\ ((forall r,
         In r (supervision_enrollments (db sample_server)) ->
         se_device_id r = 7 -> se_user_id r = "user-1" ->
         se_status r <> "downloaded") ->
      supervision_enrollments (db (snd run))
      = supervision_enrollments (db sample_server))
  /\ same_memory sample_server (snd run).
Proof.
  apply (enrollment_completes_without_a_download 7 "user-1" 0 sample_server).
  reflexivity.
Defined.

(** ** Reconciliation of device reports *)

Lemma not_false_spec k o :
  not_false k o = false <-> obj_get k o = Some (JBool false).
Proof.
  unfold not_false.
  destruct (obj_get k o) as [[| [|] | | | |]|]; split; congruence.
Qed.

Lemma app_one_neq {A} (l : list A) x : l ++ [x] <> l.
Proof.
  intros H. apply (f_equal (@List.length A)) in H.
  rewrite List.length_app in H. simpl in H. lia.
Qed.

(** X23. A restrictions report is checked against the supervision level of
    the device record.  With a store that answers, [processRestrictions]
    logs a [restriction_violations] event exactly when the level is at least
    2 and the report does not carry [allowVPNCreation: false], or the level
    is at least 3 and it does not carry [allowAppInstallation: false] and
    [allowEraseContentAndSettings: false]; a key that is missing counts as
    not blocked.  Nothing else is added to the event log, and the server's
    memory is untouched. *)
Theorem restrictions_are_checked_against_the_level :
  forall deviceId restrictions now level levels w,
    faults w = [] ->
    select_supervision_level deviceId (db w) = level :: levels ->
    let w' := after (processRestrictions deviceId (Some restrictions) now) w in
    let blocked k := obj_get k restrictions = Some (JBool false) in
    (mdm_device_events (db w') = mdm_device_events (db w)
     <-> level < 2
         \/ (blocked "allowVPNCreation"
             /\ (level < 3
                 \/ (blocked "allowAppInstallation"
                     /\ blocked "allowEraseContentAndSettings"))))
    /\ (mdm_device_events (db w') = mdm_device_events (db w)
        \/ exists issues,
             mdm_device_events (db w')
             = mdm_device_events (db w)
               ++ [{| ev_device_id := RecordId deviceId;
                      ev_event_type := "restriction_violations";
                      ev_event_data := EvRestrictionViolations issues |}])
    /\ same_memory w w'.
Proof.
  intros deviceId restrictions now level levels w Hf Hlevel w' blocked.
  assert (Hdb : mdm_device_events (db w')
                = mdm_device_events (db w)
                  ++ match (if 2 <=? level
                            then if not_false "allowVPNCreation" restrictions
                                 then ["VPN creation not blocked"] else []
                            else [])
                           ++ (if 3 <=? level
                               then (if not_false "allowAppInstallation" restrictions
                                     then ["App installation not blocked"] else [])
                                    ++ (if not_false "allowEraseContentAndSettings"
                                             restrictions
                                        then ["Factory reset not blocked"] else [])
                               else [])
                     with
                     | [] => []
                     | issues =>
                         [{| ev_device_id := RecordId deviceId;
                             ev_event_type := "restriction_violations";
                             ev_event_data := EvRestrictionViolations issues |}]
                     end).
  { unfold w', after, processRestrictions, try_catch, bind at 1, db_exec,
      query_fails. rewrite Hf. simpl.
    unfold bind at 1, db_select, query_fails. simpl. rewrite Hf. simpl.
    change (select_supervision_level deviceId
              (upsert_restrictions deviceId (Some restrictions) now (db w)))
      with (select_supervision_level deviceId (db w)).
    rewrite Hlevel.
    unfold bind, require, ret, logDeviceEvent, try_catch, db_exec, query_fails.
    destruct (2 <=? level), (3 <=? level),
      (not_false "allowVPNCreation" restrictions),
      (not_false "allowAppInstallation" restrictions),
      (not_false "allowEraseContentAndSettings" restrictions);
      simpl; rewrite ?Hf; simpl; rewrite ?app_nil_r; reflexivity. }
  split; [|split].
  - rewrite Hdb. unfold blocked. rewrite <- !not_false_spec.
    destruct (Z.leb_spec 2 level) as [H2|H2];
      destruct (Z.leb_spec 3 level) as [H3|H3];
      destruct (not_false "allowVPNCreation" restrictions),
        (not_false "allowAppInstallation" restrictions),
        (not_false "allowEraseContentAndSettings" restrictions);
      simpl; rewrite ?app_nil_r;
      (split;
       [ intros H; try (exfalso; exact (app_one_neq _ _ H));
         try (left; lia); try (right; split; [reflexivity|]);
         try (left; lia); try (right; split; reflexivity)
       | intros H; try reflexivity; exfalso;
         destruct H as [H|[H [H'|[H' H'']]]]; try lia; try discriminate ]).
  - rewrite Hdb.
    match goal with
    | |- context [match ?l with [] => [] | _ :: _ => _ end] => destruct l
    end; [left; apply app_nil_r | right; eexists; reflexivity].
  - assert (Hframe : framed same_memory
                       (processRestrictions deviceId (Some restrictions) now)).
    { unfold processRestrictions, logDeviceEvent. repeat frame_step;
        try (apply framed_db_exec; try exact _; intros; apply same_memory_with_db).
      all: match goal with
           | |- framed _ (match ?l with [] => _ | _ :: _ => _ end) =>
               destruct l; repeat frame_step;
               apply framed_db_exec; try exact _; intros;
               apply same_memory_with_db
           | _ => idtac
           end. }
    apply Hframe.
Qed.

Lemma restrictions_are_checked_against_the_level_witness :
  let w' := after (processRestrictions 7 (Some vpn_only_report) 50)
              supervised_server in
  let blocked k := obj_get k vpn_only_report = Some (JBool false) in
  (mdm_device_events (db w') = mdm_device_events (db supervised_server)
   <-> 3 < 2
       \/ (blocked "allowVPNCreation"
           /\ (3 < 3
               \/ (blocked "allowAppInstallation"
                   /\ blocked "allowEraseContentAndSettings"))))
  /\ (mdm_device_events (db w') = mdm_device_events (db supervised_server)
      \/ exists issues,
           mdm_device_events (db w')
           = mdm_device_events (db supervised_server)
             ++ [{| ev_device_id := RecordId 7;
                    ev_event_type := "restriction_violations";
                    ev_event_data := EvRestrictionViolations issues |}])
  /\ same_memory supervised_server w'.
Proof.
  apply (restrictions_are_checked_against_the_level 7 vpn_only_report 50 3 [ ]
           supervised_server).
  - reflexivity.
  - vm_compute. reflexivity.
Defined.

(** At level 3 the report that blocks VPN creation alone is flagged for the
    two restrictions it lacks; with all three set to false nothing is
    logged; at level 0 the same report is not flagged. *)
Example level_three_report_is_flagged :
  mdm_device_events
    (db (after (processRestrictions 7 (Some vpn_only_report) 50) supervised_server))
  = [ {| ev_device_id := RecordId 7; ev_event_type := "restriction_violations";
         ev_event_data :=
           EvRestrictionViolations
             [ "App installation not blocked"; "Factory reset not blocked" ] |} ]
  /\ mdm_device_events
       (db (after (processRestrictions 7
                     (Some [ ("allowVPNCreation", JBool false);
                             ("allowAppInstallation", JBool false);
                             ("allowEraseContentAndSettings", JBool false) ]) 50)
              supervised_server))
     = []
  /\ mdm_device_events
       (db (after (processRestrictions 8 (Some vpn_only_report) 50)
              supervised_server))
     = [].
Proof. vm_compute. repeat split; reflexivity. Qed.

(** ** The list of installed profiles *)

Lemma find_none_iff {A} (p : A -> bool) l :
  List.find p l = None <-> forall x, In x l -> p x = false.
Proof.
  split.
  - intros H x Hx. exact (List.find_none p l H x Hx).
  - induction l as [|x l IH]; intros H; [reflexivity|].
    simpl. rewrite (H x) by (left; reflexivity).
    apply IH. intros y Hy. apply H. right. exact Hy.
Qed.

(** X24. The profile list marks the device as enrolled on the identifier
    alone.  When no reported profile has an identifier that starts with
    [com.altriirecovery.supervision], [processProfileList] leaves the world
    as it was and asks the store nothing.  When one has, and the store
    answers, every device record with the given id is flagged MDM-enrolled,
    whether or not the store holds a profile with that identifier for the
    device. *)
Theorem profile_list_marks_the_device_enrolled :
  forall deviceId profiles now w,
    ((forall p, In p profiles ->
                String.prefix "com.altriirecovery.supervision"
                  (ip_PayloadIdentifier p) = false) ->
     processProfileList deviceId (Some profiles) now w = (Ok tt, w))
    /\ (forall p,
          In p profiles ->
          String.prefix "com.altriirecovery.supervision"
            (ip_PayloadIdentifier p) = true ->
          faults w = [] ->
          let w' := after (processProfileList deviceId (Some profiles) now) w in
          (forall r,
             In r (device_profiles (db w')) ->
             dp_id r = deviceId -> dp_mdm_enrolled r = true)
          /\ (forall r,
                In r (supervision_profiles (db w)) ->
                sp_device_id r <> deviceId ->
                In r (supervision_profiles (db w')))
          /\ same_memory w w').
Proof.
  intros deviceId profiles now w. split.
  - intros Hnone. unfold processProfileList, try_catch, bind, require, ret.
    rewrite (proj2 (find_none_iff _ profiles) Hnone). reflexivity.
  - intros p Hin Hprefix Hf w'.
    destruct (List.find
                (fun p => String.prefix "com.altriirecovery.supervision"
                            (ip_PayloadIdentifier p)) profiles)
      as [found|] eqn:Hfind.
    + assert (Hw' : w' = with_db
                           (update_device_enrolled deviceId
                              (update_profile_installed deviceId
                                 (ip_PayloadIdentifier found) now (db w))) w).
      { unfold w', after, processProfileList, try_catch, bind, require, ret.
        rewrite Hfind. unfold db_exec, query_fails. rewrite Hf. simpl.
        rewrite Hf. simpl. destruct w; simpl in *; subst. reflexivity. }
      rewrite Hw'. simpl. split; [|split].
      * intros r Hr Hid. exact (device_enrolled_rows deviceId _ r Hr Hid).
      * intros r Hr Hother. unfold update_where. apply in_map_iff.
        exists r. split; [|exact Hr].
        destruct (Z.eqb_spec (sp_device_id r) deviceId) as [Heq|_];
          [contradiction | reflexivity].
      * apply same_memory_with_db.
    + exfalso. pose proof (proj1 (find_none_iff _ profiles) Hfind p Hin) as Hp.
      simpl in Hp. congruence.
Qed.

Lemma profile_list_marks_the_device_enrolled_witness :
  let profiles :=
    [ {| ip_PayloadIdentifier := "com.altriirecovery.supervision.device-z" |} ] in
  let w' := after (processProfileList 7 (Some profiles) 0) sample_server in
  (forall r,
     In r (device_profiles (db w')) -> dp_id r = 7 -> dp_mdm_enrolled r = true)
  /\ (forall r,
        In r (supervision_profiles (db sample_server)) ->
        sp_device_id r <> 7 ->
        In r (supervision_profiles (db w')))
  /\ same_memory sample_server w'.
Proof.
  apply (proj2 (profile_list_marks_the_device_enrolled 7
                  [ {| ip_PayloadIdentifier :=
                         "com.altriirecovery.supervision.device-z" |} ]
                  0 sample_server)
           {| ip_PayloadIdentifier := "com.altriirecovery.supervision.device-z" |}).
  - left. reflexivity.
  - reflexivity.
  - reflexivity.
Defined.

(** ** The list of installed applications *)

Lemma insertAppInventory_run deviceId blockedBundleIds now apps :
  forall w,
    faults w = [] ->
    insertAppInventory deviceId blockedBundleIds now apps w
    = (Ok tt, with_db (inventory_after deviceId blockedBundleIds now apps (db w)) w).
Proof.
  induction apps as [|app apps IH]; intros w Hf.
  - simpl. unfold ret. destruct w; reflexivity.
  - simpl. unfold bind, db_exec, query_fails. rewrite Hf. simpl.
    assert (Hw : next_query w = w)
      by (destruct w; simpl in *; subst; reflexivity).
    rewrite Hw. rewrite IH by exact Hf. reflexivity.
Qed.

(** What one upsert does to the rows of the inventory. *)
Lemma upsert_app_inventory_rows deviceId app isBlocked now d r :
  In r (device_app_inventory (upsert_app_inventory deviceId app isBlocked now d)) ->
  (exists r0,
     In r0 (device_app_inventory d)
     /\ ai_device_id r = ai_device_id r0
     /\ ai_bundle_identifier r = ai_bundle_identifier r0
     /\ ai_is_blocked r = ai_is_blocked r0
     /\ (ai_device_id r0 <> deviceId -> r = r0))
  \/ (ai_device_id r = deviceId
      /\ ai_bundle_identifier r = app_BundleIdentifier app
      /\ ai_is_blocked r = isBlocked).
Proof.
  unfold upsert_app_inventory. simpl.
  destruct (existsb _ (device_app_inventory d)).
  - intros Hin. apply update_where_In in Hin. destruct Hin as (r0 & Hr0 & ->).
    left. exists r0. split; [exact Hr0|].
    destruct (Z.eqb_spec (ai_device_id r0) deviceId) as [Heq|Hne]; simpl.
    + destruct (String.eqb (ai_bundle_identifier r0) (app_BundleIdentifier app));
        simpl; repeat split; intros; congruence.
    + repeat split.
  - intros Hin. apply in_app_or in Hin. destruct Hin as [Hin|[<-|[]]].
    + left. exists r. repeat split. exact Hin.
    + right. repeat split.
Qed.

Lemma upsert_app_inventory_keeps deviceId app isBlocked now d r0 :
  In r0 (device_app_inventory d) ->
  exists r,
    In r (device_app_inventory (upsert_app_inventory deviceId app isBlocked now d))
    /\ ai_device_id r = ai_device_id r0
    /\ ai_bundle_identifier r = ai_bundle_identifier r0.
Proof.
  unfold upsert_app_inventory. simpl. intros Hin.
  destruct (existsb _ (device_app_inventory d)).
  - eexists. split.
    + unfold update_where. apply in_map_iff. exists r0. split; [reflexivity|exact Hin].
    + destruct (_ && _); repeat split.
  - exists r0. split; [apply in_or_app; left; exact Hin | repeat split].
Qed.

Lemma upsert_app_inventory_has deviceId app isBlocked now d :
  exists r,
    In r (device_app_inventory (upsert_app_inventory deviceId app isBlocked now d))
    /\ ai_device_id r = deviceId
    /\ ai_bundle_identifier r = app_BundleIdentifier app.
Proof.
  unfold upsert_app_inventory. simpl.
  destruct (existsb _ (device_app_inventory d)) eqn:Hex.
  - apply existsb_exists in Hex. destruct Hex as (r0 & Hr0 & Hsame).
    apply andb_true_iff in Hsame. destruct Hsame as [Hid Hb].
    apply Z.eqb_eq in Hid. apply String.eqb_eq in Hb.
    eexists. split.
    + unfold update_where. apply in_map_iff. exists r0. split; [reflexivity|exact Hr0].
    + destruct (_ && _); repeat split; assumption.
  - eexists. split; [apply in_or_app; right; left; reflexivity|].
    repeat split.
Qed.

Lemma upsert_app_inventory_others deviceId app isBlocked now d :
  List.filter (fun r => negb (ai_device_id r =? deviceId))
    (device_app_inventory (upsert_app_inventory deviceId app isBlocked now d))
  = List.filter (fun r => negb (ai_device_id r =? deviceId)) (device_app_inventory d).
Proof.
  unfold upsert_app_inventory. simpl.
  destruct (existsb _ (device_app_inventory d)).
  - unfold update_where. induction (device_app_inventory d) as [|r l IH];
      [reflexivity|].
    simpl. destruct (Z.eqb_spec (ai_device_id r) deviceId) as [Heq|Hne]; simpl.
    + destruct (String.eqb (ai_bundle_identifier r) (app_BundleIdentifier app));
        simpl; destruct (Z.eqb_spec (ai_device_id r) deviceId); try contradiction;
        simpl; exact IH.
    + destruct (Z.eqb_spec (ai_device_id r) deviceId); [contradiction|].
      simpl. rewrite IH. reflexivity.
  - rewrite List.filter_app. simpl. rewrite Z.eqb_refl. simpl.
    apply app_nil_r.
Qed.

Lemma inventory_after_tables deviceId blocked now apps :
  forall d,
    mdm_device_events (inventory_after deviceId blocked now apps d)
    = mdm_device_events d
    /\ blocked_apps (inventory_after deviceId blocked now apps d) = blocked_apps d.
Proof.
  induction apps as [|app apps IH]; intros d; [split; reflexivity|].
  simpl. destruct (IH (upsert_app_inventory deviceId app
                         (str_mem (app_BundleIdentifier app) blocked) now d))
    as [-> ->]. split; reflexivity.
Qed.

(** The rows of the device after the loop, started from a store that has
    none whose flag disagrees with the blocked list. *)
Lemma inventory_after_rows deviceId blocked now apps :
  forall d,
    (forall r, In r (device_app_inventory d) -> ai_device_id r = deviceId ->
               ai_is_blocked r = str_mem (ai_bundle_identifier r) blocked) ->
    let d' := inventory_after deviceId blocked now apps d in
    (forall r,
       In r (device_app_inventory d') -> ai_device_id r = deviceId ->
       ((exists r0, In r0 (device_app_inventory d)
                    /\ ai_device_id r0 = deviceId
                    /\ ai_bundle_identifier r0 = ai_bundle_identifier r)
        \/ exists app, In app apps
                       /\ ai_bundle_identifier r = app_BundleIdentifier app)
       /\ ai_is_blocked r = str_mem (ai_bundle_identifier r) blocked)
    /\ (forall app, In app apps ->
          exists r, In r (device_app_inventory d')
                    /\ ai_device_id r = deviceId
                    /\ ai_bundle_identifier r = app_BundleIdentifier app)
    /\ (forall r0, In r0 (device_app_inventory d) ->
          exists r, In r (device_app_inventory d')
                    /\ ai_device_id r = ai_device_id r0
                    /\ ai_bundle_identifier r = ai_bundle_identifier r0)
    /\ List.filter (fun r => negb (ai_device_id r =? deviceId))
         (device_app_inventory d')
       = List.filter (fun r => negb (ai_device_id r =? deviceId))
           (device_app_inventory d).
Proof.
  induction apps as [|app apps IH]; intros d Hflags d'.
  - subst d'. simpl. repeat split.
    + left. exists r. repeat split; assumption.
    + apply Hflags; assumption.
    + intros app [].
    + intros r0 Hr0. exists r0. repeat split. exact Hr0.
  - subst d'. simpl.
    set (d1 := upsert_app_inventory deviceId app
                 (str_mem (app_BundleIdentifier app) blocked) now d).
    assert (Hflags1 : forall r, In r (device_app_inventory d1) ->
                        ai_device_id r = deviceId ->
                        ai_is_blocked r = str_mem (ai_bundle_identifier r) blocked).
    { intros r Hr Hid.
      destruct (upsert_app_inventory_rows _ _ _ _ _ _ Hr)
        as [(r0 & Hr0 & Hd & Hb & Hblk & _)|(_ & Hb & Hblk)].
      - rewrite Hblk, Hb. apply Hflags; [exact Hr0 | congruence].
      - rewrite Hblk, Hb. reflexivity. }
    destruct (IH d1 Hflags1) as (Hrows & Hhas & Hkeeps & Hothers).
    split; [|split; [|split]].
    + intros r Hr Hid. destruct (Hrows r Hr Hid) as [Horigin Hblk].
      split; [|exact Hblk].
      destruct Horigin as [(r1 & Hr1 & Hid1 & Hb1)|(app' & Happ' & Hb')].
      * destruct (upsert_app_inventory_rows _ _ _ _ _ _ Hr1)
          as [(r0 & Hr0 & Hd & Hb & _)|(_ & Hb & _)].
        -- left. exists r0. repeat split; [exact Hr0|congruence|congruence].
        -- right. exists app. split; [left; reflexivity | congruence].
      * right. exists app'. split; [right; exact Happ' | exact Hb'].
    + intros app' [<-|Happ'].
      * destruct (upsert_app_inventory_has deviceId app
                    (str_mem (app_BundleIdentifier app) blocked) now d)
          as (r1 & Hr1 & Hid1 & Hb1).
        destruct (Hkeeps r1 Hr1) as (r & Hr & Hid & Hb).
        exists r. repeat split; [exact Hr|congruence|congruence].
      * apply Hhas. exact Happ'.
    + intros r0 Hr0.
      destruct (upsert_app_inventory_keeps deviceId app
                  (str_mem (app_BundleIdentifier app) blocked) now d r0 Hr0)
        as (r1 & Hr1 & Hid1 & Hb1).
      destruct (Hkeeps r1 Hr1) as (r & Hr & Hid & Hb).
      exists r. repeat split; [exact Hr|congruence|congruence].
    + rewrite Hothers. apply upsert_app_inventory_others.
Qed.

(** A row an upsert has written carries the name of the application, or
    its bundle identifier when the name is missing or empty. *)
Lemma upsert_app_inventory_names deviceId app isBlocked now d r :
  In r (device_app_inventory (upsert_app_inventory deviceId app isBlocked now d)) ->
  In r (device_app_inventory d)
  \/ (ai_device_id r = deviceId
      /\ ai_bundle_identifier r = app_BundleIdentifier app
      /\ ai_app_name r = str_or (app_Name app) (app_BundleIdentifier app)
      /\ ai_version r = app_Version app).
Proof.
  unfold upsert_app_inventory. simpl.
  destruct (existsb _ (device_app_inventory d)).
  - intros Hin. apply update_where_In in Hin. destruct Hin as (r0 & Hr0 & ->).
    destruct (Z.eqb_spec (ai_device_id r0) deviceId) as [Heq|Hne]; simpl;
      [|left; exact Hr0].
    destruct (String.eqb_spec (ai_bundle_identifier r0) (app_BundleIdentifier app))
      as [Hb|Hb]; simpl; [right; repeat split; assumption | left; exact Hr0].
  - intros Hin. apply in_app_or in Hin. destruct Hin as [Hin|[<-|[]]].
    + left. exact Hin.
    + right. repeat split.
Qed.

Lemma inventory_after_names deviceId blocked now apps :
  forall d r,
    In r (device_app_inventory (inventory_after deviceId blocked now apps d)) ->
    In r (device_app_inventory d)
    \/ exists app,
         In app apps
         /\ ai_device_id r = deviceId
         /\ ai_bundle_identifier r = app_BundleIdentifier app
         /\ ai_app_name r = str_or (app_Name app) (app_BundleIdentifier app)
         /\ ai_version r = app_Version app.
Proof.
  induction apps as [|app apps IH]; intros d r Hr; [left; exact Hr|].
  simpl in Hr. destruct (IH _ r Hr) as [Hin|(app' & Happ' & Hrest)].
  - destruct (upsert_app_inventory_names _ _ _ _ _ _ Hin) as [Hold|Hnew].
    + left. exact Hold.
    + right. exists app. split; [left; reflexivity | exact Hnew].
  - right. exists app'. split; [right; exact Happ' | exact Hrest].
Qed.

Lemma processAppList_store deviceId apps now w :
  faults w = [] ->
  let blocked := blocked_apps (db w) in
  let prohibited :=
    List.filter
      (fun app => str_mem (app_BundleIdentifier app) blocked
                  && negb (default false (app_IsSystemApp app))) apps in
  let stored :=
    inventory_after deviceId blocked now apps (delete_app_inventory deviceId (db w)) in
  after (processAppList deviceId (Some apps) now) w
  = with_db
      match prohibited with
      | [] => stored
      | _ :: _ =>
          insert_event (RecordId deviceId) "prohibited_apps_detected"
            (EvProhibitedApps
               (map (fun a => (app_BundleIdentifier a, app_Name a)) prohibited))
            stored
      end w.
Proof.
  intros Hf blocked prohibited stored.
  assert (Hw : next_query w = w)
    by (destruct w; simpl in *; subst; reflexivity).
  unfold after, processAppList, try_catch, bind at 1, db_exec, query_fails.
  rewrite Hf. simpl. rewrite Hw.
  unfold bind at 1, db_select, query_fails. simpl. rewrite Hf. simpl.
  change (next_query (with_db (delete_app_inventory deviceId (db w)) w))
    with (with_db (delete_app_inventory deviceId (db w)) (next_query w)).
  rewrite Hw.
  unfold bind at 1, require, ret at 1. unfold bind at 1.
  rewrite insertAppInventory_run by exact Hf. simpl.
  fold blocked. fold stored. fold prohibited.
  clearbody stored. destruct prohibited as [|a l]; [reflexivity|].
  unfold logDeviceEvent, try_catch, db_exec, query_fails, ret. simpl.
  rewrite Hf. simpl. clear Hw. destruct w; simpl in *; subst. reflexivity.
Qed.

(** X25. An application report replaces the inventory of the device.  With a
    store that answers, after [processAppList] the inventory rows of the
    device are those of the reported applications (every row carries the
    bundle id and version of a reported application, and its name, or its
    bundle id when the name is missing or empty; every reported bundle id
    has a row), the [is_blocked] flag of each agrees with the list of
    blocked applications, and the rows of other devices are as before.  A
    [prohibited_apps_detected] event is logged exactly when a reported
    application is on the blocked list and not reported as a system
    application. *)
Theorem app_report_replaces_the_inventory :
  forall deviceId apps now w,
    faults w = [] ->
    let w' := after (processAppList deviceId (Some apps) now) w in
    let blocked := blocked_apps (db w) in
    (forall r,
       In r (device_app_inventory (db w')) -> ai_device_id r = deviceId ->
       (exists app,
          In app apps
          /\ ai_bundle_identifier r = app_BundleIdentifier app
          /\ ai_app_name r = str_or (app_Name app) (app_BundleIdentifier app)
          /\ ai_version r = app_Version app)
       /\ ai_is_blocked r = str_mem (ai_bundle_identifier r) blocked)
    /\ (forall app, In app apps ->
          exists r, In r (device_app_inventory (db w'))
                    /\ ai_device_id r = deviceId
                    /\ ai_bundle_identifier r = app_BundleIdentifier app)
    /\ List.filter (fun r => negb (ai_device_id r =? deviceId))
         (device_app_inventory (db w'))
       = List.filter (fun r => negb (ai_device_id r =? deviceId))
           (device_app_inventory (db w))
    /\ (mdm_device_events (db w') = mdm_device_events (db w)
        <-> forall app, In app apps ->
              str_mem (app_BundleIdentifier app) blocked = true ->
              app_IsSystemApp app = Some true)
    /\ same_memory w w'.
Proof.
  intros deviceId apps now w Hf w' blocked.
  pose proof (processAppList_store deviceId apps now w Hf) as Hstore.
  simpl in Hstore. fold w' in Hstore. fold blocked in Hstore.
  set (prohibited :=
         List.filter
           (fun app => str_mem (app_BundleIdentifier app) blocked
                       && negb (default false (app_IsSystemApp app))) apps)
    in Hstore.
  set (d0 := delete_app_inventory deviceId (db w)) in Hstore.
  assert (Hnone : forall r, In r (device_app_inventory d0) ->
                            ai_device_id r <> deviceId).
  { unfold d0, delete_app_inventory. simpl. intros r Hr Hid.
    apply filter_In in Hr. destruct Hr as [_ Hr].
    rewrite Hid, Z.eqb_refl in Hr. discriminate. }
  destruct (inventory_after_rows deviceId blocked now apps d0)
    as (Hrows & Hhas & _ & Hothers).
  { intros r Hr Hid. exfalso. exact (Hnone r Hr Hid). }
  assert (Hinv : device_app_inventory (db w')
                 = device_app_inventory
                     (inventory_after deviceId blocked now apps d0))
    by (rewrite Hstore; destruct prohibited; reflexivity).
  assert (Hev : mdm_device_events (db w')
                = mdm_device_events (db w)
                  ++ match prohibited with
                     | [] => []
                     | _ :: _ =>
                         [{| ev_device_id := RecordId deviceId;
                             ev_event_type := "prohibited_apps_detected";
                             ev_event_data :=
                               EvProhibitedApps
                                 (map (fun a => (app_BundleIdentifier a, app_Name a))
                                    prohibited) |}]
                     end).
  { rewrite Hstore. destruct prohibited; simpl;
      rewrite (proj1 (inventory_after_tables deviceId blocked now apps d0));
      unfold d0; simpl; rewrite ?app_nil_r; reflexivity. }
  split; [|split; [|split; [|split]]].
  - intros r Hr Hid. rewrite Hinv in Hr.
    destruct (Hrows r Hr Hid) as [_ Hblk]. split; [|exact Hblk].
    destruct (inventory_after_names deviceId blocked now apps d0 r Hr)
      as [Hold|(app & Happ & _ & Hb & Hname & Hversion)].
    + exfalso. exact (Hnone r Hold Hid).
    + exists app. repeat split; assumption.
  - intros app Happ. rewrite Hinv. apply Hhas. exact Happ.
  - rewrite Hinv, Hothers. unfold d0, delete_app_inventory. simpl.
    induction (device_app_inventory (db w)) as [|r l IH]; [reflexivity|].
    simpl. destruct (negb (ai_device_id r =? deviceId)) eqn:Hr; simpl;
      rewrite ?Hr; rewrite IH; reflexivity.
  - rewrite Hev. split.
    + intros Hsame app Happ Hblocked.
      destruct prohibited as [|a l] eqn:Hp;
        [|exfalso; exact (app_one_neq _ _ Hsame)].
      destruct (app_IsSystemApp app) as [[|]|] eqn:Hsys; [reflexivity| |];
        exfalso;
        assert (Hin : In app prohibited)
          by (unfold prohibited; apply filter_In; split; [exact Happ|];
              rewrite Hblocked, Hsys; reflexivity);
        rewrite Hp in Hin; destruct Hin.
    + intros Hall. destruct prohibited as [|a l] eqn:Hp; [apply app_nil_r|].
      exfalso.
      assert (Hin : In a prohibited) by (rewrite Hp; left; reflexivity).
      unfold prohibited in Hin. apply filter_In in Hin.
      destruct Hin as [Ha Hcond]. apply andb_true_iff in Hcond.
      destruct Hcond as [Hb Hs]. rewrite (Hall a Ha Hb) in Hs. discriminate.
  - rewrite Hstore. apply same_memory_with_db.
Qed.

Lemma app_report_replaces_the_inventory_witness :
  let apps := sample_app_report in
  let w' := after (processAppList 7 (Some apps) 60) supervised_server in
  let blocked := blocked_apps (db supervised_server) in
  (forall r,
     In r (device_app_inventory (db w')) -> ai_device_id r = 7 ->
     (exists app,
        In app apps
        /\ ai_bundle_identifier r = app_BundleIdentifier app
        /\ ai_app_name r = str_or (app_Name app) (app_BundleIdentifier app)
        /\ ai_version r = app_Version app)
     /\ ai_is_blocked r = str_mem (ai_bundle_identifier r) blocked)
  /\ (forall app, In app apps ->
        exists r, In r (device_app_inventory (db w'))
                  /\ ai_device_id r = 7
                  /\ ai_bundle_identifier r = app_BundleIdentifier app)
  /\ List.filter (fun r => negb (ai_device_id r =? 7))
       (device_app_inventory (db w'))
     = List.filter (fun r => negb (ai_device_id r =? 7))
         (device_app_inventory (db supervised_server))
  /\ (mdm_device_events (db w') = mdm_device_events (db supervised_server)
      <-> forall app, In app apps ->
            str_mem (app_BundleIdentifier app) blocked = true ->
            app_IsSystemApp app = Some true)
  /\ same_memory supervised_server w'.
Proof.
  apply (app_report_replaces_the_inventory 7 sample_app_report 60
           supervised_server).
  reflexivity.
Defined.

(** The sample report on the supervised store: the old row of [device-a]
    is gone, the row of [device-b] stays, the blocked application has one
    row, first written under its bundle identifier for want of a name and
    then renamed by its second entry, and the event names both entries of
    the blocked application. *)
Example sample_report_replaces_the_inventory :
  let w' := after (processAppList 7 (Some sample_app_report) 60) supervised_server in
  map (fun r => (ai_device_id r, ai_bundle_identifier r, ai_app_name r,
                 ai_is_blocked r))
    (device_app_inventory (db w'))
  = [ (8, "com.example.vpn", "VPN", true);
      (7, "com.example.vpn", "Tunnel", true);
      (7, "com.apple.mobilesafari", "Safari", false) ]
  /\ map (fun r => ai_app_name r)
       (device_app_inventory
          (db (after (processAppList 7 (Some (take 1 sample_app_report)) 60)
                 supervised_server)))
     = [ "VPN"; "com.example.vpn" ]
  /\ mdm_device_events (db w')
     = [ {| ev_device_id := RecordId 7;
            ev_event_type := "prohibited_apps_detected";
            ev_event_data :=
              EvProhibitedApps [ ("com.example.vpn", Some "");
                                 ("com.example.vpn", Some "Tunnel") ] |} ].
Proof. vm_compute. repeat split; reflexivity. Qed.

(** ** A server without a push provider *)

#[local] Instance provider_kept_frame : Frame provider_kept.
Proof.
  split; unfold provider_kept.
  - intros w. split; [reflexivity | intros _; reflexivity].
  - intros w1 w2 w3 [Ha1 Hp1] [Ha2 Hp2]. split; [congruence|].
    intros Hoff. rewrite Hp2, Hp1; congruence.
  - intros w. split; [reflexivity | intros _; reflexivity].
  - intros w n. split; [reflexivity | intros _; reflexivity].
Qed.

Lemma sendPushNotification_provider config deviceId pushToken pushMagic :
  framed provider_kept (sendPushNotification config deviceId pushToken pushMagic).
Proof.
  intros w. unfold sendPushNotification, bind, get_world, modify, ret.
  destruct (apnProvider w) eqn:Hp; simpl.
  - split; [reflexivity | intros; congruence].
  - split; [reflexivity | intros _; reflexivity].
Qed.

(** A store statement or a change of the maps, seen from [provider_kept]. *)
Ltac frame_provider_leaf :=
  first [ apply sendPushNotification_provider
        | apply framed_db_exec; try exact _; intros ?;
            split; [reflexivity | intros _; reflexivity]
        | apply framed_modify; try exact _; intros ?;
            split; [reflexivity | intros _; reflexivity] ].

Lemma insertAppInventory_provider id blocked now apps :
  framed provider_kept (insertAppInventory id blocked now apps).
Proof.
  induction apps as [|app rest IH]; simpl.
  - frame_step.
  - frame_step; [frame_provider_leaf | exact IH].
Qed.

Lemma insertCommands_provider id commands :
  framed provider_kept (insertCommands id commands).
Proof.
  induction commands as [|command rest IH]; simpl.
  - frame_step.
  - frame_step; [frame_provider_leaf | exact IH].
Qed.

Lemma handleCheckIn_provider config deviceId body now :
  framed provider_kept (handleCheckIn config deviceId body now).
Proof.
  unfold handleCheckIn, handleAuthenticate, handleTokenUpdate, handleCheckOut,
    getPendingCommands, logDeviceEvent.
  repeat (frame_provider_leaf || frame_step).
Qed.

Lemma handleCommand_provider deviceId body now :
  framed provider_kept (handleCommand deviceId body now).
Proof.
  unfold handleCommand, processCommandResponse, getNextCommand,
    getPendingCommands, processProfileList, processSecurityInfo, processAppList,
    processRestrictions, logDeviceEvent.
  repeat (frame_provider_leaf || apply insertAppInventory_provider || frame_step).
Qed.

Lemma generateSupervisionProfile_provider
    config plist_build pkcs7_sign deviceId userId settings securityLevel
    isWebOnly enrollmentCode now storedAt answeredAt :
  framed provider_kept
    (generateSupervisionProfile config plist_build pkcs7_sign deviceId userId
       settings securityLevel isWebOnly enrollmentCode now storedAt answeredAt).
Proof.
  unfold generateSupervisionProfile, buildSupervisionProfile, buildMDMPayload,
    buildContentFilterPayload, compileBlockedDomains, buildRestrictionsPayload,
    buildSecurityPayload.
  repeat (frame_provider_leaf || frame_step).
Qed.

Lemma route_provider config plist_build pkcs7_sign r now :
  framed provider_kept (route config plist_build pkcs7_sign r now).
Proof.
  destruct r; simpl route.
  - apply handleCheckIn_provider.
  - apply handleCommand_provider.
  - unfold handleEnrollment. repeat (frame_provider_leaf || frame_step).
  - unfold getEnrollmentProfile, logDeviceEvent.
    repeat (frame_provider_leaf || frame_step).
  - apply generateSupervisionProfile_provider.
  - unfold getDeviceStatus. repeat (frame_provider_leaf || frame_step).
  - unfold sendCommand, buildCommand, wakeDevice.
    repeat (frame_provider_leaf || frame_step).
  - unfold verifyDevice, buildCommand, wakeDevice.
    repeat (frame_provider_leaf || apply insertCommands_provider || frame_step).
  - unfold health. repeat (frame_provider_leaf || frame_step).
Qed.

(** X26. Without a push provider nothing is pushed.  On a server whose
    provider was not created (no APNS configuration, or a provider whose
    construction failed), no request, on whatever route, under whatever
    path and with whatever key, adds to the push log; the provider stays
    absent, so the same holds for every later request. *)
Theorem no_provider_no_push :
  forall config plist_build pkcs7_sign x_api_key path r now w,
    apnProvider w = false ->
    let w' := after (handle config plist_build pkcs7_sign x_api_key path r now) w in
    pushes w' = pushes w /\ apnProvider w' = false.
Proof.
  intros config plist_build pkcs7_sign x_api_key path r now w Hoff w'.
  assert (H : provider_kept w w').
  { unfold w', after, handle.
    match goal with
    | |- context [if ?b then _ else _] => destruct b
    end; [apply route_provider | apply frame_refl]. }
  destruct H as [Ha Hp]. split; [exact (Hp Hoff) | congruence].
Qed.

Lemma no_provider_no_push_witness :
  let w := server_without_provider in
  let w' := after (handle sample_config sample_plist sample_sign
                     (Some "development-key") "/mdm/devices/device-a/command"
                     (PostDeviceCommand "device-a" "DeviceLock" []) 30) w in
  pushes w' = pushes w /\ apnProvider w' = false.
Proof.
  apply (no_provider_no_push sample_config sample_plist sample_sign
           (Some "development-key") "/mdm/devices/device-a/command"
           (PostDeviceCommand "device-a" "DeviceLock" []) 30
           server_without_provider).
  vm_compute. reflexivity.
Defined.

(** ** The API key *)

(** X27. The API key is waived by the letters of the path, not by the
    route.  A request whose path starts, letter for letter, with
    [/mdm/checkin/] or [/mdm/server/] is handed to its route whatever key it
    carries.  Every other request (also one that the router hands to the
    check-in or the command handler under a path in other letter case)
    without the [x-api-key] header, with an empty one or with one that
    differs from the configured key is answered 401 and changes nothing; in
    particular, when the configured key is empty, no key opens these
    requests.  A request that carries the configured, non-empty key is
    handed to its route.  Of the paths as [setupRoutes] writes them, the
    ones that waive the key are those of the check-in and the command
    route. *)
Theorem operator_routes_need_the_api_key :
  forall config plist_build pkcs7_sign x_api_key path r now w,
    let answer := handle config plist_build pkcs7_sign x_api_key path r now w in
    (String.prefix "/mdm/checkin/" path = true
     \/ String.prefix "/mdm/server/" path = true ->
     answer = route config plist_build pkcs7_sign r now w)
    /\ (String.prefix "/mdm/checkin/" path = false ->
        String.prefix "/mdm/server/" path = false ->
        x_api_key = None \/ x_api_key = Some "" \/ x_api_key <> Some (apiKey config) ->
        answer = (Ok (RError 401 "Invalid API key"), w))
    /\ (x_api_key = Some (apiKey config) -> apiKey config <> "" ->
        answer = route config plist_build pkcs7_sign r now w)
    /\ bypasses_api_key (route_path r) = is_protocol_endpoint r.
Proof.
  intros config plist_build pkcs7_sign x_api_key path r now w answer.
  unfold answer, handle, api_key_check, bypasses_api_key.
  split; [|split; [|split]].
  - intros [-> | ->]; rewrite ?orb_true_r; reflexivity.
  - intros -> -> Hkey. rewrite orb_false_r.
    destruct x_api_key as [k|]; [|reflexivity].
    destruct (String.eqb_spec k "") as [->|Hne]; [reflexivity|].
    destruct (String.eqb_spec k (apiKey config)) as [->|_]; [|reflexivity].
    exfalso. destruct Hkey as [H|[H|H]]; congruence.
  - intros -> Hne. rewrite String.eqb_refl.
    destruct (String.eqb_spec (apiKey config) "") as [H|_]; [contradiction|].
    reflexivity.
  - destruct r; simpl route_path; simpl is_protocol_endpoint;
      rewrite ?prefix_append, ?orb_true_r; reflexivity.
Qed.

Lemma operator_routes_need_the_api_key_witness :
  handle sample_config sample_plist sample_sign None "/MDM/CheckIn/device-a"
    (PutCheckIn "device-a" (Some (check_in_message "TokenUpdate"))) 30
    server_with_session
  = (Ok (RError 401 "Invalid API key"), server_with_session).
Proof.
  apply (proj1 (proj2 (operator_routes_need_the_api_key sample_config sample_plist
                         sample_sign None "/MDM/CheckIn/device-a"
                         (PutCheckIn "device-a"
                            (Some (check_in_message "TokenUpdate")))
                         30 server_with_session))).
  - reflexivity.
  - reflexivity.
  - left. reflexivity.
Defined.

(** The same check-in under the path as [setupRoutes] writes it needs no
    key. *)
Example check_in_path_in_other_case_needs_the_key :
  fst (handle sample_config sample_plist sample_sign None "/mdm/checkin/device-a"
         (PutCheckIn "device-a" (Some (check_in_message "TokenUpdate"))) 30
         server_with_session)
  = Ok (RStatus 200)
  /\ fst (handle sample_config sample_plist sample_sign None "/MDM/CheckIn/device-a"
            (PutCheckIn "device-a" (Some (check_in_message "TokenUpdate"))) 30
            server_with_session)
     = Ok (RError 401 "Invalid API key").
Proof. vm_compute. split; reflexivity. Qed.

(** ** Device status *)

Lemma obj_get_pendingCommands_status (a b c d e f g h i j : JValue) :
  obj_get "pendingCommands"
    [ ("deviceId", a); ("online", b); ("lastCheckIn", c); ("supervised", d);
      ("pendingCommands", e); ("profileInstalled", f); ("securityLevel", g);
      ("deviceInfo.model", h); ("deviceInfo.osVersion", i);
      ("deviceInfo.serialNumber", j) ] = Some e
  /\ obj_get "online"
       [ ("deviceId", a); ("online", b); ("lastCheckIn", c); ("supervised", d);
         ("pendingCommands", e); ("profileInstalled", f); ("securityLevel", g);
         ("deviceInfo.model", h); ("deviceInfo.osVersion", i);
         ("deviceInfo.serialNumber", j) ] = Some b.
Proof. split; reflexivity. Qed.

(** X28. The status of a device is read, never written, and counts the
    in-memory queue only.  [getDeviceStatus] changes neither the maps nor
    the store.  For a registered device and a store that answers it reports
    the device online exactly when it has an in-memory session, and as the
    number of pending commands the length of its in-memory queue; the rows
    of [mdm_commands] have no influence on the answer, so commands that are
    pending in the store alone are not counted. *)
Theorem status_counts_the_memory_queue_only :
  forall deviceId w,
    same_store w (after (getDeviceStatus deviceId) w)
    /\ (forall rows,
          fst (getDeviceStatus deviceId (with_db (set_mdm_commands rows (db w)) w))
          = fst (getDeviceStatus deviceId w))
    /\ (query_fails w = false ->
        select_device deviceId (db w) = [] ->
        fst (getDeviceStatus deviceId w) = Ok (RError 404 "Device not found"))
    /\ (query_fails w = false ->
        select_device deviceId (db w) <> [] ->
        exists body,
          fst (getDeviceStatus deviceId w) = Ok (RJson body)
          /\ obj_get "online" body
             = Some (JBool (bool_decide (is_Some (deviceSessions w !! deviceId))))
          /\ obj_get "pendingCommands" body
             = Some (JNum (Z.of_nat
                             (length (default [] (pendingCommands w !! deviceId)))))).
Proof.
  intros deviceId w. split; [|split; [|split]].
  - assert (H : framed same_store (getDeviceStatus deviceId))
      by (unfold getDeviceStatus; repeat frame_step).
    apply H.
  - intros rows.
    unfold getDeviceStatus, try_catch, bind, get_world, db_select, query_fails.
    simpl. destruct (hd false (faults w)); [reflexivity|].
    change (select_device_status deviceId (set_mdm_commands rows (db w)))
      with (select_device_status deviceId (db w)).
    destruct (select_device_status deviceId (db w)) as [|[[dp mds] sp] l];
      reflexivity.
  - intros Hq Hnone.
    unfold getDeviceStatus, try_catch, bind, get_world, db_select.
    rewrite Hq. unfold select_device_status. rewrite Hnone. reflexivity.
  - intros Hq Hsome.
    unfold getDeviceStatus, try_catch, bind, get_world, db_select.
    rewrite Hq. unfold select_device_status.
    destruct (select_device deviceId (db w)) as [|dp l]; [contradiction|].
    simpl. eexists. split; [reflexivity|].
    split; apply obj_get_pendingCommands_status.
Qed.

(** The restarted server of the backlog reports no pending command for
    [device-a] after the device took the newer one, while two commands are
    pending in the store. *)
Example status_misses_the_durable_backlog :
  let w := after (handleCommand "device-a" (Some (acknowledgement 2%nat)) 40)
             server_restarted_with_backlog in
  (exists body,
     fst (getDeviceStatus "device-a" w) = Ok (RJson body)
     /\ obj_get "pendingCommands" body = Some (JNum 0))
  /\ map CommandUUID (select_pending_commands 7 (db w)) = [ 0%nat; 1%nat ].
Proof.
  split; [eexists; split; vm_compute; reflexivity | vm_compute; reflexivity].
Qed.

(** ** Shutdown *)

(** X29. A shutdown forgets the issued codes, the sessions and the queues,
    and keeps the store.  On the server it leaves, and so on a server
    started again on the same store, no enrollment code resolves, even
    before its expiry; a token update of any device is refused with 401
    until the device authenticates again; a check-out is answered 200 and a
    command response is dropped, both without a store statement. *)
Theorem shutdown_forgets_codes_and_sessions :
  forall w,
    let w' := shutdown w in
    db w' = db w
    /\ (forall code now,
          getEnrollmentProfile code now w'
          = (Ok (RError 404 "Invalid enrollment code"), w'))
    /\ (forall config deviceId data now,
          handleTokenUpdate config deviceId data now w' = (Ok (RStatus 401), w'))
    /\ (forall deviceId data,
          handleCheckOut deviceId data w' = (Ok (RStatus 200), w'))
    /\ (forall deviceId response now,
          processCommandResponse deviceId response now w' = (Ok tt, w')).
Proof.
  intros w w'. split; [reflexivity|]. split; [|split; [|split]].
  - intros code now. unfold getEnrollmentProfile, bind, get_world.
    unfold w', shutdown. simpl. rewrite lookup_empty. reflexivity.
  - intros config deviceId data now. unfold handleTokenUpdate, bind, get_world.
    unfold w', shutdown. simpl. rewrite lookup_empty. reflexivity.
  - intros deviceId data. unfold handleCheckOut, bind, get_world.
    unfold w', shutdown. simpl. rewrite lookup_empty. reflexivity.
  - intros deviceId response now. unfold processCommandResponse, bind, get_world.
    unfold w', shutdown. simpl. rewrite lookup_empty. reflexivity.
Qed.

(** The code issued on the sample server resolves before the shutdown and
    is unknown after it. *)
Example shutdown_invalidates_an_issued_code :
  fst (getEnrollmentProfile "K7Q2M9" 10 server_after_issue)
  <> Ok (RError 404 "Invalid enrollment code")
  /\ fst (getEnrollmentProfile "K7Q2M9" 10 (shutdown server_after_issue))
     = Ok (RError 404 "Invalid enrollment code").
Proof. split; [vm_compute; discriminate | vm_compute; reflexivity]. Qed.
